(** * BeagleMind direct GitHub ingester: a shallow embedding

    This development embeds [src/github_direct_ingester.py] (class
    [GitHubDirectIngester]) and states the properties of its ingestion
    pipeline as theorems.

    Conventions of the embedding.
    - A Python [str] is a [string]; a character is an [ascii], read as the
      code point of the same number (the Latin-1 range 0..255).  Character
      predicates ([str.isspace], [str.lower], the classes of [re]) are the
      ones Python has on that range.
    - A Python [float] score is an exact rational ([Q]); [int / int] and
      [min] are the exact operations.
    - Exceptions are values of [exn]; a method that logs, draws UUIDs, talks
      to GitHub or to Milvus is a function [World -> Result A * World].
    - What the program obtains from outside (HTTP responses, the chunker,
      the embedding model, the iteration order of a [set], [urljoin], the
      clock, the random UUIDs) is a variable of the enclosing Section.
    - The worker pool runs one task per file; the tasks are taken in the
      order in which they complete.  Durations measured with [time.time()]
      are left out.
    - The constructor and [main] run in a [Process]: the world, the calls
      made to Milvus, the seconds slept and the lines printed. *)

From Stdlib Require Import Bool Arith ZArith NArith QArith Qminmax Lia List
  Ascii String Sorted Permutation.
Import ListNotations.

Close Scope Q_scope.
Local Open Scope string_scope.
Local Open Scope list_scope.
Local Open Scope nat_scope.

Set Warnings "-comment-terminator-in-string".

(** ** Python strings *)

Module PyStr.

Definition chr (n : nat) : ascii := ascii_of_nat n.
Definition ord (c : ascii) : nat := nat_of_ascii c.

Definition in_range (lo hi : nat) (c : ascii) : bool :=
  (lo <=? ord c)%nat && (ord c <=? hi)%nat.

(** [str.isspace] on one character: TAB..CR, FS..US, SPACE, NEL, NBSP. *)
Definition isspace (c : ascii) : bool :=
  in_range 9 13 c || in_range 28 32 c || (ord c =? 133)%nat || (ord c =? 160)%nat.

Definition is_upper (c : ascii) : bool :=
  in_range 65 90 c || in_range 192 214 c || in_range 216 222 c.

Definition is_lower_with_upper (c : ascii) : bool :=
  in_range 97 122 c || in_range 224 246 c || in_range 248 254 c.

Definition lower_char (c : ascii) : ascii :=
  if is_upper c then chr (ord c + 32) else c.

Definition upper_char (c : ascii) : ascii :=
  if is_lower_with_upper c then chr (ord c - 32) else c.

(** [str.isalnum() or c == '_'] on one character, the class [\w] of [re]. *)
Definition isword (c : ascii) : bool :=
  in_range 48 57 c || in_range 65 90 c || in_range 97 122 c || (ord c =? 95)%nat
  || (ord c =? 170)%nat || in_range 178 179 c || (ord c =? 181)%nat
  || in_range 185 186 c || in_range 188 190 c
  || in_range 192 214 c || in_range 216 246 c || in_range 248 255 c.

Fixpoint lower (s : string) : string :=
  match s with
  | EmptyString => EmptyString
  | String c t => String (lower_char c) (lower t)
  end.

Fixpoint lstrip (s : string) : string :=
  match s with
  | String c t => if isspace c then lstrip t else s
  | EmptyString => EmptyString
  end.

(** [rstrip_by p s] drops the longest suffix of characters satisfying [p]. *)
Fixpoint rstrip_by (p : ascii -> bool) (s : string) : string :=
  match s with
  | EmptyString => EmptyString
  | String c t =>
      match rstrip_by p t with
      | EmptyString => if p c then EmptyString else String c EmptyString
      | t' => String c t'
      end
  end.

Definition rstrip (s : string) : string := rstrip_by isspace s.

(** [s.strip()] *)
Definition strip (s : string) : string := rstrip (lstrip s).

(** [s.rstrip(c)] for a one-character argument. *)
Definition rstrip_char (c : ascii) (s : string) : string :=
  rstrip_by (Ascii.eqb c) s.

(** [len(s)] *)
Definition len (s : string) : nat := String.length s.

(** [s.startswith(p)] *)
Definition startswith (p s : string) : bool := String.prefix p s.

(** [s.startswith((p1, p2, ...))] *)
Definition startswith_any (ps : list string) (s : string) : bool :=
  existsb (fun p => startswith p s) ps.

(** [sub in s] *)
Fixpoint contains (sub s : string) : bool :=
  String.prefix sub s ||
  match s with
  | EmptyString => false
  | String _ t => contains sub t
  end.

(** [s[:n]] for [n >= 0] *)
Fixpoint take (n : nat) (s : string) : string :=
  match n, s with
  | S n', String c t => String c (take n' t)
  | _, _ => EmptyString
  end.

(** [s[n:]] for [n >= 0] *)
Fixpoint drop (n : nat) (s : string) : string :=
  match n, s with
  | S n', String _ t => drop n' t
  | _, _ => s
  end.

(** [s[:L]] with the bound kept in binary. *)
Definition slice_to (L : N) (s : string) : string := take (N.to_nat L) s.

(** [s[:-k]] for [k > 0] *)
Definition drop_last (k : nat) (s : string) : string := take (len s - k) s.

(** [s.endswith(p)] *)
Definition endswith (p s : string) : bool :=
  (len p <=? len s)%nat && String.eqb (drop (len s - len p) s) p.

(** [s.split(c)] for a one-character separator: never empty. *)
Fixpoint split (sep : ascii) (s : string) : list string :=
  match s with
  | EmptyString => [EmptyString]
  | String c t =>
      if Ascii.eqb c sep then EmptyString :: split sep t
      else match split sep t with
           | w :: ws => String c w :: ws
           | [] => [String c EmptyString]
           end
  end.

(** [s.count(sub)] for a non-empty [sub]: occurrences that do not overlap,
    scanning from the left.  [skip] counts the characters of the occurrence
    just found that are still to be passed. *)
Fixpoint count_from (sub s : string) (skip : nat) : nat :=
  match s with
  | EmptyString => 0
  | String _ t =>
      match skip with
      | S k => count_from sub t k
      | O => if String.prefix sub s then S (count_from sub t (len sub - 1))
             else count_from sub t 0
      end
  end.

Definition count (sub s : string) : nat := count_from sub s 0.

(** An f-string: the concatenation of its pieces. *)
Definition fstr (parts : list string) : string := String.concat "" parts.

(** [str(n)] for a non-negative [int]. *)
Fixpoint digits (fuel n : nat) (acc : string) : string :=
  match fuel with
  | O => acc
  | S f =>
      let acc' := String (chr (48 + n mod 10)) acc in
      if (n / 10 =? 0)%nat then acc' else digits f (n / 10) acc'
  end.

Definition str_of_nat (n : nat) : string := digits (S n) n "".

Definition str_of_Z (z : Z) : string :=
  if (z <? 0)%Z then String "-" (str_of_nat (Z.to_nat (- z))) else str_of_nat (Z.to_nat z).

End PyStr.

Import PyStr.

(** ** The regular expressions of Python's [re]

    A backtracking matcher with the priorities of [re]: the first
    alternative first, a greedy repetition as many times as possible, a lazy
    one as few, and the leftmost match at each scan.  Patterns are written as
    syntax trees; capturing groups carry their number. *)

Module Re.

Inductive item : Type :=
| IChar (c : ascii)
| IRange (lo hi : ascii)
| ISpace
| IWord.

Inductive re : Type :=
| Lit (s : string)
| Any
| Cls (negated : bool) (items : list item)
| Cat (a b : re)
| Alt (a b : re)
| Rep (lo : nat) (hi : option nat) (greedy : bool) (a : re)
| Grp (n : nat) (a : re)
| Bol
| WordB.

Record flags : Type := { ignorecase : bool; multiline : bool; dotall : bool }.

Definition no_flags : flags := {| ignorecase := false; multiline := false; dotall := false |}.
Definition IGNORECASE : flags := {| ignorecase := true; multiline := false; dotall := false |}.
Definition MULTILINE : flags := {| ignorecase := false; multiline := true; dotall := false |}.
Definition DOTALL : flags := {| ignorecase := false; multiline := false; dotall := true |}.
Definition DOTALL_IGNORECASE : flags := {| ignorecase := true; multiline := false; dotall := true |}.

(** The matcher's position: the character just passed (none at the start of
    the text), the text ahead, and the groups captured so far (latest first). *)
Record cursor : Type := { before : option ascii; rest : string; groups : list (nat * string) }.

Definition newline : ascii := "010"%char.

Definition item_has (c : ascii) (i : item) : bool :=
  match i with
  | IChar d => Ascii.eqb c d
  | IRange lo hi => in_range (ord lo) (ord hi) c
  | ISpace => isspace c
  | IWord => isword c
  end.

Definition items_have (f : flags) (items : list item) (c : ascii) : bool :=
  existsb (item_has c) items
  || (ignorecase f
      && (existsb (item_has (lower_char c)) items || existsb (item_has (upper_char c)) items)).

Definition char_eq (f : flags) (p c : ascii) : bool :=
  Ascii.eqb p c || (ignorecase f && Ascii.eqb (lower_char p) (lower_char c)).

Definition advance (c : ascii) (t : string) (cur : cursor) : cursor :=
  {| before := Some c; rest := t; groups := groups cur |}.

Fixpoint eat (f : flags) (p : string) (cur : cursor) : option cursor :=
  match p with
  | EmptyString => Some cur
  | String pc pt =>
      match rest cur with
      | String c t => if char_eq f pc c then eat f pt (advance c t cur) else None
      | EmptyString => None
      end
  end.

Definition at_line_start (f : flags) (cur : cursor) : bool :=
  match before cur with
  | None => true
  | Some c => multiline f && Ascii.eqb c newline
  end.

Definition at_word_boundary (cur : cursor) : bool :=
  let left := match before cur with Some c => isword c | None => false end in
  let right := match rest cur with String c _ => isword c | EmptyString => false end in
  xorb left right.

Definition set_group (n : nat) (start stop : cursor) : cursor :=
  {| before := before stop; rest := rest stop;
     groups := (n, take (len (rest start) - len (rest stop)) (rest start)) :: groups stop |}.

(** [a{lo,hi}]: [one] matches [a] once.  An optional iteration must consume
    a character, so [fuel = lo + 1 + len (rest cur)] iterations are enough. *)
Fixpoint rep (one : cursor -> (cursor -> option cursor) -> option cursor)
    (lo : nat) (hi : option nat) (greedy : bool) (fuel : nat)
    (cur : cursor) (k : cursor -> option cursor) {struct fuel} : option cursor :=
  match fuel with
  | O => if (lo =? 0)%nat then k cur else None
  | S fuel' =>
      let again (_ : unit) :=
        match hi with
        | Some O => None
        | _ =>
            one cur (fun cur' =>
              if (0 <? lo)%nat || (len (rest cur') <? len (rest cur))%nat
              then rep one (pred lo) (option_map pred hi) greedy fuel' cur' k
              else None)
        end in
      if (0 <? lo)%nat then again tt
      else if greedy then
        match again tt with Some r => Some r | None => k cur end
      else
        match k cur with Some r => Some r | None => again tt end
  end.

Fixpoint run (f : flags) (r : re) (cur : cursor) (k : cursor -> option cursor)
    {struct r} : option cursor :=
  match r with
  | Lit s => match eat f s cur with Some cur' => k cur' | None => None end
  | Any =>
      match rest cur with
      | String c t =>
          if dotall f || negb (Ascii.eqb c newline) then k (advance c t cur) else None
      | EmptyString => None
      end
  | Cls negated items =>
      match rest cur with
      | String c t =>
          if xorb negated (items_have f items c) then k (advance c t cur) else None
      | EmptyString => None
      end
  | Cat a b => run f a cur (fun cur' => run f b cur' k)
  | Alt a b => match run f a cur k with Some x => Some x | None => run f b cur k end
  | Rep lo hi greedy a => rep (run f a) lo hi greedy (lo + S (len (rest cur))) cur k
  | Grp n a => run f a cur (fun cur' => k (set_group n cur cur'))
  | Bol => if at_line_start f cur then k cur else None
  | WordB => if at_word_boundary cur then k cur else None
  end.

(** A match object: [group(0)] and the numbered groups. *)
Record Match : Type := { whole : string; captured : list (nat * string) }.

Fixpoint lookup (n : nat) (gs : list (nat * string)) : option string :=
  match gs with
  | [] => None
  | (m, s) :: gs' => if (m =? n)%nat then Some s else lookup n gs'
  end.

(** [m.group(n)].  Every group of the patterns of this program takes part
    in every match, so the value is a string; a group that took no part
    reads as the empty string here, as in [re.findall]. *)
Definition group (n : nat) (m : Match) : string :=
  match n with
  | O => whole m
  | _ => match lookup n (captured m) with Some s => s | None => "" end
  end.

(** The number of capturing groups, [len(m.groups())]. *)
Fixpoint ngroups (r : re) : nat :=
  match r with
  | Cat a b | Alt a b => ngroups a + ngroups b
  | Rep _ _ _ a => ngroups a
  | Grp _ a => S (ngroups a)
  | _ => 0
  end.

Definition match_here (f : flags) (r : re) (b : option ascii) (s : string) : option Match :=
  match run f r {| before := b; rest := s; groups := [] |} Some with
  | Some cur => Some {| whole := take (len s - len (rest cur)) s; captured := groups cur |}
  | None => None
  end.

(** A scan of the text cuts it into matches and the characters between them. *)
Inductive segment : Type :=
| Hit (m : Match)
| Miss (c : ascii).

(** [skip] is the number of characters of the last match still to pass.  An
    empty match is reported and the scan moves on by one character (no
    pattern of this program matches the empty string). *)
Fixpoint scan (f : flags) (r : re) (b : option ascii) (s : string) (skip : nat)
    {struct s} : list segment :=
  match s with
  | EmptyString =>
      match skip with
      | O => match match_here f r b EmptyString with Some m => [Hit m] | None => [] end
      | S _ => []
      end
  | String c t =>
      match skip with
      | S k => scan f r (Some c) t k
      | O =>
          match match_here f r b s with
          | Some m =>
              match len (whole m) with
              | O => Hit m :: Miss c :: scan f r (Some c) t 0
              | S k => Hit m :: scan f r (Some c) t k
              end
          | None => Miss c :: scan f r (Some c) t 0
          end
      end
  end.

Fixpoint hits (segs : list segment) : list Match :=
  match segs with
  | [] => []
  | Hit m :: segs' => m :: hits segs'
  | Miss _ :: segs' => hits segs'
  end.

(** [re.finditer(r, s, flags)] *)
Definition finditer (f : flags) (r : re) (s : string) : list Match :=
  hits (scan f r None s 0).

(** [re.findall(r, s, flags)] for a pattern with no group, and with one. *)
Definition findall (f : flags) (r : re) (s : string) : list string :=
  map whole (finditer f r s).

Definition findall1 (f : flags) (r : re) (s : string) : list string :=
  map (group 1) (finditer f r s).

(** [re.search(r, s, flags)] as a truth value. *)
Definition search (f : flags) (r : re) (s : string) : bool :=
  match finditer f r s with [] => false | _ :: _ => true end.

(** [re.match(r, s)] *)
Definition match_ (f : flags) (r : re) (s : string) : option Match :=
  match_here f r None s.

(** [re.sub(r, repl, s, flags)] for a replacement without group references. *)
Fixpoint replace (repl : string) (segs : list segment) : string :=
  match segs with
  | [] => EmptyString
  | Hit _ :: segs' => (repl ++ replace repl segs')%string
  | Miss c :: segs' => String c (replace repl segs')
  end.

Definition sub (f : flags) (r : re) (repl s : string) : string :=
  replace repl (scan f r None s 0).

(** Pattern syntax. *)
Fixpoint seq (rs : list re) : re :=
  match rs with
  | [] => Lit ""
  | [r] => r
  | r :: rs' => Cat r (seq rs')
  end.

Fixpoint alts (rs : list re) : re :=
  match rs with
  | [] => Cls false []
  | [r] => r
  | r :: rs' => Alt r (alts rs')
  end.

Definition star (a : re) : re := Rep 0 None true a.
Definition plus (a : re) : re := Rep 1 None true a.
Definition opt (a : re) : re := Rep 0 (Some 1) true a.
Definition lazy_star (a : re) : re := Rep 0 None false a.
Definition at_least (n : nat) (a : re) : re := Rep n None true a.
Definition between (lo hi : nat) (a : re) : re := Rep lo (Some hi) true a.
Definition one_of (cs : string) : re := Cls false (map IChar (list_ascii_of_string cs)).
Definition none_of (cs : string) : re := Cls true (map IChar (list_ascii_of_string cs)).
Definition space : re := Cls false [ISpace].
Definition word : re := Cls false [IWord].

End Re.

(** ** Library functions the ingester calls: [pathlib], [json], [uuid] *)

Module PyLib.

Definition dquote : ascii := Eval compute in chr 34.
Definition backslash : ascii := Eval compute in chr 92.

(** The components of [Path(p)]: empty components and [.] are dropped. *)
Definition path_parts (p : string) : list string :=
  filter (fun w => negb (String.eqb w "") && negb (String.eqb w ".")) (split "/" p).

(** [Path(p).name] *)
Definition path_name (p : string) : string := last (path_parts p) "".

(** [s.rfind(c)]: the index of the last [c], if any. *)
Fixpoint rfind (c : ascii) (s : string) : option nat :=
  match s with
  | EmptyString => None
  | String d t =>
      match rfind c t with
      | Some i => Some (S i)
      | None => if Ascii.eqb d c then Some 0 else None
      end
  end.

(** [Path(p).suffix]: the name from its last dot on, unless that dot is the
    first or the last character of the name. *)
Definition path_suffix (p : string) : string :=
  let name := path_name p in
  match rfind "." name with
  | Some i => if (0 <? i) && (i <? len name - 1) then drop i name else ""
  | None => ""
  end.

Definition hex_digit (n : nat) : ascii :=
  if n <? 10 then chr (48 + n) else chr (87 + n).

(** The escape of one character in [json.dumps] (with [ensure_ascii]). *)
Definition json_escape_char (c : ascii) : string :=
  if Ascii.eqb c dquote then String backslash (String dquote "")
  else if Ascii.eqb c backslash then String backslash (String backslash "")
  else if ord c =? 10 then "\n"
  else if ord c =? 13 then "\r"
  else if ord c =? 9 then "\t"
  else if ord c =? 8 then "\b"
  else if ord c =? 12 then "\f"
  else if in_range 32 126 c then String c ""
  else ("\u00" ++ String (hex_digit (ord c / 16)) (String (hex_digit (ord c mod 16)) ""))%string.

Fixpoint json_escape (s : string) : string :=
  match s with
  | EmptyString => EmptyString
  | String c t => (json_escape_char c ++ json_escape t)%string
  end.

Definition json_string (s : string) : string :=
  String dquote (json_escape s ++ String dquote "")%string.

(** [json.dumps(xs)] for a list of strings. *)
Definition json_dumps (xs : list string) : string :=
  ("[" ++ String.concat ", " (map json_string xs) ++ "]")%string.

(** [json.loads] on what [json_dumps] writes: an array of strings, read by
    a state machine, one character at a time.  A [\u] escape above 255 is
    outside the alphabet. *)
Inductive json_state : Type :=
| JStart
| JOpen
| JString (acc : string)
| JEscape (acc : string)
| JHex (acc : string) (digits : list nat)
| JAfterString
| JAfterComma
| JExpectString
| JDone.

Definition unhex (c : ascii) : option nat :=
  if in_range 48 57 c then Some (ord c - 48)
  else if in_range 97 102 c then Some (ord c - 87)
  else if in_range 65 70 c then Some (ord c - 55)
  else None.

Definition unescape (c : ascii) : option ascii :=
  if Ascii.eqb c dquote then Some dquote
  else if Ascii.eqb c backslash then Some backslash
  else if Ascii.eqb c "/" then Some "/"%char
  else if Ascii.eqb c "n" then Some (chr 10)
  else if Ascii.eqb c "r" then Some (chr 13)
  else if Ascii.eqb c "t" then Some (chr 9)
  else if Ascii.eqb c "b" then Some (chr 8)
  else if Ascii.eqb c "f" then Some (chr 12)
  else None.

Definition snoc (acc : string) (c : ascii) : string := (acc ++ String c "")%string.

Fixpoint json_run (st : json_state) (done : list string) (s : string)
  : option (list string) :=
  match s with
  | EmptyString => match st with JDone => Some done | _ => None end
  | String c t =>
      match st with
      | JStart => if Ascii.eqb c "[" then json_run JOpen done t else None
      | JOpen =>
          if Ascii.eqb c "]" then json_run JDone done t
          else if Ascii.eqb c dquote then json_run (JString "") done t
          else None
      | JString acc =>
          if Ascii.eqb c dquote then json_run JAfterString (done ++ [acc]) t
          else if Ascii.eqb c backslash then json_run (JEscape acc) done t
          else json_run (JString (snoc acc c)) done t
      | JEscape acc =>
          if Ascii.eqb c "u" then json_run (JHex acc []) done t
          else match unescape c with
               | Some d => json_run (JString (snoc acc d)) done t
               | None => None
               end
      | JHex acc digits =>
          match unhex c with
          | None => None
          | Some d =>
              match digits with
              | [0; 0; x] => json_run (JString (snoc acc (chr (16 * x + d)))) done t
              | [_; _; _] => None
              | _ => json_run (JHex acc (digits ++ [d])) done t
              end
          end
      | JAfterString =>
          if Ascii.eqb c "," then json_run JAfterComma done t
          else if Ascii.eqb c "]" then json_run JDone done t
          else None
      | JAfterComma => if Ascii.eqb c " " then json_run JExpectString done t else None
      | JExpectString => if Ascii.eqb c dquote then json_run (JString "") done t else None
      | JDone => None
      end
  end.

Definition json_loads (s : string) : option (list string) := json_run JStart [] s.

(** What [json_dumps] writes after the first element of a list. *)
Fixpoint json_tail (xs : list string) : string :=
  match xs with
  | [] => "]"
  | x :: xs' => (", " ++ json_string x ++ json_tail xs')%string
  end.

(** ['%032x' % n]: the low [k] hexadecimal digits of [n], most significant
    first. *)
Fixpoint hex_digits (k : nat) (n : N) : string :=
  match k with
  | O => EmptyString
  | S k' =>
      String (hex_digit (N.to_nat (N.land (N.shiftr n (4 * N.of_nat k')) 15)))
             (hex_digits k' n)
  end.

(** [uuid.uuid4()]: 128 random bits with the variant and version set. *)
Definition uuid4_int (random : N) : N :=
  let n := N.land random (N.ones 128) in
  let n := N.ldiff n (N.shiftl 49152 48) in
  let n := N.lor n (N.shiftl 32768 48) in
  let n := N.ldiff n (N.shiftl 61440 64) in
  N.lor n (N.shiftl 4 76).

(** [str(u)] for a UUID: 8-4-4-4-12 hexadecimal digits. *)
Definition uuid_str (n : N) : string :=
  let h := hex_digits 32 n in
  fstr [take 8 h; "-"; take 4 (drop 8 h); "-"; take 4 (drop 12 h); "-";
        take 4 (drop 16 h); "-"; drop 20 h].

(** [range(0, n, step)] as the list of its values; a zero step raises. *)
Definition range_step (n : nat) (step : Z) : option (list nat) :=
  if (step =? 0)%Z then None
  else if (step <? 0)%Z then Some []
  else
    let k := Z.to_nat step in
    Some (map (fun j => j * k) (seq 0 ((n + k - 1) / k))).

(** [xs[i:j]] for [0 <= i <= j] *)
Definition slice {A : Type} (i j : nat) (xs : list A) : list A :=
  firstn (j - i) (skipn i xs).

(** [enumerate(xs)] *)
Definition enumerate {A : Type} (xs : list A) : list (nat * A) :=
  combine (seq 0 (List.length xs)) xs.

(** [len(set(xs))]: the number of distinct strings. *)
Definition len_set (xs : list string) : nat := List.length (nodup string_dec xs).

End PyLib.

Import PyLib.

(** ** Data model

    The dictionaries of the program have fixed keys; each is a record whose
    fields are the keys. *)

(** An entry of the [tree] array GitHub returns. *)
Module TreeItem.
Record t : Type := {
  type : string;
  path : string;
  sha : string;
  size : option Z;
  url : string
}.
End TreeItem.

(** What [requests.get] returns: the status, the body and, when the body is
    JSON, the value of its [tree] key (absent in a body without that key). *)
Module Response.
Record t : Type := {
  status_code : Z;
  content : string;
  json : option (option (list TreeItem.t))
}.
End Response.

(** The dictionary [fetch_repository_tree] builds for a file. *)
Module FileInfo.
Record t : Type := {
  path : string;
  name : string;
  extension : string;
  sha : string;
  size : Z;
  url : string;
  download_url : string;
  source_link : string;
  raw_url : string;
  blob_url : string
}.
End FileInfo.

(** The dictionary [process_file] builds for a chunk. *)
Module Chunk.
Record t : Type := {
  id : string;
  document : string;
  file_name : string;
  file_path : string;
  file_type : string;
  file_size : Z;
  source_link : string;
  github_url : string;
  raw_url : string;
  blob_url : string;
  chunk_index : nat;
  chunk_length : nat;
  chunk_method : string;
  has_images : bool;
  image_links : string;
  image_count : nat;
  attachment_links : string;
  has_links : bool;
  external_links : string;
  language : string;
  has_code : bool;
  has_documentation : bool;
  function_names : string;
  class_names : string;
  import_statements : string;
  keywords : string;
  repo_name : string;
  repo_owner : string;
  branch : string;
  commit_sha : string;
  created_at : string;
  embedding_model : string;
  content_quality_score : Q;
  semantic_density_score : Q;
  information_value_score : Q
}.
End Chunk.

(** The dictionary [elements] of [_extract_code_elements]. *)
Record CodeElements : Type := {
  functions : list string;
  classes : list string;
  imports : list string
}.

(** The three scores [_calculate_quality_scores] returns. *)
Record Scores : Type := {
  content_quality_score : Q;
  semantic_density_score : Q;
  information_value_score : Q
}.

(** The dictionary [analyze_content] returns. *)
Module Analysis.
Record t : Type := {
  language : string;
  has_code : bool;
  has_documentation : bool;
  function_names : list string;
  class_names : list string;
  import_statements : list string;
  keywords : list string;
  scores : Scores
}.
End Analysis.

(** The dictionary [ingest_repository] returns: with [success] false and
    a message, or with [success] true and the statistics of the run. *)
Inductive Ingestion : Type :=
| NoContent (message : string)
| Ingested (files_processed chunks_generated images_found files_with_images : nat)
           (avg_quality_score : Q).

Definition success (result : Ingestion) : bool :=
  match result with
  | NoContent _ => false
  | Ingested _ _ _ _ _ => true
  end.

(** The column-wise [insert_data] of [store_chunks_batch]: one list per
    field of the collection, in the order of the schema. *)
Module Columns.
Record t : Type := {
  id : list string;
  document : list string;
  embedding : list (list Q);
  file_name : list string;
  file_path : list string;
  file_type : list string;
  file_size : list Z;
  source_link : list string;
  raw_url : list string;
  blob_url : list string;
  chunk_index : list nat;
  chunk_length : list nat;
  chunk_method : list string;
  has_images : list bool;
  image_links : list string;
  image_count : list nat;
  attachment_links : list string;
  language : list string;
  has_code : list bool;
  has_documentation : list bool;
  has_links : list bool;
  external_links : list string;
  function_names : list string;
  class_names : list string;
  import_statements : list string;
  keywords : list string;
  repo_name : list string;
  repo_owner : list string;
  branch : list string;
  commit_sha : list string;
  created_at : list string;
  embedding_model : list string;
  content_quality_score : list Q;
  semantic_density_score : list Q;
  information_value_score : list Q
}.
End Columns.

(** The collection schema of [_setup_enhanced_collection]. *)
Inductive DataType : Type := VARCHAR | FLOAT_VECTOR | INT64 | BOOL | FLOAT.

Record FieldSchema : Type := {
  field_name : string;
  dtype : DataType;
  is_primary : bool;
  max_length : option N;
  dim : option nat
}.

Definition varchar (name : string) (L : N) : FieldSchema :=
  {| field_name := name; dtype := VARCHAR; is_primary := false; max_length := Some L; dim := None |}.

Definition scalar (name : string) (ty : DataType) : FieldSchema :=
  {| field_name := name; dtype := ty; is_primary := false; max_length := None; dim := None |}.

Definition fields (embedding_dim : nat) : list FieldSchema := [
  {| field_name := "id"; dtype := VARCHAR; is_primary := true; max_length := Some 100%N; dim := None |};
  varchar "document" 65535;
  {| field_name := "embedding"; dtype := FLOAT_VECTOR; is_primary := false; max_length := None;
     dim := Some embedding_dim |};
  varchar "file_name" 500;
  varchar "file_path" 1000;
  varchar "file_type" 50;
  scalar "file_size" INT64;
  varchar "source_link" 2000;
  varchar "raw_url" 2000;
  varchar "blob_url" 2000;
  scalar "chunk_index" INT64;
  scalar "chunk_length" INT64;
  varchar "chunk_method" 50;
  scalar "has_images" BOOL;
  varchar "image_links" 5000;
  scalar "image_count" INT64;
  varchar "attachment_links" 5000;
  varchar "language" 50;
  scalar "has_code" BOOL;
  scalar "has_documentation" BOOL;
  scalar "has_links" BOOL;
  varchar "external_links" 3000;
  varchar "function_names" 2000;
  varchar "class_names" 1000;
  varchar "import_statements" 2000;
  varchar "keywords" 2000;
  varchar "repo_name" 200;
  varchar "repo_owner" 100;
  varchar "branch" 100;
  varchar "commit_sha" 100;
  varchar "created_at" 50;
  varchar "embedding_model" 100;
  scalar "content_quality_score" FLOAT;
  scalar "semantic_density_score" FLOAT;
  scalar "information_value_score" FLOAT
].

(** The maximum length the schema declares for a field, if it declares one. *)
Definition declared_max_length (embedding_dim : nat) (name : string) : option N :=
  match find (fun f => String.eqb (field_name f) name) (fields embedding_dim) with
  | Some f => max_length f
  | None => None
  end.

(** ** Exceptions, the world, and the monad of the ingester's methods *)

Inductive exn : Type :=
| ValueError (msg : string)
| HTTPError (status : Z)
| JSONDecodeError
| RecursionError
| Exception (type msg : string).

(** [str(e)] *)
Definition exn_str (e : exn) : string :=
  match e with
  | ValueError msg => msg
  | HTTPError status => fstr [str_of_Z status; " Error"]
  | JSONDecodeError => "Expecting value"
  | RecursionError => "maximum recursion depth exceeded"
  | Exception _ msg => msg
  end.

Inductive Result (A : Type) : Type :=
| Ok (a : A)
| Raise (e : exn).

Arguments Ok {A} a.
Arguments Raise {A} e.

Inductive Level : Type := INFO | WARNING | ERROR.

(** What a run leaves behind: the log, the URLs requested, the number of
    UUIDs and timestamps drawn, the batches sent to the embedding model, and
    the batches inserted into (and the flushes of) the collection; each list
    in the order of the events. *)
Record World : Type := {
  log : list (Level * string);
  requested : list string;
  drawn : nat;
  encoded : list (list string);
  inserted : list Columns.t;
  flushes : nat
}.

Definition empty_world : World :=
  {| log := []; requested := []; drawn := 0; encoded := []; inserted := []; flushes := 0 |}.

Definition M (A : Type) : Type := World -> Result A * World.

Definition ret {A : Type} (a : A) : M A := fun w => (Ok a, w).

Definition raise {A : Type} (e : exn) : M A := fun w => (Raise e, w).

Definition bind {A B : Type} (m : M A) (k : A -> M B) : M B :=
  fun w =>
    match m w with
    | (Ok a, w') => k a w'
    | (Raise e, w') => (Raise e, w')
    end.

(** [try: m except Exception as e: h e] *)
Definition try_except {A : Type} (m : M A) (h : exn -> M A) : M A :=
  fun w =>
    match m w with
    | (Ok a, w') => (Ok a, w')
    | (Raise e, w') => h e w'
    end.

Definition lift {A : Type} (r : Result A) : M A := fun w => (r, w).

(** The value a run returned ([default] if it raised). *)
Definition returned {A : Type} (default : A) (run : Result A * World) : A :=
  match fst run with
  | Ok a => a
  | Raise _ => default
  end.

Declare Scope py_scope.
Delimit Scope py_scope with py.
Notation "x <- m ;; k" := (bind m (fun x => k))
  (at level 61, m at next level, right associativity) : py_scope.
Notation "m ;; k" := (bind m (fun _ => k))
  (at level 61, right associativity) : py_scope.
Local Open Scope py_scope.

Definition logger (lvl : Level) (msg : string) : M unit :=
  fun w => (Ok tt,
            {| log := log w ++ [(lvl, msg)]; requested := requested w; drawn := drawn w;
               encoded := encoded w; inserted := inserted w; flushes := flushes w |}).

(** The world after [logger] has written an entry. *)
Definition logged (lvl : Level) (msg : string) (w : World) : World :=
  snd (logger lvl msg w).

Definition logger_info : string -> M unit := logger INFO.
Definition logger_warning : string -> M unit := logger WARNING.
Definition logger_error : string -> M unit := logger ERROR.

(** ** Milvus, the terminal, and the monad of the constructor and of [main]

    A value of [config.py] or of a keyword argument: [None], a [str] or an
    [int]. *)
Inductive Value : Type :=
| VNone
| VStr (s : string)
| VInt (z : Z).

(** [bool(v)] *)
Definition truthy (v : Value) : bool :=
  match v with
  | VNone => false
  | VStr s => negb (String.eqb s "")
  | VInt z => negb (z =? 0)%Z
  end.

(** [str(v)] *)
Definition str_of_value (v : Value) : string :=
  match v with
  | VNone => "None"
  | VStr s => s
  | VInt z => str_of_Z z
  end.

(** [{"metric_type": ..., "index_type": ..., "params": {"nlist": ...}}] *)
Record IndexParams : Type := {
  metric_type : string;
  index_type : string;
  nlist : Z
}.

(** The calls of [pymilvus] the program makes: [connections.disconnect],
    [connections.connect] with its keyword arguments in the order of the
    dictionary, [utility.list_collections], [utility.has_collection],
    [Collection(name)] and [Collection(name, schema)] with the schema as its
    fields and description, [collection.load], [collection.create_index]
    and [utility.drop_collection]. *)
Inductive Call : Type :=
| disconnect (alias : string)
| connect (kwargs : list (string * Value))
| list_collections
| has_collection (name : string)
| Collection (name : string) (schema : option (list FieldSchema * string))
| load
| create_index (field_name : string) (index_params : option IndexParams)
| drop_collection (name : string).

(** What is written to the terminal, by the statement that writes it:
    - [Summary owner name branch collection files chunks images with_images quality]:
      the block of [print]s of [ingest_repository] before it returns its
      statistics, for the values it shows (the durations and the rate are
      left out, as they are in the result)
    - [Completed]: print(f"\n... Ingestion completed successfully!")
    - [SearchHint c]: print(f"You can now search the collection '{c}' using the search tool.")
    - [Failed m]: print(f"\n... Ingestion failed: {m}")
    - [Traceback e]: traceback.print_exc() *)
Inductive Output : Type :=
| Summary (repo_owner repo_name branch collection : string)
          (files_processed chunks_generated images_found files_with_images : nat)
          (avg_quality_score : Q)
| Completed
| SearchHint (collection : string)
| Failed (message : string)
| Traceback (e : exn).

(** The process: the world of the ingester's methods, the calls made to
    Milvus, the seconds slept with [time.sleep], and the terminal; each list
    in the order of the events. *)
Record Process : Type := {
  world : World;
  calls : list Call;
  slept : list Z;
  printed : list Output
}.

Definition new_process : Process :=
  {| world := empty_world; calls := []; slept := []; printed := [] |}.

Definition P (A : Type) : Type := Process -> Result A * Process.

Definition pret {A : Type} (a : A) : P A := fun p => (Ok a, p).

Definition praise {A : Type} (e : exn) : P A := fun p => (Raise e, p).

Definition pbind {A B : Type} (m : P A) (k : A -> P B) : P B :=
  fun p =>
    match m p with
    | (Ok a, p') => k a p'
    | (Raise e, p') => (Raise e, p')
    end.

(** [try: m except Exception as e: h e] (and the bare [except:]) *)
Definition ptry {A : Type} (m : P A) (h : exn -> P A) : P A :=
  fun p =>
    match m p with
    | (Ok a, p') => (Ok a, p')
    | (Raise e, p') => h e p'
    end.

(** A method of the ingester run in the world of the process. *)
Definition lift_world {A : Type} (m : M A) : P A :=
  fun p =>
    let run := m (world p) in
    (fst run,
     {| world := snd run; calls := calls p; slept := slept p; printed := printed p |}).

(** [logger.info], [logger.warning] and [logger.error] *)
Definition plog (lvl : Level) (msg : string) : P unit := lift_world (logger lvl msg).

(** [time.sleep(seconds)] *)
Definition sleep (seconds : Z) : P unit :=
  fun p =>
    (Ok tt,
     {| world := world p; calls := calls p; slept := slept p ++ [seconds];
        printed := printed p |}).

(** [print(...)] and [traceback.print_exc()] *)
Definition print (line : Output) : P unit :=
  fun p =>
    (Ok tt,
     {| world := world p; calls := calls p; slept := slept p;
        printed := printed p ++ [line] |}).

Declare Scope proc_scope.
Delimit Scope proc_scope with proc.
Notation "x <- m ;; k" := (pbind m (fun x => k))
  (at level 61, m at next level, right associativity) : proc_scope.
Notation "m ;; k" := (pbind m (fun _ => k))
  (at level 61, right associativity) : proc_scope.

(** ** The patterns of the program

    Each definition is the syntax tree of the raw string quoted above it;
    in the quotations [Q] stands for the double-quote character. *)

Module Patterns.
Import Re.

Definition sq : ascii := "'"%char.
Definition quote : re := Cls false [IChar dquote; IChar sq].
Definition not_quote : re := Cls true [IChar dquote; IChar sq].
Definition https : re := seq [Lit "http"; opt (Lit "s"); Lit "://"].

(** How [extract_images_and_links] reads the URL off a match of an image
    pattern: by the pattern's first characters. *)
Inductive image_form : Type :=
| MarkdownImage   (* pattern.startswith('!\\[') : group 2 *)
| HtmlImage       (* pattern.startswith('<img') : group 1 *)
| DirectUrl.      (* otherwise                  : group 0 *)

(** [self.image_patterns]
    - "!\[([^\]]*)\]\(([^)]+)\)"
    - "<img[^>]+src=[Q\']([^Q\']+)[Q\'][^>]*>"
    - "\bhttps?://[^\s]+\.(?:png|jpg|jpeg|gif|svg|webp|bmp|ico)\b" *)
Definition image_patterns : list (image_form * re) := [
  (MarkdownImage,
   seq [Lit "!["; Grp 1 (star (none_of "]")); Lit "]("; Grp 2 (plus (none_of ")")); Lit ")"]);
  (HtmlImage,
   seq [Lit "<img"; plus (none_of ">"); Lit "src="; quote; Grp 1 (plus not_quote); quote;
        star (none_of ">"); Lit ">"]);
  (DirectUrl,
   seq [WordB; https; plus (Cls true [ISpace]); Lit ".";
        alts [Lit "png"; Lit "jpg"; Lit "jpeg"; Lit "gif"; Lit "svg"; Lit "webp"; Lit "bmp";
              Lit "ico"];
        WordB])
].

Definition attachment_ext : re :=
  alts [Lit "pdf"; Lit "doc"; Lit "docx"; Lit "ppt"; Lit "pptx"; Lit "xls"; Lit "xlsx";
        Lit "zip"; Lit "tar"; Lit "gz"].

(** [attachment_patterns]
    - "\[([^\]]+)\]\(([^)]+\.(?:pdf|doc|docx|ppt|pptx|xls|xlsx|zip|tar|gz))\)"
    - "href=[Q\']([^Q\']+\.(?:pdf|doc|docx|ppt|pptx|xls|xlsx|zip|tar|gz))[Q\']" *)
Definition attachment_patterns : list re := [
  seq [Lit "["; Grp 1 (plus (none_of "]")); Lit "](";
       Grp 2 (seq [plus (none_of ")"); Lit "."; attachment_ext]); Lit ")"];
  seq [Lit "href="; quote; Grp 1 (seq [plus not_quote; Lit "."; attachment_ext]); quote]
].

(** [link_patterns]
    - "\[([^\]]+)\]\((https?://[^)]+)\)"
    - "href=[Q\']([^Q\']+)[Q\']"
    - "\bhttps?://[^\s\)\]\},;Q\'`<>]+" *)
Definition link_patterns : list re := [
  seq [Lit "["; Grp 1 (plus (none_of "]")); Lit "](";
       Grp 2 (seq [https; plus (none_of ")")]); Lit ")"];
  seq [Lit "href="; quote; Grp 1 (plus not_quote); quote];
  seq [WordB; https;
       plus (Cls true (ISpace :: IChar dquote :: map IChar (list_ascii_of_string ")]},;'`<>")))]
].

(** The extensions the external-link filter looks for. *)
Definition filtered_extensions : list string :=
  [".png"; ".jpg"; ".jpeg"; ".gif"; ".svg"; ".pdf"; ".doc"].

Definition kw (w : string) : re := seq [Lit w; plus space; plus word].

(** [_detect_language]: [patterns], in the order of the dictionary
    - python: "def\s+\w+", "import\s+\w+", "from\s+\w+\s+import", "class\s+\w+"
    - javascript: "function\s+\w+", "const\s+\'\w+", "let\s+\w+", "var\s+\w+"
    - java: "public\s+class", "private\s+\w+", "public\s+static"
    - cpp: "#include", "std::", "namespace\s+\w+"
    - css: "\.[\w-]+\s*{", "#[\w-]+\s*{", "@media"
    - html: "<html>", "<div>", "<!DOCTYPE"
    - markdown: "^#{1,6}\s", "\[.*\]\(.*\)", "```" *)
Definition language_patterns : list (string * list re) := [
  ("python", [kw "def"; kw "import";
              seq [Lit "from"; plus space; plus word; plus space; Lit "import"]; kw "class"]);
  ("javascript", [kw "function"; seq [Lit "const"; plus space; Lit "'"; plus word];
                  kw "let"; kw "var"]);
  ("java", [seq [Lit "public"; plus space; Lit "class"]; kw "private";
            seq [Lit "public"; plus space; Lit "static"]]);
  ("cpp", [Lit "#include"; Lit "std::"; kw "namespace"]);
  ("css", [seq [Lit "."; plus (Cls false [IWord; IChar "-"]); star space; Lit "{"];
           seq [Lit "#"; plus (Cls false [IWord; IChar "-"]); star space; Lit "{"];
           Lit "@media"]);
  ("html", [Lit "<html>"; Lit "<div>"; Lit "<!DOCTYPE"]);
  ("markdown", [seq [Bol; between 1 6 (Lit "#"); space];
                seq [Lit "["; star Any; Lit "]("; star Any; Lit ")"];
                Lit "```"])
].

(** [_detect_language]: [extension_map]. *)
Definition extension_map : list (string * string) := [
  (".py", "python"); (".js", "javascript"); (".ts", "typescript");
  (".java", "java"); (".cpp", "cpp"); (".c", "c"); (".h", "c");
  (".css", "css"); (".html", "html"); (".xml", "xml");
  (".md", "markdown"); (".rst", "rst"); (".txt", "text");
  (".json", "json"); (".yaml", "yaml"); (".yml", "yaml");
  (".sh", "shell"); (".bat", "batch"); (".go", "go");
  (".rs", "rust"); (".rb", "ruby"); (".php", "php"); (".sql", "sql")
].

(** [self.supported_extensions] *)
Definition supported_extensions : list string := [
  ".md"; ".txt"; ".rst"; ".py"; ".js"; ".ts"; ".java"; ".cpp"; ".c"; ".h";
  ".css"; ".html"; ".xml"; ".json"; ".yaml"; ".yml"; ".toml"; ".ini";
  ".sh"; ".bat"; ".ps1"; ".go"; ".rs"; ".rb"; ".php"; ".sql"; ".r"
].

Definition name1 (w : string) : re := seq [Lit w; plus space; Grp 1 (plus word)].

(** [_extract_code_elements], python:
    "def\s+(\w+)", "class\s+(\w+)", "(?:from\s+[\w.]+\s+)?import\s+[\w.,\s*]+" *)
Definition py_function : re := name1 "def".
Definition any_class : re := name1 "class".
Definition py_import : re :=
  seq [opt (seq [Lit "from"; plus space; plus (Cls false [IWord; IChar "."]); plus space]);
       Lit "import"; plus space;
       plus (Cls false [IWord; IChar "."; IChar ","; ISpace; IChar "*"])].

(** javascript: "function\s+(\w+)", "(\w+)\s*=\s*function",
    "const\s+(\w+)\s*=\s*\(", "(\w+)\s*:\s*function";
    "import\s+.*?from\s+[Q\'].*?[Q\']" *)
Definition js_func_patterns : list re := [
  name1 "function";
  seq [Grp 1 (plus word); star space; Lit "="; star space; Lit "function"];
  seq [Lit "const"; plus space; Grp 1 (plus word); star space; Lit "="; star space; Lit "("];
  seq [Grp 1 (plus word); star space; Lit ":"; star space; Lit "function"]
].
Definition js_import : re :=
  seq [Lit "import"; plus space; lazy_star Any; Lit "from"; plus space; quote; lazy_star Any;
       quote].

(** java: "(?:public|private|protected)?\s*\w+\s+(\w+)\s*\(",
    "(?:public\s+)?class\s+(\w+)", "import\s+[\w.]+;" *)
Definition java_function : re :=
  seq [opt (alts [Lit "public"; Lit "private"; Lit "protected"]); star space; plus word;
       plus space; Grp 1 (plus word); star space; Lit "("].
Definition java_class : re :=
  seq [opt (seq [Lit "public"; plus space]); Lit "class"; plus space; Grp 1 (plus word)].
Definition java_import : re :=
  seq [Lit "import"; plus space; plus (Cls false [IWord; IChar "."]); Lit ";"].

Definition assign (w : string) : re := seq [Lit w; plus space; plus word; star space; Lit "="].

(** [_has_code_content]: [code_indicators]
    "def\s+\w+", "function\s+\w+", "class\s+\w+", "import\s+\w+",
    "#include", "namespace\s+\w+", "public\s+class", "private\s+\w+",
    "const\s+\w+\s*=", "var\s+\w+\s*=", "let\s+\w+\s*=" *)
Definition code_indicators : list re := [
  kw "def"; kw "function"; kw "class"; kw "import";
  Lit "#include"; kw "namespace"; seq [Lit "public"; plus space; Lit "class"]; kw "private";
  assign "const"; assign "var"; assign "let"
].

(** [_has_documentation_content]: [doc_indicators]
    "QQQ.*?QQQ", "'''.*?'''", "/\*\*.*?\*/", "##\s+\w+",
    "###\s+\w+", "#{1,6}\s+[A-Z]", "@param", "@return",
    "@throws", "TODO:", "FIXME:", "NOTE:" *)
Definition doc_indicators : list re := [
  seq [Lit (String dquote (String dquote (String dquote ""))); lazy_star Any;
       Lit (String dquote (String dquote (String dquote "")))];
  seq [Lit "'''"; lazy_star Any; Lit "'''"];
  seq [Lit "/**"; lazy_star Any; Lit "*/"];
  seq [Lit "##"; plus space; plus word];
  seq [Lit "###"; plus space; plus word];
  seq [between 1 6 (Lit "#"); plus space; Cls false [IRange "A" "Z"]];
  Lit "@param"; Lit "@return"; Lit "@throws"; Lit "TODO:"; Lit "FIXME:"; Lit "NOTE:"
].

(** [_extract_keywords]: "```.*?```", "`[^`]+`", "[(){}\[\]<>]",
    "\b[a-zA-Z]{3,}\b". *)
Definition fenced_code : re := seq [Lit "```"; lazy_star Any; Lit "```"].
Definition inline_code : re := seq [Lit "`"; plus (none_of "`"); Lit "`"].
Definition brackets : re := one_of "(){}[]<>".
Definition alpha_word : re :=
  seq [WordB; at_least 3 (Cls false [IRange "a" "z"; IRange "A" "Z"]); WordB].

Definition stopwords : list string := [
  "the"; "and"; "for"; "are"; "but"; "not"; "you"; "all"; "can"; "has"; "had";
  "this"; "that"; "with"; "from"; "they"; "will"; "been"; "have"; "were";
  "said"; "each"; "which"; "their"; "time"; "would"; "about"; "into";
  "function"; "class"; "method"; "return"; "value"; "parameter"; "variable"
].

(** [_calculate_quality_scores]: "[.!?]", "\b\w{3,}\b", "\b\w+\b",
    "https?://[^\s]+", "[A-Z][a-z]+(?:[A-Z][a-z]+)*". *)
Definition sentence_end : re := one_of ".!?".
Definition long_word : re := seq [WordB; at_least 3 word; WordB].
Definition any_word : re := seq [WordB; plus word; WordB].
Definition reference : re := seq [https; plus (Cls true [ISpace])].
Definition capitalized : re := seq [Cls false [IRange "A" "Z"]; plus (Cls false [IRange "a" "z"])].
Definition camel_case : re := seq [capitalized; star capitalized].

(** [ingest_repository]: "https://github\.com/([^/]+)/([^/]+)/?" *)
Definition repo_url_pattern : re :=
  seq [Lit "https://github.com/"; Grp 1 (plus (none_of "/")); Lit "/";
       Grp 2 (plus (none_of "/")); opt (Lit "/")].

End Patterns.

Import Patterns.

(** ** A small GitHub, chunker and store for the examples

    Concrete values for what the ingester obtains from outside.  The set
    iteration order is the order of last occurrence, the chunker cuts after
    every line, and GitHub serves three repositories: [beagle/docs] on
    branch [main], [beagle/legacy] on branch [master] only, and
    [beagle/stub] on branch [main] with nothing but short files. *)

Module Sample.

Definition list_set : list string -> list string := nodup string_dec.

Definition urljoin (base url : string) : string := (base ++ url)%string.

Definition decode_utf8 (body : string) : option string := Some body.

(** The lines of a text, each with its line feed. *)
Fixpoint lines (s : string) : list string :=
  match s with
  | EmptyString => []
  | String c t =>
      if Ascii.eqb c Re.newline then String c EmptyString :: lines t
      else match lines t with
           | [] => [String c EmptyString]
           | l :: ls =>
               match t with
               | EmptyString => [String c EmptyString]
               | String _ _ => String c l :: ls
               end
           end
  end.

Definition CodeChunker (language content : string) : Result (list string) :=
  Ok (lines content).

(** A chunker that has no grammar for Python. *)
Definition strict_chunker (language content : string) : Result (list string) :=
  if String.eqb language "python" then Raise (Exception "ValueError" "no grammar for python")
  else Ok (lines content).

Definition os_urandom (k : nat) : N := (N.of_nat (S k) * 1234567890123456789012345678901234567)%N.

Definition datetime_now_isoformat (k : nat) : string := "2025-01-01T00:00:00.000000".

Definition encode (batch : list string) : Result (list (list Q)) :=
  Ok (map (fun text => [inject_Z (Z.of_nat (len text)); 1%Q]) batch).

Definition collection_insert (before : list Columns.t) (data : Columns.t) : option exn := None.

Definition collection_flush (before : list Columns.t) : option exn := None.

Definition as_completed (files : list FileInfo.t) : list FileInfo.t := rev files.

Definition model_name : string := "BAAI/bge-base-en-v1.5".

Definition nl : string := String Re.newline "".

Definition readme : string :=
  fstr ["# BeagleBoard"; nl; nl;
        "See ![board](images/board.png) and https://beagleboard.org/static/logo.webp for ";
        "the board. Read the [manual](https://docs.beagle.cc/manual.pdf) or visit ";
        "https://www.beagleboard.org/boards today."; nl].

Definition notes : string := "BeagleBone Black pinout notes, draft one".

Definition tiny : string := "0123456789".

(** A source file with three functions, no header and no comment. *)
Definition three_functions : string :=
  fstr ["def setup(pin):"; nl; "    return pin"; nl; nl;
        "def blink(pin, times):"; nl; "    return times"; nl; nl;
        "def main():"; nl; "    blink(setup(13), 3)"; nl].

(** A small Markdown file: one header, one image, 120 words of prose. *)
Definition sentence : string :=
  "The board boots from the card and then blinks its four lights. ".

Definition guide : string :=
  fstr ["# Getting started"; nl; nl; "![board](img.png)"; nl; nl;
        String.concat EmptyString (repeat sentence 10); nl].

(** A chunker whose budget holds a small file in one chunk. *)
Definition whole_chunker (language content : string) : Result (list string) :=
  Ok [content].

Definition blink : string :=
  fstr ["import os"; nl;
        "def blink(pin, times): return [toggle(pin) for _ in range(times)]  # blink an LED";
        nl].

Definition blob (path : string) : TreeItem.t :=
  {| TreeItem.type := "blob"; TreeItem.path := path; TreeItem.sha := "0a1b2c";
     TreeItem.size := Some 64%Z;
     TreeItem.url := fstr ["https://api.github.com/repos/beagle/git/blobs/"; path] |}.

Definition directory (path : string) : TreeItem.t :=
  {| TreeItem.type := "tree"; TreeItem.path := path; TreeItem.sha := "3d4e5f";
     TreeItem.size := None;
     TreeItem.url := fstr ["https://api.github.com/repos/beagle/git/trees/"; path] |}.

Definition repo_info : Response.t :=
  {| Response.status_code := 200; Response.content := "{}"; Response.json := Some None |}.

Definition tree_of (items : list TreeItem.t) : Response.t :=
  {| Response.status_code := 200; Response.content := "{}"; Response.json := Some (Some items) |}.

Definition raw (body : string) : Response.t :=
  {| Response.status_code := 200; Response.content := body; Response.json := None |}.

Definition not_found : Response.t :=
  {| Response.status_code := 404; Response.content := "Not Found"; Response.json := Some None |}.

Definition site : list (string * Response.t) := [
  ("https://api.github.com/repos/beagle/docs", repo_info);
  ("https://api.github.com/repos/beagle/docs/git/trees/main?recursive=1",
   tree_of [blob "README.md"; directory "images"; blob "images/board.png"; blob "notes.txt";
            blob "src/blink.py"; blob "tiny.txt"]);
  ("https://raw.githubusercontent.com/beagle/docs/main/README.md", raw readme);
  ("https://raw.githubusercontent.com/beagle/docs/main/notes.txt", raw notes);
  ("https://raw.githubusercontent.com/beagle/docs/main/src/blink.py", raw blink);
  ("https://raw.githubusercontent.com/beagle/docs/main/tiny.txt", raw tiny);
  ("https://api.github.com/repos/beagle/legacy", repo_info);
  ("https://api.github.com/repos/beagle/legacy/git/trees/master?recursive=1",
   tree_of [blob "README.md"]);
  ("https://raw.githubusercontent.com/beagle/legacy/master/README.md", raw readme);
  ("https://api.github.com/repos/beagle/stub", repo_info);
  ("https://api.github.com/repos/beagle/stub/git/trees/main?recursive=1",
   tree_of [blob "notes.txt"; blob "tiny.txt"]);
  ("https://raw.githubusercontent.com/beagle/stub/main/notes.txt", raw notes);
  ("https://raw.githubusercontent.com/beagle/stub/main/tiny.txt", raw tiny)
].

Definition requests_get (url : string) : Result Response.t :=
  match find (fun page => String.eqb (fst page) url) site with
  | Some page => Ok (snd page)
  | None => Ok not_found
  end.

(** A page that links to an archive. *)
Definition download : string :=
  "Get the [card image](https://files.beagle.cc/images/bone-debian.zip) and flash it.".

(** Two texts with the same links, in another order and number. *)
Definition links_once : string :=
  "Boards: https://beagleboard.org/bone.png and https://beagleboard.org/boards".

Definition links_twice : string :=
  fstr ["https://beagleboard.org/boards then https://beagleboard.org/bone.png, again ";
        "https://beagleboard.org/boards"].

(** A record whose identifier has 101 characters. *)
Definition long_id : string :=
  fstr ["chunk-0000000000-1111111111-2222222222-3333333333-4444444444-";
        "5555555555-6666666666-7777777777-8888888"].

Definition odd_record : Chunk.t :=
  {| Chunk.id := long_id;
     Chunk.document := notes;
     Chunk.file_name := "notes.txt";
     Chunk.file_path := "notes.txt";
     Chunk.file_type := ".txt";
     Chunk.file_size := 64;
     Chunk.source_link := "https://docs.beagle.cc/notes.txt";
     Chunk.github_url := "https://github.com/beagle/docs/blob/main/notes.txt";
     Chunk.raw_url := "https://raw.githubusercontent.com/beagle/docs/main/notes.txt";
     Chunk.blob_url := "https://github.com/beagle/docs/blob/main/notes.txt";
     Chunk.chunk_index := 0;
     Chunk.chunk_length := 40;
     Chunk.chunk_method := "semantic";
     Chunk.has_images := false;
     Chunk.image_links := "[]";
     Chunk.image_count := 0;
     Chunk.attachment_links := "[]";
     Chunk.has_links := false;
     Chunk.external_links := "[]";
     Chunk.language := "text";
     Chunk.has_code := false;
     Chunk.has_documentation := false;
     Chunk.function_names := "[]";
     Chunk.class_names := "[]";
     Chunk.import_statements := "[]";
     Chunk.keywords := "[]";
     Chunk.repo_name := "docs";
     Chunk.repo_owner := "beagle";
     Chunk.branch := "main";
     Chunk.commit_sha := "latest";
     Chunk.created_at := "2025-01-01T00:00:00.000000";
     Chunk.embedding_model := model_name;
     Chunk.content_quality_score := 0%Q;
     Chunk.semantic_density_score := 1%Q;
     Chunk.information_value_score := 0%Q |}.

(** The dictionary of a file of [beagle/docs] on [main]. *)
Definition docs_file (path : string) : FileInfo.t :=
  {| FileInfo.path := path;
     FileInfo.name := path_name path;
     FileInfo.extension := lower (path_suffix path);
     FileInfo.sha := "0a1b2c";
     FileInfo.size := 64;
     FileInfo.url := fstr ["https://api.github.com/repos/beagle/git/blobs/"; path];
     FileInfo.download_url := fstr ["https://raw.githubusercontent.com/beagle/docs/main/"; path];
     FileInfo.source_link := fstr ["https://github.com/beagle/docs/blob/main/"; path];
     FileInfo.raw_url := fstr ["https://raw.githubusercontent.com/beagle/docs/main/"; path];
     FileInfo.blob_url := fstr ["https://github.com/beagle/docs/blob/main/"; path] |}.

(** The configuration of a local Milvus, models that load, and two servers:
    one that holds the collection, and one that holds none, refuses the
    first creation of a collection and cannot index [language]. *)
Definition collection_name : string := "beaglemind_col".

Definition MILVUS_HOST : Value := VStr "localhost".

Definition MILVUS_PORT : Value := VInt 19530.

Definition loaded (device : string) : option exn := None.

Definition milvus_with_collection (history : list Call) (c : Call) : Result bool := Ok true.

Definition creations (history : list Call) : nat :=
  List.length (filter (fun c => match c with
                                | Collection _ (Some _) => true
                                | _ => false
                                end) history).

Definition milvus_without_collection (history : list Call) (c : Call) : Result bool :=
  match c with
  | has_collection _ => Ok false
  | Collection _ (Some _) =>
      if creations history =? 0 then Raise (Exception "MilvusException" "node not match")
      else Ok true
  | create_index "language" _ => Raise (Exception "MilvusException" "index not supported")
  | _ => Ok true
  end.

(** A server that creates the collection at once. *)
Definition milvus_at_once (history : list Call) (c : Call) : Result bool :=
  match c with
  | has_collection _ => Ok false
  | create_index "embedding" _ => Raise (Exception "MilvusException" "index not supported")
  | _ => Ok true
  end.

End Sample.

(** ** The ingester *)

Section GitHubDirectIngester.

(** *** What the ingester obtains from outside *)

(** [list(set(xs))]: the distinct elements of [xs], in the order the set's
    iteration happens to give. *)
Variable list_set : list string -> list string.

(** [urllib.parse.urljoin] *)
Variable urljoin : string -> string -> string.

(** [requests.get(url, headers=self.github_headers)] *)
Variable requests_get : string -> Result Response.t.

(** [bytes.decode('utf-8')]; [None] is [UnicodeDecodeError]. *)
Variable decode_utf8 : string -> option string.

(** [CodeChunker(language=..., tokenizer_or_token_counter="gpt2",
    chunk_size=512, include_nodes=False).chunk(content)], as the texts of
    the chunks; the import, the constructor or the call may raise. *)
Variable CodeChunker : string -> string -> Result (list string).

(** The sixteen random bytes of the [k]-th draw, and the reading of the
    clock ([datetime.now().isoformat()]) at the [k]-th draw. *)
Variable os_urandom : nat -> N.
Variable datetime_now_isoformat : nat -> string.

(** [self.embedding_model.encode(batch, ...).tolist()] *)
Variable encode : list string -> Result (list (list Q)).

(** [self.collection.insert(insert_data)] and [self.collection.flush()]:
    the exception each raises, if any, given the batches inserted before. *)
Variable collection_insert : list Columns.t -> Columns.t -> option exn.
Variable collection_flush : list Columns.t -> option exn.

(** The order in which [concurrent.futures.as_completed] hands back the
    futures submitted for the files. *)
Variable as_completed : list FileInfo.t -> list FileInfo.t.

(** [self.model_name] *)
Variable model_name : string.

(** [self.collection_name] and [self.github_token] *)
Variable collection_name : string.
Variable github_token : Value.

(** The variables of [config.py]. *)
Variable MILVUS_HOST : Value.
Variable MILVUS_PORT : Value.
Variable MILVUS_USER : Value.
Variable MILVUS_PASSWORD : Value.
Variable MILVUS_TOKEN : Value.
Variable MILVUS_URI : Value.

(** [torch.cuda.is_available()] *)
Variable cuda_is_available : bool.

(** [SentenceTransformer(model_name, device=device)] and
    [HuggingFaceEmbeddings(model_name=model_name, ...)]: the exception each
    raises, if any, for a device. *)
Variable SentenceTransformer : string -> option exn.
Variable HuggingFaceEmbeddings : string -> option exn.

(** [self.embedding_model.encode(texts)] with its default arguments. *)
Variable encode_default : list string -> Result (list (list Q)).

(** The answer of Milvus to a call, given the calls made before: an
    exception, or a value, which is the truth value [utility.has_collection]
    returns and is not looked at for the other calls. *)
Variable pymilvus : list Call -> Call -> Result bool.

Set Default Proof Using "Type".

(** *** Effects *)

Definition http_get (url : string) : M Response.t :=
  fun w =>
    (requests_get url,
     {| log := log w; requested := requested w ++ [url]; drawn := drawn w;
        encoded := encoded w; inserted := inserted w; flushes := flushes w |}).

Definition draw : M nat :=
  fun w =>
    (Ok (drawn w),
     {| log := log w; requested := requested w; drawn := S (drawn w);
        encoded := encoded w; inserted := inserted w; flushes := flushes w |}).

(** [str(uuid.uuid4())] *)
Definition uuid4_str : M string :=
  k <- draw ;; ret (uuid_str (uuid4_int (os_urandom k))).

(** [datetime.now().isoformat()] *)
Definition now_isoformat : M string :=
  k <- draw ;; ret (datetime_now_isoformat k).

Definition model_encode (batch : list string) : M (list (list Q)) :=
  fun w =>
    (encode batch,
     {| log := log w; requested := requested w; drawn := drawn w;
        encoded := encoded w ++ [batch]; inserted := inserted w; flushes := flushes w |}).

Definition insert (data : Columns.t) : M unit :=
  fun w =>
    match collection_insert (inserted w) data with
    | Some e => (Raise e, w)
    | None =>
        (Ok tt,
         {| log := log w; requested := requested w; drawn := drawn w;
            encoded := encoded w; inserted := inserted w ++ [data]; flushes := flushes w |})
    end.

Definition flush : M unit :=
  fun w =>
    match collection_flush (inserted w) with
    | Some e => (Raise e, w)
    | None =>
        (Ok tt,
         {| log := log w; requested := requested w; drawn := drawn w;
            encoded := encoded w; inserted := inserted w; flushes := S (flushes w) |})
    end.

(** [response.raise_for_status()] *)
Definition raise_for_status (response : Response.t) : M unit :=
  let status := Response.status_code response in
  if ((400 <=? status) && (status <? 600))%Z then raise (HTTPError status) else ret tt.

(** [response.json()], read at its [tree] key. *)
Definition response_json (response : Response.t) : M (option (list TreeItem.t)) :=
  match Response.json response with
  | Some data => ret data
  | None => raise JSONDecodeError
  end.

(** *** [fetch_repository_tree] *)

(** The body of the loop over the tree: the dictionary of a supported blob. *)
Definition file_entry (repo_owner repo_name branch : string) (item : TreeItem.t)
  : list FileInfo.t :=
  if String.eqb (TreeItem.type item) "blob" then
    let file_path := TreeItem.path item in
    let file_extension := lower (path_suffix file_path) in
    if existsb (String.eqb file_extension) supported_extensions
       || String.eqb file_extension ""
    then
      [{| FileInfo.path := file_path;
          FileInfo.name := path_name file_path;
          FileInfo.extension := file_extension;
          FileInfo.sha := TreeItem.sha item;
          FileInfo.size := match TreeItem.size item with Some n => n | None => 0%Z end;
          FileInfo.url := TreeItem.url item;
          FileInfo.download_url :=
            fstr ["https://raw.githubusercontent.com/"; repo_owner; "/"; repo_name; "/";
                  branch; "/"; file_path];
          FileInfo.source_link :=
            fstr ["https://github.com/"; repo_owner; "/"; repo_name; "/blob/"; branch; "/";
                  file_path];
          FileInfo.raw_url :=
            fstr ["https://raw.githubusercontent.com/"; repo_owner; "/"; repo_name; "/";
                  branch; "/"; file_path];
          FileInfo.blob_url :=
            fstr ["https://github.com/"; repo_owner; "/"; repo_name; "/blob/"; branch; "/";
                  file_path] |}]
    else []
  else [].

Definition repo_api_url (repo_owner repo_name : string) : string :=
  fstr ["https://api.github.com/repos/"; repo_owner; "/"; repo_name].

Definition tree_api_url (repo_owner repo_name branch : string) : string :=
  fstr ["https://api.github.com/repos/"; repo_owner; "/"; repo_name; "/git/trees/"; branch;
        "?recursive=1"].

Definition fallback_message : string := "Trying 'master' branch as fallback".

Definition fetching_message (owner name branch : string) : string :=
  fstr ["Fetching repository tree for "; owner; "/"; name; " (branch: "; branch; ")"].

(** The body of the method; [self] is the method as the body calls it. *)
Definition fetch_repository_tree_body
    (self : string -> string -> string -> M (list FileInfo.t))
    (repo_owner repo_name branch : string) : M (list FileInfo.t) :=
  logger_info (fetching_message repo_owner repo_name branch) ;;
  response <- http_get (repo_api_url repo_owner repo_name) ;;
  if (Response.status_code response =? 404)%Z then
    if String.eqb branch "main" then
      logger_info fallback_message ;;
      self repo_owner repo_name "master"
    else
      raise (ValueError (fstr ["Repository "; repo_owner; "/"; repo_name;
                               " not found or not accessible"]))
  else
    raise_for_status response ;;
    _ <- response_json response ;;
    response <- http_get (tree_api_url repo_owner repo_name branch) ;;
    raise_for_status response ;;
    tree_data <- response_json response ;;
    let files :=
      flat_map (file_entry repo_owner repo_name branch)
               (match tree_data with Some items => items | None => [] end) in
    logger_info (fstr ["Found "; str_of_nat (List.length files);
                       " supported files in repository"]) ;;
    ret files.

(** The method calls itself; [depth] bounds the nesting of the calls, and
    running out of it is Python's [RecursionError]. *)
Fixpoint fetch_repository_tree_rec (depth : nat) (repo_owner repo_name branch : string)
  : M (list FileInfo.t) :=
  match depth with
  | O => raise RecursionError
  | S depth' =>
      fetch_repository_tree_body (fetch_repository_tree_rec depth') repo_owner repo_name branch
  end.

(** [sys.getrecursionlimit()] *)
Definition recursion_limit : nat := 1000.

Definition fetch_repository_tree : string -> string -> string -> M (list FileInfo.t) :=
  fetch_repository_tree_rec recursion_limit.

(** *** [fetch_file_content]

    [latin-1] decodes every byte to the code point of its number, so the
    second [except UnicodeDecodeError] is never taken. *)
Definition fetch_file_content (file_info : FileInfo.t) : M (option string) :=
  try_except
    (response <- http_get (FileInfo.download_url file_info) ;;
     raise_for_status response ;;
     match decode_utf8 (Response.content response) with
     | Some content => ret (Some content)
     | None => ret (Some (Response.content response))
     end)
    (fun e =>
       logger_warning (fstr ["Failed to fetch "; FileInfo.path file_info; ": "; exn_str e]) ;;
       ret None).

(** *** [extract_images_and_links] *)

Definition image_url_of (form : image_form) (m : Re.Match) : string :=
  match form with
  | MarkdownImage => Re.group 2 m
  | HtmlImage => Re.group 1 m
  | DirectUrl => Re.group 0 m
  end.

Definition is_absolute (url : string) : bool := startswith_any ["http://"; "https://"] url.

(** [if base_url and not url.startswith(('http://', 'https://')): url = urljoin(base_url, url)] *)
Definition resolve (base_url url : string) : string :=
  if negb (String.eqb base_url "") && negb (is_absolute url) then urljoin base_url url else url.

(** [match.group(2) if len(match.groups()) > 1 else match.group(1)] *)
Definition attachment_url_of (pattern : Re.re) (m : Re.Match) : string :=
  if 1 <? Re.ngroups pattern then Re.group 2 m else Re.group 1 m.

Definition link_url_of (pattern : Re.re) (m : Re.Match) : string :=
  if 1 <? Re.ngroups pattern then Re.group 2 m
  else if 0 <? Re.ngroups pattern then Re.group 1 m else Re.group 0 m.

(** The filter of the external links. *)
Definition is_external (link_url : string) : bool :=
  is_absolute link_url
  && negb (existsb (fun ext => contains ext (lower link_url)) filtered_extensions).

(** The three lists as the loops fill them, before the duplicates go. *)
Definition found_images (content base_url : string) : list string :=
  flat_map (fun p => map (fun m => resolve base_url (image_url_of (fst p) m))
                         (Re.finditer Re.IGNORECASE (snd p) content))
           image_patterns.

Definition found_attachments (content base_url : string) : list string :=
  flat_map (fun pattern => map (fun m => resolve base_url (attachment_url_of pattern m))
                               (Re.finditer Re.IGNORECASE pattern content))
           attachment_patterns.

Definition found_links (content : string) : list string :=
  flat_map (fun pattern => filter is_external
                             (map (link_url_of pattern) (Re.finditer Re.no_flags pattern content)))
           link_patterns.

Definition extract_images_and_links (content base_url : string)
  : list string * list string * list string :=
  let image_links := found_images content base_url in
  let attachment_links := found_attachments content base_url in
  let external_links := found_links content in
  (list_set image_links, list_set attachment_links, list_set external_links).

(** *** Content analysis *)

Definition assoc (key : string) (table : list (string * string)) : option string :=
  match find (fun kv => String.eqb (fst kv) key) table with
  | Some kv => Some (snd kv)
  | None => None
  end.

(** [sum(1 for pattern in lang_patterns if re.search(pattern, content, re.MULTILINE))] *)
Definition signature_matches (content : string) (lang_patterns : list Re.re) : nat :=
  List.length (filter (fun pattern => Re.search Re.MULTILINE pattern content) lang_patterns).

Definition _detect_language (content file_extension : string) : string :=
  match assoc file_extension extension_map with
  | Some language => language
  | None =>
      match find (fun entry => 2 <=? signature_matches content (snd entry))
                 language_patterns with
      | Some entry => fst entry
      | None => "unknown"
      end
  end.

Definition _extract_code_elements (content language : string) : CodeElements :=
  let elements :=
    if String.eqb language "python" then
      {| functions := list_set (Re.findall1 Re.no_flags py_function content);
         classes := list_set (Re.findall1 Re.no_flags any_class content);
         imports := list_set (Re.findall Re.no_flags py_import content) |}
    else if String.eqb language "javascript" then
      {| functions := flat_map (fun pattern => Re.findall1 Re.no_flags pattern content)
                               js_func_patterns;
         classes := list_set (Re.findall1 Re.no_flags any_class content);
         imports := list_set (Re.findall Re.no_flags js_import content) |}
    else if String.eqb language "java" then
      {| functions := list_set (Re.findall1 Re.no_flags java_function content);
         classes := list_set (Re.findall1 Re.no_flags java_class content);
         imports := list_set (Re.findall Re.no_flags java_import content) |}
    else
      {| functions := []; classes := []; imports := [] |} in
  {| functions := firstn 20 (list_set (functions elements));
     classes := firstn 20 (list_set (classes elements));
     imports := firstn 20 (list_set (imports elements)) |}.

Definition _has_code_content (content language : string) : bool :=
  existsb (fun pattern => Re.search Re.IGNORECASE pattern content) code_indicators.

Definition _has_documentation_content (content : string) : bool :=
  existsb (fun pattern => Re.search Re.DOTALL_IGNORECASE pattern content) doc_indicators.

(** [word_freq[word] = word_freq.get(word, 0) + 1] on a dictionary kept in
    the order of insertion. *)
Fixpoint bump (word : string) (word_freq : list (string * nat)) : list (string * nat) :=
  match word_freq with
  | [] => [(word, 1)]
  | (w, n) :: rest =>
      if String.eqb w word then (w, S n) :: rest else (w, n) :: bump word rest
  end.

(** [sorted(..., key=..., reverse=True)]: descending, equal keys in their
    original order. *)
Fixpoint insert_desc (x : string * nat) (sorted : list (string * nat)) : list (string * nat) :=
  match sorted with
  | [] => [x]
  | y :: rest => if snd y <? snd x then x :: sorted else y :: insert_desc x rest
  end.

Definition sorted_desc (items : list (string * nat)) : list (string * nat) :=
  fold_left (fun acc x => insert_desc x acc) items [].

(** The loop that counts the words: [if word not in stopwords and len(word) > 2]. *)
Definition count_words (words : list string) (word_freq : list (string * nat))
  : list (string * nat) :=
  fold_left (fun freq word =>
               if negb (existsb (String.eqb word) stopwords) && (2 <? len word)
               then bump word freq else freq)
            words word_freq.

Definition _extract_keywords (content : string) : list string :=
  let cleaned_content := Re.sub Re.DOTALL fenced_code "" content in
  let cleaned_content := Re.sub Re.no_flags inline_code "" cleaned_content in
  let cleaned_content := Re.sub Re.no_flags brackets " " cleaned_content in
  let words := Re.findall Re.no_flags alpha_word (lower cleaned_content) in
  let word_freq := count_words words [] in
  firstn 15 (map fst (sorted_desc word_freq)).

Definition two_newlines : string := String Re.newline (String Re.newline "").

(** [sum(bs)] for a list of truth values. *)
Definition count_true (bs : list bool) : nat := List.length (filter (fun b => b) bs).

(** [a / b] for integers [a] and [b <> 0]. *)
Definition true_div (a b : nat) : Q := (inject_Z (Z.of_nat a) / inject_Z (Z.of_nat b))%Q.

Definition info_caps : list nat := [10; 5; 5; 20; 10].

Definition _calculate_quality_scores (content : string) (code_elements : CodeElements)
    (has_documentation : bool) : Scores :=
  let quality_indicators := [
    100 <? len content;
    contains two_newlines content;
    existsb (fun marker => contains marker content) ["#"; "##"; "###"];
    has_documentation;
    0 <? List.length (functions code_elements);
    2 <? List.length (Re.findall Re.no_flags sentence_end content)
  ] in
  let content_quality_score :=
    true_div (count_true quality_indicators) (List.length quality_indicators) in
  let unique_words := len_set (Re.findall Re.no_flags long_word (lower content)) in
  let total_words := List.length (Re.findall Re.no_flags any_word content) in
  let semantic_density :=
    if 0 <? total_words then true_div unique_words total_words else 0%Q in
  let info_indicators := [
    List.length (functions code_elements);
    List.length (classes code_elements);
    List.length (Re.findall Re.no_flags reference content);
    List.length (Re.findall Re.no_flags camel_case content);
    count "```" content
  ] in
  let max_info_value := list_sum info_caps in
  let actual_info_value :=
    list_sum (map (fun p => Nat.min (fst p) (snd p)) (combine info_indicators info_caps)) in
  let information_value_score := true_div actual_info_value max_info_value in
  {| content_quality_score := content_quality_score;
     semantic_density_score := Qmin (semantic_density * 2) 1;
     information_value_score := information_value_score |}.

Definition analyze_content (content : string) (file_info : FileInfo.t) : Analysis.t :=
  let language := _detect_language content (FileInfo.extension file_info) in
  let code_elements := _extract_code_elements content language in
  let has_code := _has_code_content content language in
  let has_documentation := _has_documentation_content content in
  let keywords := _extract_keywords content in
  let quality_scores := _calculate_quality_scores content code_elements has_documentation in
  {| Analysis.language := language;
     Analysis.has_code := has_code;
     Analysis.has_documentation := has_documentation;
     Analysis.function_names := functions code_elements;
     Analysis.class_names := classes code_elements;
     Analysis.import_statements := imports code_elements;
     Analysis.keywords := keywords;
     Analysis.scores := quality_scores |}.

(** *** [semantic_chunk_content] *)

Definition semantic_chunk_content (content : string) (file_info : FileInfo.t)
  : M (list string) :=
  let language := _detect_language content (FileInfo.extension file_info) in
  let language := if String.eqb language "unknown" then "text" else language in
  lift (CodeChunker language content).

(** *** [process_file] *)

(** [not content or len(content.strip()) < 50] *)
Definition too_short (content : option string) : bool :=
  match content with
  | None => true
  | Some text => String.eqb text "" || (len (strip text) <? 50)
  end.

(** The images of the file that the chunk refers to. *)
Definition chunk_images (image_links : list string) (chunk : string) : list string :=
  filter (fun img_link =>
            let img_name := lower (path_name img_link) in
            contains img_name (lower chunk)
            || existsb (fun part => contains part (lower chunk)) (split "." img_name))
         image_links.

Definition chunk_attachments (attachment_links : list string) (chunk : string) : list string :=
  filter (fun att_link => contains (lower (path_name att_link)) (lower chunk))
         attachment_links.

Definition docs_url (file_info : FileInfo.t) : string :=
  let docs_path := FileInfo.path file_info in
  let docs_path :=
    if endswith ".rst" docs_path then (drop_last 4 docs_path ++ ".html")%string
    else docs_path in
  fstr ["https://docs.beagle.cc/"; docs_path].

(** The dictionary [chunk_metadata] of the [i]-th chunk. *)
Definition chunk_metadata (file_info : FileInfo.t) (repo_owner repo_name branch : string)
    (image_links attachment_links external_links : list string)
    (content_analysis : Analysis.t) (i : nat) (chunk id created_at : string) : Chunk.t :=
  let chunk_images := chunk_images image_links chunk in
  let chunk_attachments := chunk_attachments attachment_links chunk in
  {| Chunk.id := id;
     Chunk.document := chunk;
     Chunk.file_name := FileInfo.name file_info;
     Chunk.file_path := FileInfo.path file_info;
     Chunk.file_type := FileInfo.extension file_info;
     Chunk.file_size := FileInfo.size file_info;
     Chunk.source_link := docs_url file_info;
     Chunk.github_url := FileInfo.source_link file_info;
     Chunk.raw_url := FileInfo.raw_url file_info;
     Chunk.blob_url := FileInfo.blob_url file_info;
     Chunk.chunk_index := i;
     Chunk.chunk_length := len chunk;
     Chunk.chunk_method := "semantic";
     Chunk.has_images := 0 <? List.length chunk_images;
     Chunk.image_links := json_dumps chunk_images;
     Chunk.image_count := List.length chunk_images;
     Chunk.attachment_links := json_dumps chunk_attachments;
     Chunk.has_links := 0 <? List.length external_links;
     Chunk.external_links := json_dumps (firstn 10 external_links);
     Chunk.language := Analysis.language content_analysis;
     Chunk.has_code := Analysis.has_code content_analysis;
     Chunk.has_documentation := Analysis.has_documentation content_analysis;
     Chunk.function_names := json_dumps (Analysis.function_names content_analysis);
     Chunk.class_names := json_dumps (Analysis.class_names content_analysis);
     Chunk.import_statements := json_dumps (Analysis.import_statements content_analysis);
     Chunk.keywords := json_dumps (Analysis.keywords content_analysis);
     Chunk.repo_name := repo_name;
     Chunk.repo_owner := repo_owner;
     Chunk.branch := branch;
     Chunk.commit_sha := "latest";
     Chunk.created_at := created_at;
     Chunk.embedding_model := model_name;
     Chunk.content_quality_score := content_quality_score (Analysis.scores content_analysis);
     Chunk.semantic_density_score := semantic_density_score (Analysis.scores content_analysis);
     Chunk.information_value_score :=
       information_value_score (Analysis.scores content_analysis) |}.

(** [for i, chunk in enumerate(chunks): ...] *)
Fixpoint chunk_loop (build : nat -> string -> string -> string -> Chunk.t)
    (items : list (nat * string)) (chunk_metadata_list : list Chunk.t)
  : M (list Chunk.t) :=
  match items with
  | [] => ret chunk_metadata_list
  | (i, chunk) :: rest =>
      if len (strip chunk) <? 30 then chunk_loop build rest chunk_metadata_list
      else
        id <- uuid4_str ;;
        created_at <- now_isoformat ;;
        chunk_loop build rest (chunk_metadata_list ++ [build i chunk id created_at])
  end.

Definition processing_message (file_info : FileInfo.t) : string :=
  fstr ["Processing file: "; FileInfo.path file_info].

Definition base_url_of (repo_owner repo_name branch : string) : string :=
  fstr ["https://github.com/"; repo_owner; "/"; repo_name; "/blob/"; branch; "/"].

Definition skip_message (file_info : FileInfo.t) : string :=
  fstr ["Skipping "; FileInfo.path file_info; ": content too short or empty"].

Definition created_message (n : nat) (file_info : FileInfo.t) : string :=
  fstr ["Created "; str_of_nat n; " chunks for "; FileInfo.name file_info].

Definition process_file (file_info : FileInfo.t) (repo_owner repo_name branch : string)
  : M (list Chunk.t) :=
  logger_info (processing_message file_info) ;;
  fetched <- fetch_file_content file_info ;;
  if too_short fetched then
    logger_warning (skip_message file_info) ;;
    ret []
  else
    let content := match fetched with Some text => text | None => "" end in
    let base_url := base_url_of repo_owner repo_name branch in
    let '(image_links, attachment_links, external_links) :=
      extract_images_and_links content base_url in
    let content_analysis := analyze_content content file_info in
    chunks <- semantic_chunk_content content file_info ;;
    chunk_metadata_list <-
      chunk_loop (chunk_metadata file_info repo_owner repo_name branch
                                 image_links attachment_links external_links content_analysis)
                 (enumerate chunks) [] ;;
    logger_info (created_message (List.length chunk_metadata_list) file_info) ;;
    ret chunk_metadata_list.

(** *** [generate_embeddings_batch] *)

Definition zero_step : exn := ValueError "range() arg 3 must not be zero".

Fixpoint embed_loop (chunks : list string) (batch_size : nat) (starts : list nat)
    (all_embeddings : list (list Q)) : M (list (list Q)) :=
  match starts with
  | [] => ret all_embeddings
  | i :: rest =>
      let batch := slice i (i + batch_size) chunks in
      embeddings <- model_encode batch ;;
      (if i mod (batch_size * 5) =? 0 then
         logger_info (fstr ["Generated embeddings: "; str_of_nat (i + List.length batch); "/";
                            str_of_nat (List.length chunks)])
       else ret tt) ;;
      embed_loop chunks batch_size rest (all_embeddings ++ embeddings)
  end.

Definition generate_embeddings_batch (chunks : list string) (batch_size : Z)
  : M (list (list Q)) :=
  logger_info (fstr ["Generating embeddings for "; str_of_nat (List.length chunks); " chunks"]) ;;
  match range_step (List.length chunks) batch_size with
  | None => raise zero_step
  | Some starts => embed_loop chunks (Z.to_nat batch_size) starts []
  end.

(** *** [store_chunks_batch] *)

(** [insert_data]: the columns of a batch, each string cut to its length. *)
Definition insert_data (batch_metadata : list Chunk.t) (batch_embeddings : list (list Q))
  : Columns.t :=
  let column {A : Type} (get : Chunk.t -> A) := map get batch_metadata in
  {| Columns.id := column Chunk.id;
     Columns.document := column (fun item => slice_to 65535 (Chunk.document item));
     Columns.embedding := batch_embeddings;
     Columns.file_name := column (fun item => slice_to 500 (Chunk.file_name item));
     Columns.file_path := column (fun item => slice_to 1000 (Chunk.file_path item));
     Columns.file_type := column (fun item => slice_to 50 (Chunk.file_type item));
     Columns.file_size := column Chunk.file_size;
     Columns.source_link := column (fun item => slice_to 2000 (Chunk.source_link item));
     Columns.raw_url := column (fun item => slice_to 2000 (Chunk.raw_url item));
     Columns.blob_url := column (fun item => slice_to 2000 (Chunk.blob_url item));
     Columns.chunk_index := column Chunk.chunk_index;
     Columns.chunk_length := column Chunk.chunk_length;
     Columns.chunk_method := column (fun item => slice_to 50 (Chunk.chunk_method item));
     Columns.has_images := column Chunk.has_images;
     Columns.image_links := column (fun item => slice_to 5000 (Chunk.image_links item));
     Columns.image_count := column Chunk.image_count;
     Columns.attachment_links := column (fun item => slice_to 5000 (Chunk.attachment_links item));
     Columns.language := column (fun item => slice_to 50 (Chunk.language item));
     Columns.has_code := column Chunk.has_code;
     Columns.has_documentation := column Chunk.has_documentation;
     Columns.has_links := column Chunk.has_links;
     Columns.external_links := column (fun item => slice_to 3000 (Chunk.external_links item));
     Columns.function_names := column (fun item => slice_to 2000 (Chunk.function_names item));
     Columns.class_names := column (fun item => slice_to 1000 (Chunk.class_names item));
     Columns.import_statements :=
       column (fun item => slice_to 2000 (Chunk.import_statements item));
     Columns.keywords := column (fun item => slice_to 2000 (Chunk.keywords item));
     Columns.repo_name := column (fun item => slice_to 200 (Chunk.repo_name item));
     Columns.repo_owner := column (fun item => slice_to 100 (Chunk.repo_owner item));
     Columns.branch := column (fun item => slice_to 100 (Chunk.branch item));
     Columns.commit_sha := column (fun item => slice_to 100 (Chunk.commit_sha item));
     Columns.created_at := column (fun item => slice_to 50 (Chunk.created_at item));
     Columns.embedding_model := column (fun item => slice_to 100 (Chunk.embedding_model item));
     Columns.content_quality_score := column Chunk.content_quality_score;
     Columns.semantic_density_score := column Chunk.semantic_density_score;
     Columns.information_value_score := column Chunk.information_value_score |}.

Fixpoint store_loop (chunk_metadata_list : list Chunk.t) (embeddings : list (list Q))
    (batch_size : nat) (starts : list nat) : M unit :=
  match starts with
  | [] => ret tt
  | i :: rest =>
      let end_idx := Nat.min (i + batch_size) (List.length chunk_metadata_list) in
      let batch_metadata := slice i end_idx chunk_metadata_list in
      let batch_embeddings := slice i end_idx embeddings in
      insert (insert_data batch_metadata batch_embeddings) ;;
      flush ;;
      logger_info (fstr ["Stored batch "; str_of_nat (i / batch_size + 1); "/";
                         str_of_nat ((List.length chunk_metadata_list + batch_size - 1)
                                     / batch_size)]) ;;
      store_loop chunk_metadata_list embeddings batch_size rest
  end.

Definition store_chunks_batch (chunk_metadata_list : list Chunk.t)
    (embeddings : list (list Q)) (batch_size : Z) : M unit :=
  logger_info (fstr ["Storing "; str_of_nat (List.length chunk_metadata_list);
                     " chunks in Milvus"]) ;;
  match range_step (List.length chunk_metadata_list) batch_size with
  | None => raise zero_step
  | Some starts => store_loop chunk_metadata_list embeddings (Z.to_nat batch_size) starts
  end.

(** *** [ingest_repository] *)

(** [for future in as_completed(future_to_file): try: ... except Exception] *)
Fixpoint collect (process_single_file : FileInfo.t -> M (list Chunk.t))
    (futures : list FileInfo.t) (all_chunk_metadata : list Chunk.t) : M (list Chunk.t) :=
  match futures with
  | [] => ret all_chunk_metadata
  | file_info :: rest =>
      extended <-
        try_except
          (chunk_metadata <- process_single_file file_info ;;
           ret (all_chunk_metadata ++ chunk_metadata))
          (fun e =>
             logger_error (fstr ["Error processing "; FileInfo.path file_info; ": ";
                                 exn_str e]) ;;
             ret all_chunk_metadata) ;;
      collect process_single_file rest extended
  end.

(** [with ThreadPoolExecutor(max_workers=max_workers) as executor: ...] *)
Definition process_files (files : list FileInfo.t) (repo_owner repo_name branch : string)
    (max_workers : Z) : M (list Chunk.t) :=
  if (max_workers <=? 0)%Z then raise (ValueError "max_workers must be greater than 0")
  else
    collect (fun file_info => process_file file_info repo_owner repo_name branch)
            (as_completed files) [].

Definition no_content_message : string := "No processable content found".

(** [sum(xs) / len(xs)] for scores. *)
Definition mean (xs : list Q) : Q :=
  (fold_right Qplus 0 xs / inject_Z (Z.of_nat (List.length xs)))%Q.

Definition starting_message (repo_url : string) : string :=
  fstr ["Starting repository ingestion for: "; repo_url].

Definition tree_fetched_message (files : list FileInfo.t) : string :=
  fstr ["Repository tree fetched ("; str_of_nat (List.length files); " files)"].

Definition processed_message (all_chunk_metadata : list Chunk.t) : string :=
  fstr ["File processing completed ("; str_of_nat (List.length all_chunk_metadata);
        " chunks)"].

(** The [try] block of [ingest_repository]. *)
Definition ingest_stages (repo_owner repo_name branch : string) (max_workers : Z)
  : M Ingestion :=
  logger_info "Fetching repository tree..." ;;
  files <- fetch_repository_tree repo_owner repo_name branch ;;
  logger_info (tree_fetched_message files) ;;
  logger_info "Processing files in parallel..." ;;
  all_chunk_metadata <- process_files files repo_owner repo_name branch max_workers ;;
  logger_info (processed_message all_chunk_metadata) ;;
  match all_chunk_metadata with
  | [] =>
      logger_warning "No chunks generated from repository" ;;
      ret (NoContent no_content_message)
  | _ :: _ =>
      logger_info "Generating embeddings..." ;;
      let chunks := map Chunk.document all_chunk_metadata in
      embeddings <- generate_embeddings_batch chunks 64 ;;
      logger_info "Embeddings generated" ;;
      logger_info "Storing in Milvus..." ;;
      store_chunks_batch all_chunk_metadata embeddings 100 ;;
      logger_info "Data stored" ;;
      let total_images := list_sum (map Chunk.image_count all_chunk_metadata) in
      let files_with_images := List.length (filter Chunk.has_images all_chunk_metadata) in
      let avg_quality := mean (map Chunk.content_quality_score all_chunk_metadata) in
      ret (Ingested (List.length files) (List.length all_chunk_metadata) total_images
                    files_with_images avg_quality)
  end.

Definition ingest_repository (repo_url branch : string) (max_workers : Z) : M Ingestion :=
  logger_info (starting_message repo_url) ;;
  match Re.match_ Re.no_flags repo_url_pattern (rstrip_char "/" repo_url) with
  | None => raise (ValueError (fstr ["Invalid GitHub repository URL: "; repo_url]))
  | Some repo_match =>
      let repo_owner := Re.group 1 repo_match in
      let repo_name := Re.group 2 repo_match in
      try_except
        (ingest_stages repo_owner repo_name branch max_workers)
        (fun e =>
           logger_error (fstr ["Error during repository ingestion: "; exn_str e]) ;;
           raise e)
  end.

(** *** [_connect_to_milvus] *)

Open Scope proc_scope.

Definition call (c : Call) : P bool :=
  fun p =>
    (pymilvus (calls p) c,
     {| world := world p; calls := calls p ++ [c]; slept := slept p; printed := printed p |}).

Definition max_retries : nat := 3.

(** [connect_kwargs], as the loop body fills it. *)
Definition connect_kwargs : list (string * Value) :=
  [("alias", VStr "default"); ("timeout", VInt 30)]
  ++ (if truthy MILVUS_URI then [("uri", MILVUS_URI)]
      else [("host", MILVUS_HOST); ("port", MILVUS_PORT)])
  ++ (if truthy MILVUS_USER then [("user", MILVUS_USER)] else [])
  ++ (if truthy MILVUS_PASSWORD then [("password", MILVUS_PASSWORD)] else [])
  ++ (if truthy MILVUS_TOKEN then [("token", MILVUS_TOKEN)] else []).

Definition connected_message : string :=
  fstr ["Successfully connected to Milvus at "; str_of_value MILVUS_HOST; ":";
        str_of_value MILVUS_PORT].

(** The [try] block of the loop body, up to its [return]. *)
Definition connect_attempt : P unit :=
  ptry (call (disconnect "default") ;; pret tt) (fun _ => pret tt) ;;
  call (connect connect_kwargs) ;;
  call list_collections ;;
  plog INFO connected_message.

Definition connection_failed_message (attempt : nat) (e : exn) : string :=
  fstr ["Connection attempt "; str_of_nat (attempt + 1); " failed: "; exn_str e].

Definition retrying_message (retry_delay : Z) : string :=
  fstr ["Retrying in "; str_of_Z retry_delay; " seconds..."].

Definition gave_up_message : string :=
  fstr ["Failed to connect to Milvus after "; str_of_nat max_retries; " attempts"].

(** [for attempt in range(max_retries)], with [retry_delay] as it stands;
    the loop body yields [true] when it returns from the method. *)
Fixpoint connect_loop (attempts : list nat) (retry_delay : Z) : P unit :=
  match attempts with
  | [] => pret tt
  | attempt :: rest =>
      returned <-
        ptry (connect_attempt ;; pret true)
             (fun e =>
                plog WARNING (connection_failed_message attempt e) ;;
                if attempt <? max_retries - 1 then
                  plog INFO (retrying_message retry_delay) ;;
                  sleep retry_delay ;;
                  pret false
                else
                  plog ERROR gave_up_message ;;
                  praise e) ;;
      if returned then pret tt else connect_loop rest (retry_delay * 2)
  end.

Definition _connect_to_milvus : P unit := connect_loop (seq 0 max_retries) 2.

(** *** [_setup_enhanced_collection] *)

Definition index_params : IndexParams :=
  {| metric_type := "COSINE"; index_type := "IVF_FLAT"; nlist := 1024 |}.

Definition scalar_indexes : list string :=
  ["file_type"; "language"; "repo_name"; "has_images"; "has_code"].

Definition schema_description : string :=
  "Enhanced repository content with semantic chunking and image metadata".

Definition max_create_retries : nat := 3.

Definition creating_message (attempt : nat) : string :=
  fstr ["Creating enhanced collection '"; collection_name; "' (attempt ";
        str_of_nat (attempt + 1); ")"].

Definition creation_failed_message (attempt : nat) (e : exn) : string :=
  fstr ["Collection creation attempt "; str_of_nat (attempt + 1); " failed: "; exn_str e].

(** The clean-up between two attempts, whose exceptions are passed over. *)
Definition clean_up : P unit :=
  ptry (stale <- call (has_collection collection_name) ;;
        if stale then call (drop_collection collection_name) ;; pret tt else pret tt)
       (fun _ => pret tt).

(** [for attempt in range(max_create_retries)]; the loop body yields [true]
    when it leaves the loop with [break]. *)
Fixpoint create_loop (schema : list FieldSchema * string) (attempts : list nat) : P unit :=
  match attempts with
  | [] => pret tt
  | attempt :: rest =>
      created <-
        ptry (plog INFO (creating_message attempt) ;;
              call (Collection collection_name (Some schema)) ;;
              pret true)
             (fun create_error =>
                plog WARNING (creation_failed_message attempt create_error) ;;
                if attempt <? max_create_retries - 1 then
                  sleep 3 ;;
                  clean_up ;;
                  pret false
                else praise create_error) ;;
      if created then pret tt else create_loop schema rest
  end.

(** [for field_name in scalar_indexes] *)
Fixpoint scalar_index_loop (names : list string) : P unit :=
  match names with
  | [] => pret tt
  | field_name :: rest =>
      ptry (call (create_index field_name None) ;; pret tt)
           (fun idx_error =>
              plog WARNING (fstr ["Could not create index for "; field_name; ": ";
                                  exn_str idx_error])) ;;
      scalar_index_loop rest
  end.

(** The inner [try] block: the indexes, whose failure is passed over. *)
Definition create_indexes : P unit :=
  ptry (call (create_index "embedding" (Some index_params)) ;;
        scalar_index_loop scalar_indexes ;;
        plog INFO "Created indexes for collection")
       (fun index_error =>
          plog WARNING (fstr ["Index creation failed: "; exn_str index_error])).

Definition setup_failed_message (e : exn) : string :=
  fstr ["Failed to setup collection: "; exn_str e].

(** The handler of the outer [try]. *)
Definition setup_handler (e : exn) : P unit :=
  plog ERROR (setup_failed_message e) ;;
  (if contains "node not match" (exn_str e)
      || contains "InvalidateCollectionMetaCache" (exn_str e)
   then
     plog ERROR "This appears to be a Milvus server state issue. Try:" ;;
     plog ERROR "1. Restart Milvus server: docker restart milvus-standalone" ;;
     plog ERROR "2. Or restart the entire Milvus stack" ;;
     plog ERROR "3. Wait a few minutes and try again"
   else pret tt) ;;
  praise e.

Definition existing_message : string :=
  fstr ["Collection '"; collection_name; "' already exists, loading to append new data."].

Definition ready_message : string :=
  fstr ["Collection '"; collection_name; "' ready for use"].

(** The outer [try] block, for a schema. *)
Definition setup_collection (schema : list FieldSchema * string) : P unit :=
  ptry
    (exists_ <- call (has_collection collection_name) ;;
     if exists_ then
       plog INFO existing_message ;;
       call (Collection collection_name None) ;;
       call load ;;
       plog INFO "Using existing collection"
     else
       create_loop schema (seq 0 max_create_retries) ;;
       create_indexes ;;
       call load ;;
       plog INFO ready_message)
    setup_handler.

(** [len(sample_embedding[0])] *)
Definition first_length (sample_embedding : list (list Q)) : P nat :=
  match sample_embedding with
  | first :: _ => pret (List.length first)
  | [] => praise (Exception "IndexError" "index 0 is out of bounds")
  end.

Definition _setup_enhanced_collection : P unit :=
  sample_embedding <- (fun p => (encode_default ["test"], p)) ;;
  embedding_dim <- first_length sample_embedding ;;
  plog INFO (fstr ["Embedding dimension: "; str_of_nat embedding_dim]) ;;
  setup_collection (fields embedding_dim, schema_description).

(** *** [__init__] *)

(** What the constructor leaves in [self] besides the names: the device and
    the headers of the requests to GitHub. *)
Definition device : string := if cuda_is_available then "cuda" else "cpu".

Definition github_headers : list (string * string) :=
  [("Accept", "application/vnd.github.v3+json"); ("User-Agent", "BeagleMind-Ingester/1.0")]
  ++ (if truthy github_token then [("Authorization", fstr ["token "; str_of_value github_token])]
      else []).

(** A constructor that raises or returns. *)
Definition construct (raised : option exn) : P unit :=
  match raised with
  | Some e => praise e
  | None => pret tt
  end.

Definition __init__ : P unit :=
  plog INFO (fstr ["Using device: "; device]) ;;
  plog INFO (fstr ["Loading embedding model: "; model_name]) ;;
  construct (SentenceTransformer device) ;;
  construct (HuggingFaceEmbeddings device) ;;
  _connect_to_milvus ;;
  _setup_enhanced_collection.

(** *** [ingest_repository] as a step of the process

    The method runs in the world of the process; before it returns its
    statistics it prints their summary. *)
Definition print_summary (repo_url branch : string) (result : Ingestion) : P unit :=
  match result, Re.match_ Re.no_flags repo_url_pattern (rstrip_char "/" repo_url) with
  | Ingested files_processed chunks_generated images_found files_with_images avg_quality,
    Some repo_match =>
      print (Summary (Re.group 1 repo_match) (Re.group 2 repo_match) branch collection_name
                     files_processed chunks_generated images_found files_with_images
                     avg_quality)
  | _, _ => pret tt
  end.

Definition ingest_and_print (repo_url branch : string) (max_workers : Z) : P Ingestion :=
  result <- lift_world (ingest_repository repo_url branch max_workers) ;;
  print_summary repo_url branch result ;;
  pret result.

(** *** [main], from the parsed arguments on

    [args.collection], [args.model] and [args.github_token] are the
    [collection_name], [model_name] and [github_token] of the ingester. *)
Definition main (repo_url branch : string) (max_workers : Z) : P unit :=
  ptry
    (__init__ ;;
     result <- ingest_and_print repo_url branch max_workers ;;
     if success result then
       print Completed ;;
       print (SearchHint collection_name)
     else
       print (Failed (match result with
                      | NoContent message => message
                      | Ingested _ _ _ _ _ => "Unknown error"
                      end)))
    (fun e =>
       plog ERROR (fstr ["Error: "; exn_str e]) ;;
       print (Traceback e)).

Close Scope proc_scope.

(** The calls that create, index or drop a collection, and the calls that
    connect. *)
Definition is_creation (c : Call) : bool :=
  match c with
  | Collection _ (Some _) => true
  | _ => false
  end.

Definition is_index (c : Call) : bool :=
  match c with
  | create_index _ _ => true
  | _ => false
  end.

Definition is_drop (c : Call) : bool :=
  match c with
  | drop_collection _ => true
  | _ => false
  end.

Definition is_connect (c : Call) : bool :=
  match c with
  | connect _ => true
  | _ => false
  end.

(** The keys of a dictionary of keyword arguments. *)
Definition keys (kwargs : list (string * Value)) : list string := map fst kwargs.

(** *** Observations used in the statements *)

(** What [fetch_file_content] hands to [process_file] for a file (the
    answer of GitHub does not depend on the world the request is made in). *)
Definition fetched (file_info : FileInfo.t) : option string :=
  match fst (fetch_file_content file_info empty_world) with
  | Ok content => content
  | Raise _ => None
  end.

(** What [semantic_chunk_content] returns for a text. *)
Definition chunked (content : string) (file_info : FileInfo.t) : Result (list string) :=
  fst (semantic_chunk_content content file_info empty_world).

(** [len(chunk.strip()) < 30] is false: the chunk gets a record. *)
Definition kept (chunk : string) : bool := negb (len (strip chunk) <? 30).

(** The chunks that get a record, each with its position in the chunker's
    output. *)
Definition kept_chunks (chunks : list string) : list (nat * string) :=
  filter (fun item => kept (snd item)) (enumerate chunks).

(** The embedding, storage and random state of the world are the same. *)
Definition same_store (w w' : World) : Prop :=
  encoded w' = encoded w /\ inserted w' = inserted w /\ flushes w' = flushes w.

(** The [i]-th record was built from the [i]-th kept chunk, with a fresh
    UUID and a reading of the clock. *)
Definition built_from (build : nat -> string -> string -> string -> Chunk.t)
    (r : Chunk.t) (item : nat * string) : Prop :=
  exists k1 k2,
    r = build (fst item) (snd item) (uuid_str (uuid4_int (os_urandom k1)))
              (datetime_now_isoformat k2).

(** The records [process_file] builds from a text: one per kept chunk. *)
Definition records_of (file_info : FileInfo.t) (owner name branch text : string)
    (chunks : list string) (recs : list Chunk.t) : Prop :=
  let links := extract_images_and_links text (base_url_of owner name branch) in
  Forall2 (built_from (chunk_metadata file_info owner name branch
                                      (fst (fst links)) (snd (fst links)) (snd links)
                                      (analyze_content text file_info)))
          recs (kept_chunks chunks).

(** A method that leaves the embedding and storage state alone. *)
Definition keeps_store {A : Type} (m : M A) : Prop :=
  forall w, same_store w (snd (m w)).

(** The world in which [ingest_repository] resolves the tree, and the one
    in which it processes the files once the tree is resolved in [w1]. *)
Definition at_tree_stage (repo_url : string) (w : World) : World :=
  logged INFO "Fetching repository tree..." (logged INFO (starting_message repo_url) w).

Definition at_processing_stage (files : list FileInfo.t) (w1 : World) : World :=
  logged INFO "Processing files in parallel..." (logged INFO (tree_fetched_message files) w1).

(** The owner and the name [ingest_repository] reads off the URL. *)
Definition parsed_repo (repo_url : string) : option (string * string) :=
  match Re.match_ Re.no_flags repo_url_pattern (rstrip_char "/" repo_url) with
  | Some repo_match => Some (Re.group 1 repo_match, Re.group 2 repo_match)
  | None => None
  end.

(** Two lists hold the same elements, whatever the order and the number of
    occurrences. *)
Definition same_elements (xs ys : list string) : Prop :=
  forall x, In x xs <-> In x ys.

(** The string columns of a batch, by the name of their field. *)
Definition varchar_columns (data : Columns.t) : list (string * list string) := [
  ("id", Columns.id data);
  ("document", Columns.document data);
  ("file_name", Columns.file_name data);
  ("file_path", Columns.file_path data);
  ("file_type", Columns.file_type data);
  ("source_link", Columns.source_link data);
  ("raw_url", Columns.raw_url data);
  ("blob_url", Columns.blob_url data);
  ("chunk_method", Columns.chunk_method data);
  ("image_links", Columns.image_links data);
  ("attachment_links", Columns.attachment_links data);
  ("language", Columns.language data);
  ("external_links", Columns.external_links data);
  ("function_names", Columns.function_names data);
  ("class_names", Columns.class_names data);
  ("import_statements", Columns.import_statements data);
  ("keywords", Columns.keywords data);
  ("repo_name", Columns.repo_name data);
  ("repo_owner", Columns.repo_owner data);
  ("branch", Columns.branch data);
  ("commit_sha", Columns.commit_sha data);
  ("created_at", Columns.created_at data);
  ("embedding_model", Columns.embedding_model data)
].

(** Every value of the column is within the length the schema declares for
    the field. *)
Definition within_declared_length (embedding_dim : nat) (name : string)
    (values : list string) : Prop :=
  exists L, declared_max_length embedding_dim name = Some L
            /\ Forall (fun v => (N.of_nat (len v) <= L)%N) values.

(** The messages logged at the level [ERROR]. *)
Definition is_error (entry : Level * string) : bool :=
  match fst entry with
  | ERROR => true
  | _ => false
  end.

Definition errors (w : World) : list string := map snd (filter is_error (log w)).

(** A method that logs no error. *)
Definition quiet {A : Type} (m : M A) : Prop :=
  forall w, errors (snd (m w)) = errors w.

(** What becomes of a file in any world: the chunks that get a record,
    each with its position, or the exception of the chunker. *)
Definition outcome (file_info : FileInfo.t) : Result (list (nat * string)) :=
  match fetched file_info with
  | Some text =>
      if too_short (Some text) then Ok []
      else
        match chunked text file_info with
        | Ok chunks => Ok (kept_chunks chunks)
        | Raise e => Raise e
        end
  | None => Ok []
  end.

(** The path, the index and the text of the records a file is to give, and
    the error message it is to leave in the log. *)
Definition records_expected (file_info : FileInfo.t) : list (string * nat * string) :=
  match outcome file_info with
  | Ok items => map (fun item => (FileInfo.path file_info, fst item, snd item)) items
  | Raise _ => []
  end.

Definition error_expected (file_info : FileInfo.t) : list string :=
  match outcome file_info with
  | Ok _ => []
  | Raise e => [fstr ["Error processing "; FileInfo.path file_info; ": "; exn_str e]]
  end.

(** The batches of [k] consecutive elements of a list, the last one shorter
    when [k] does not divide the length. *)
Definition batches_of {A : Type} (k : nat) (xs : list A) : list (list A) :=
  map (fun j => slice (j * k) (j * k + k) xs) (seq 0 ((List.length xs + k - 1) / k)).

(** The batches [store_chunks_batch] is to insert. *)
Definition batches_to_store (k : nat) (chunk_metadata_list : list Chunk.t)
    (embeddings : list (list Q)) : list Columns.t :=
  map (fun j =>
         let end_idx := Nat.min (j * k + k) (List.length chunk_metadata_list) in
         insert_data (slice (j * k) end_idx chunk_metadata_list)
                     (slice (j * k) end_idx embeddings))
      (seq 0 ((List.length chunk_metadata_list + k - 1) / k)).

(** [xs] is the beginning of [ys]. *)
Definition prefix_of {A : Type} (xs ys : list A) : Prop := exists rest, ys = xs ++ rest.


(** The delays of [k] retries that start at [delay] and double. *)
Fixpoint backoff (delay : Z) (k : nat) : list Z :=
  match k with
  | O => []
  | S k' => delay :: backoff (delay * 2) k'
  end.

(** The process differs from [p] in its calls and its log only. *)
Definition only_calls_and_log (p p' : Process) : Prop :=
  slept p' = slept p /\ printed p' = printed p
  /\ requested (world p') = requested (world p) /\ drawn (world p') = drawn (world p)
  /\ same_store (world p) (world p').

(** The process [p'] is [p] after the calls [new_calls] and the log
    entries [entries], with nothing slept, printed, requested, embedded or
    stored. *)
Definition extends (p p' : Process) (new_calls : list Call)
    (entries : list (Level * string)) : Prop :=
  calls p' = calls p ++ new_calls
  /\ log (world p') = log (world p) ++ entries
  /\ slept p' = slept p /\ printed p' = printed p
  /\ requested (world p') = requested (world p)
  /\ same_store (world p) (world p').



(** The process after [plog] has written an entry. *)
Definition plogged (lvl : Level) (msg : string) (p : Process) : Process :=
  {| world := logged lvl msg (world p); calls := calls p; slept := slept p;
     printed := printed p |}.

(** The index calls of [_setup_enhanced_collection]. *)
Definition embedding_index : Call := create_index "embedding" (Some index_params).

Definition scalar_index_calls : list Call :=
  map (fun field_name => create_index field_name None) scalar_indexes.

(** ** Properties *)

(** *** Strings and lists *)

Lemma len_take_le (n : nat) (s : string) : len (take n s) <= n.
Proof.
  unfold len; revert s; induction n as [|n IH]; intros [|c t]; simpl; try lia.
  all: specialize (IH t); lia.
Qed.

Lemma len_take_le_len (n : nat) (s : string) : len (take n s) <= len s.
Proof.
  unfold len; revert s; induction n as [|n IH]; intros [|c t]; simpl; try lia.
  all: specialize (IH t); lia.
Qed.

Lemma len_slice_to (L : N) (s : string) : (N.of_nat (len (slice_to L s)) <= L)%N.
Proof.
  unfold slice_to. pose proof (len_take_le (N.to_nat L) s). lia.
Qed.

Lemma len_lstrip_le (s : string) : len (lstrip s) <= len s.
Proof.
  unfold len; induction s as [|c t IH]; simpl; auto.
  destruct (isspace c); simpl; lia.
Qed.

Lemma len_rstrip_by_le (p : ascii -> bool) (s : string) : len (rstrip_by p s) <= len s.
Proof.
  unfold len; induction s as [|c t IH]; simpl; auto.
  destruct (rstrip_by p t) as [|d t'].
  - destruct (p c); simpl in *; lia.
  - simpl in *; lia.
Qed.

Lemma len_strip_le (s : string) : len (strip s) <= len s.
Proof.
  unfold strip, rstrip.
  pose proof (len_rstrip_by_le isspace (lstrip s)). pose proof (len_lstrip_le s). lia.
Qed.

Lemma In_firstn {A : Type} (n : nat) (xs : list A) (x : A) : In x (firstn n xs) -> In x xs.
Proof.
  revert xs; induction n as [|n IH]; intros [|y xs]; simpl; intro H; try contradiction.
  destruct H as [H | H]; [now left | right; now apply IH].
Qed.

Lemma NoDup_firstn {A : Type} (n : nat) (xs : list A) : NoDup xs -> NoDup (firstn n xs).
Proof.
  revert n; induction xs as [|x xs IH]; intros [|n] H; simpl; try constructor.
  - inversion H; subst. intro Hin. apply In_firstn in Hin. contradiction.
  - inversion H; subst. now apply IH.
Qed.

(** *** The iteration order of a set

    All that is known of [list(set(xs))]: it has no duplicates and holds
    exactly the elements of [xs]. *)
Hypothesis list_set_spec :
  forall xs, NoDup (list_set xs) /\ same_elements (list_set xs) xs.

Lemma list_set_NoDup (xs : list string) : NoDup (list_set xs).
Proof using list_set_spec. apply list_set_spec. Qed.

Lemma list_set_In (xs : list string) (x : string) : In x (list_set xs) <-> In x xs.
Proof using list_set_spec. apply list_set_spec. Qed.

Lemma list_set_nil : list_set [] = [].
Proof using list_set_spec.
  destruct (list_set []) as [|x l] eqn:E; auto.
  assert (H : In x (list_set [])) by (rewrite E; now left).
  apply (proj1 (list_set_In [] x)) in H. contradiction.
Qed.

Lemma list_set_same (xs ys : list string) :
  same_elements xs ys -> same_elements (list_set xs) (list_set ys).
Proof using list_set_spec.
  intros H x. rewrite !list_set_In. apply H.
Qed.

Lemma list_set_idempotent (xs : list string) : Permutation (list_set (list_set xs)) (list_set xs).
Proof using list_set_spec.
  apply NoDup_Permutation; try apply list_set_NoDup.
  intro x. apply list_set_In.
Qed.

(** *** Code elements *)

(** C8.  Each of the three lists [_extract_code_elements] returns has no
    duplicates and at most 20 entries, whatever the language and the text;
    for a language other than python, javascript and java the three lists
    are empty. *)
Theorem extract_code_elements_deduplicated_and_capped (content language : string) :
  let elements := _extract_code_elements content language in
  (NoDup (functions elements) /\ List.length (functions elements) <= 20) /\
  (NoDup (classes elements) /\ List.length (classes elements) <= 20) /\
  (NoDup (imports elements) /\ List.length (imports elements) <= 20) /\
  (language <> "python" -> language <> "javascript" -> language <> "java" ->
   functions elements = [] /\ classes elements = [] /\ imports elements = []).
Proof using list_set_spec.
  cbv zeta. unfold _extract_code_elements.
  split; [|split; [|split]].
  1-3: cbn [functions classes imports];
    split; [apply NoDup_firstn, list_set_NoDup | apply firstn_le_length].
  intros Hpy Hjs Hjava.
  apply String.eqb_neq in Hpy, Hjs, Hjava. rewrite Hpy, Hjs, Hjava.
  cbn [functions classes imports]. rewrite list_set_nil. auto.
Qed.

(** *** Quality scores *)

Lemma count_true_le (bs : list bool) : count_true bs <= List.length bs.
Proof. apply filter_length_le. Qed.

Lemma true_div_nonneg (a b : nat) : 0 < b -> (0 <= true_div a b)%Q.
Proof.
  intro Hb. unfold true_div. apply Qle_shift_div_l.
  - unfold Qlt; simpl; lia.
  - rewrite Qmult_0_l. unfold Qle; simpl; lia.
Qed.

Lemma true_div_le_1 (a b : nat) : a <= b -> 0 < b -> (true_div a b <= 1)%Q.
Proof.
  intros Hab Hb. unfold true_div. apply Qle_shift_div_r.
  - unfold Qlt; simpl; lia.
  - rewrite Qmult_1_l. unfold Qle; simpl; lia.
Qed.

Lemma capped_sum_le (f c u t b : nat) :
  list_sum (map (fun p => Nat.min (fst p) (snd p)) (combine [f; c; u; t; b] info_caps))
  = Nat.min f 10 + Nat.min c 5 + Nat.min u 5 + Nat.min t 20 + Nat.min b 10.
Proof. simpl. lia. Qed.

(** C5.  Whatever the text, the code elements and the documentation flag,
    the three scores of [_calculate_quality_scores] lie between 0 and 1:
    the content quality is a number of satisfied indicators out of 6, over
    6; the semantic density is the unique words over the words, doubled and
    capped at 1, and 0 for a text without words; the information value is
    the sum of the five counts capped at 10, 5, 5, 20 and 10, over 50. *)
Theorem quality_scores_in_unit_interval (content : string) (code_elements : CodeElements)
    (has_documentation : bool) :
  let scores := _calculate_quality_scores content code_elements has_documentation in
  let unique_words := len_set (Re.findall Re.no_flags long_word (lower content)) in
  let total_words := List.length (Re.findall Re.no_flags any_word content) in
  let counted :=
    Nat.min (List.length (functions code_elements)) 10
    + Nat.min (List.length (classes code_elements)) 5
    + Nat.min (List.length (Re.findall Re.no_flags reference content)) 5
    + Nat.min (List.length (Re.findall Re.no_flags camel_case content)) 20
    + Nat.min (count "```" content) 10 in
  ((0 <= content_quality_score scores)%Q /\ (content_quality_score scores <= 1)%Q) /\
  ((0 <= semantic_density_score scores)%Q /\ (semantic_density_score scores <= 1)%Q) /\
  ((0 <= information_value_score scores)%Q /\ (information_value_score scores <= 1)%Q) /\
  (exists satisfied,
     satisfied <= 6 /\ content_quality_score scores = true_div satisfied 6) /\
  (total_words = 0 -> (semantic_density_score scores == 0)%Q) /\
  (0 < total_words ->
   semantic_density_score scores = Qmin (true_div unique_words total_words * 2) 1) /\
  information_value_score scores = true_div counted 50.
Proof.
  cbv zeta. unfold _calculate_quality_scores.
  cbn [content_quality_score semantic_density_score information_value_score].
  rewrite capped_sum_le.
  set (indicators := [_; _; _; _; _; _]).
  assert (Hk : count_true indicators <= 6) by apply (count_true_le indicators).
  set (total := List.length (Re.findall Re.no_flags any_word content)).
  set (unique := len_set _).
  assert (Hd : (0 <= (if 0 <? total then true_div unique total else 0) * 2)%Q).
  { destruct (Nat.ltb_spec 0 total) as [Hpos | Hzero].
    - apply Qmult_le_0_compat; [now apply true_div_nonneg | discriminate].
    - discriminate. }
  repeat split.
  - apply true_div_nonneg; simpl; lia.
  - apply true_div_le_1; simpl; lia.
  - apply Q.min_glb; [exact Hd | discriminate].
  - apply Q.le_min_r.
  - apply true_div_nonneg; simpl; lia.
  - apply true_div_le_1; simpl; lia.
  - exists (count_true indicators). split; [exact Hk | reflexivity].
  - intro Hzero. rewrite Hzero. reflexivity.
  - intro Hpos. apply Nat.ltb_lt in Hpos. now rewrite Hpos.
Qed.

(** *** Link extraction *)

(** C7.  The three lists [extract_images_and_links] returns have no
    duplicates; removing the duplicates of a result again only reorders it;
    and two texts in which the same links occur, in whatever order and
    however often, give the same three sets. *)
Theorem extract_images_and_links_as_sets :
  (forall content base_url,
     let result := extract_images_and_links content base_url in
     (NoDup (fst (fst result)) /\ NoDup (snd (fst result)) /\ NoDup (snd result)) /\
     (Permutation (list_set (fst (fst result))) (fst (fst result)) /\
      Permutation (list_set (snd (fst result))) (snd (fst result)) /\
      Permutation (list_set (snd result)) (snd result))) /\
  (forall content1 content2 base_url,
     same_elements (found_images content1 base_url) (found_images content2 base_url) ->
     same_elements (found_attachments content1 base_url)
                   (found_attachments content2 base_url) ->
     same_elements (found_links content1) (found_links content2) ->
     let result1 := extract_images_and_links content1 base_url in
     let result2 := extract_images_and_links content2 base_url in
     same_elements (fst (fst result1)) (fst (fst result2)) /\
     same_elements (snd (fst result1)) (snd (fst result2)) /\
     same_elements (snd result1) (snd result2)).
Proof using list_set_spec.
  split.
  - intros content base_url. cbv zeta. unfold extract_images_and_links. simpl.
    split; (split; [|split]); try apply list_set_NoDup; apply list_set_idempotent.
  - intros content1 content2 base_url Himg Hatt Hlnk. cbv zeta.
    unfold extract_images_and_links. simpl.
    split; [|split]; apply list_set_same; assumption.
Qed.

(** *** Running the monad *)

Lemma bind_ok {A B : Type} (m : M A) (k : A -> M B) (w w' : World) (a : A) :
  m w = (Ok a, w') -> bind m k w = k a w'.
Proof. intro H. unfold bind. now rewrite H. Qed.

Lemma bind_raise {A B : Type} (m : M A) (k : A -> M B) (w w' : World) (e : exn) :
  m w = (Raise e, w') -> bind m k w = (Raise e, w').
Proof. intro H. unfold bind. now rewrite H. Qed.

Lemma same_store_refl (w : World) : same_store w w.
Proof. unfold same_store; auto. Qed.

Lemma same_store_trans (w1 w2 w3 : World) :
  same_store w1 w2 -> same_store w2 w3 -> same_store w1 w3.
Proof.
  unfold same_store. intros (He12 & Hi12 & Hf12) (He23 & Hi23 & Hf23).
  repeat split; congruence.
Qed.

Lemma keeps_store_ret {A : Type} (a : A) : keeps_store (ret a).
Proof. intro w; apply same_store_refl. Qed.

Lemma keeps_store_raise {A : Type} (e : exn) : keeps_store (@raise A e).
Proof. intro w; apply same_store_refl. Qed.

Lemma keeps_store_lift {A : Type} (r : Result A) : keeps_store (lift r).
Proof. intro w; apply same_store_refl. Qed.

Lemma keeps_store_logger (lvl : Level) (msg : string) : keeps_store (logger lvl msg).
Proof. intro w; unfold same_store; simpl; auto. Qed.

Lemma keeps_store_http_get (url : string) : keeps_store (http_get url).
Proof. intro w; unfold same_store; simpl; auto. Qed.

Lemma keeps_store_draw : keeps_store draw.
Proof. intro w; unfold same_store; simpl; auto. Qed.

Lemma keeps_store_bind {A B : Type} (m : M A) (k : A -> M B) :
  keeps_store m -> (forall a, keeps_store (k a)) -> keeps_store (bind m k).
Proof.
  intros Hm Hk w. unfold bind. specialize (Hm w).
  destruct (m w) as [[a | e] w1]; simpl in *; auto.
  eapply same_store_trans; [exact Hm | apply Hk].
Qed.

Lemma keeps_store_try_except {A : Type} (m : M A) (h : exn -> M A) :
  keeps_store m -> (forall e, keeps_store (h e)) -> keeps_store (try_except m h).
Proof.
  intros Hm Hh w. unfold try_except. specialize (Hm w).
  destruct (m w) as [[a | e] w1]; simpl in *; auto.
  eapply same_store_trans; [exact Hm | apply Hh].
Qed.

Ltac keeps_store_step :=
  first
    [ apply keeps_store_bind; [| intro]
    | apply keeps_store_try_except; [| intro]
    | apply keeps_store_ret | apply keeps_store_raise | apply keeps_store_lift
    | apply keeps_store_logger | apply keeps_store_http_get | apply keeps_store_draw
    | match goal with
      | |- keeps_store (if ?b then _ else _) => destruct b
      | |- keeps_store (match ?x with _ => _ end) => destruct x
      end ].

Ltac keeps_store_auto := repeat keeps_store_step.

Lemma keeps_store_raise_for_status (response : Response.t) :
  keeps_store (raise_for_status response).
Proof. unfold raise_for_status. keeps_store_auto. Qed.

Lemma keeps_store_response_json (response : Response.t) :
  keeps_store (response_json response).
Proof. unfold response_json. keeps_store_auto. Qed.

Lemma keeps_store_fetch_repository_tree_rec (depth : nat) (owner name branch : string) :
  keeps_store (fetch_repository_tree_rec depth owner name branch).
Proof.
  revert branch; induction depth as [|depth IH]; intro branch; simpl.
  - keeps_store_auto.
  - unfold fetch_repository_tree_body, logger_info.
    repeat first [ apply IH | apply keeps_store_raise_for_status
                 | apply keeps_store_response_json | keeps_store_step ].
Qed.

Lemma keeps_store_fetch_file_content (file_info : FileInfo.t) :
  keeps_store (fetch_file_content file_info).
Proof.
  unfold fetch_file_content, logger_warning.
  repeat first [ apply keeps_store_raise_for_status | keeps_store_step ].
Qed.

Lemma keeps_store_chunk_loop (build : nat -> string -> string -> string -> Chunk.t)
    (items : list (nat * string)) (acc : list Chunk.t) :
  keeps_store (chunk_loop build items acc).
Proof.
  revert acc; induction items as [|[i chunk] items IH]; intro acc; simpl.
  - keeps_store_auto.
  - destruct (len (strip chunk) <? 30); [apply IH|].
    unfold uuid4_str, now_isoformat.
    repeat first [ apply IH | keeps_store_step ].
Qed.

Lemma keeps_store_process_file (file_info : FileInfo.t) (owner name branch : string) :
  keeps_store (process_file file_info owner name branch).
Proof.
  unfold process_file, logger_info, logger_warning, semantic_chunk_content.
  apply keeps_store_bind; [apply keeps_store_logger | intros _].
  apply keeps_store_bind; [apply keeps_store_fetch_file_content | intro fetched_content].
  destruct (too_short fetched_content); [keeps_store_auto|].
  destruct (extract_images_and_links _ _) as [[imgs atts] exts].
  repeat first [ apply keeps_store_chunk_loop | keeps_store_step ].
Qed.

Lemma keeps_store_collect (process_single_file : FileInfo.t -> M (list Chunk.t))
    (futures : list FileInfo.t) (acc : list Chunk.t) :
  (forall file_info, keeps_store (process_single_file file_info)) ->
  keeps_store (collect process_single_file futures acc).
Proof.
  intro Hp. revert acc; induction futures as [|file_info futures IH]; intro acc; simpl.
  - keeps_store_auto.
  - unfold logger_error. repeat first [ apply IH | apply Hp | keeps_store_step ].
Qed.

Lemma keeps_store_process_files (files : list FileInfo.t) (owner name branch : string)
    (max_workers : Z) :
  keeps_store (process_files files owner name branch max_workers).
Proof.
  unfold process_files. destruct (max_workers <=? 0)%Z; [keeps_store_auto|].
  apply keeps_store_collect. intro. apply keeps_store_process_file.
Qed.

(** *** [process_file], step by step *)

Lemma fetch_file_content_run (file_info : FileInfo.t) (w : World) :
  exists w' entries,
    fetch_file_content file_info w = (Ok (fetched file_info), w')
    /\ log w' = log w ++ entries
    /\ (fetched file_info <> None -> entries = [])
    /\ drawn w' = drawn w.
Proof.
  unfold fetched, fetch_file_content, try_except, bind, http_get, raise_for_status,
    logger_warning, logger, ret, raise.
  cbn [fst snd log drawn].
  destruct (requests_get (FileInfo.download_url file_info)) as [response | e];
    cbn [fst snd log drawn].
  - destruct ((400 <=? Response.status_code response)%Z
              && (Response.status_code response <? 600)%Z); cbn [fst snd log drawn].
    + eexists; eexists; repeat split; cbn; try reflexivity. intro H; now elim H.
    + destruct (decode_utf8 (Response.content response)); cbn.
      * eexists; exists []; repeat split; cbn; auto using app_nil_r.
      * eexists; exists []; repeat split; cbn; auto using app_nil_r.
  - eexists; eexists; repeat split; cbn; try reflexivity. intro H; now elim H.
Qed.

Lemma chunk_loop_run (build : nat -> string -> string -> string -> Chunk.t)
    (items : list (nat * string)) (acc : list Chunk.t) (w : World) :
  exists recs w',
    chunk_loop build items acc w = (Ok (acc ++ recs), w')
    /\ Forall2 (built_from build) recs (filter (fun item => kept (snd item)) items)
    /\ log w' = log w.
Proof.
  revert acc w; induction items as [|[i chunk] items IH]; intros acc w; simpl.
  - exists [], w. rewrite app_nil_r. repeat split; constructor.
  - unfold kept at 1. cbn [snd]. destruct (len (strip chunk) <? 30); cbn [negb].
    + apply IH.
    + unfold uuid4_str, now_isoformat, bind, draw, ret. cbn.
      match goal with
      | |- context [chunk_loop build items (acc ++ [?r]) ?w1] =>
          destruct (IH (acc ++ [r]) w1) as (recs & w' & Hrun & Hrel & Hlog);
          exists (r :: recs), w'
      end.
      rewrite Hrun, <- app_assoc. cbn. repeat split; auto.
      constructor; auto. eexists; eexists; reflexivity.
Qed.

(** The first two steps of [process_file]: the log entry and the fetch. *)
Lemma process_file_prefix {B : Type} (file_info : FileInfo.t) (k : option string -> M B)
    (w : World) :
  exists w2 entries,
    bind (logger_info (processing_message file_info))
         (fun _ => bind (fetch_file_content file_info) k) w
    = k (fetched file_info) w2
    /\ log w2 = log w ++ (INFO, processing_message file_info) :: entries
    /\ (fetched file_info <> None -> entries = []).
Proof.
  unfold logger_info at 1. unfold bind at 1. cbn [logger].
  match goal with |- context [bind (fetch_file_content file_info) _ ?w1] =>
    destruct (fetch_file_content_run file_info w1) as (w2 & entries & Hrun & Hlog & Hnone & _)
  end.
  exists w2, entries. erewrite bind_ok by exact Hrun.
  split; [reflexivity|]. split; [|exact Hnone].
  rewrite Hlog. cbn [log]. now rewrite <- app_assoc.
Qed.

(** A file that is too short is skipped with a warning. *)
Lemma process_file_skips (file_info : FileInfo.t) (owner name branch : string) (w : World) :
  too_short (fetched file_info) = true ->
  exists w' entries,
    process_file file_info owner name branch w = (Ok [], w')
    /\ log w' = log w ++ (INFO, processing_message file_info) :: entries
                      ++ [(WARNING, skip_message file_info)].
Proof.
  intro Hshort. unfold process_file.
  match goal with |- context [bind (fetch_file_content file_info) ?k] =>
    destruct (process_file_prefix file_info k w) as (w2 & entries & Hrun & Hlog & _)
  end.
  rewrite Hrun, Hshort.
  unfold logger_warning, bind, logger, ret. cbn.
  eexists; exists entries; split; [reflexivity|]. cbn.
  rewrite Hlog. now rewrite <- app_assoc.
Qed.

(** A file that is long enough is chunked, and every kept chunk gets a
    record; an exception of the chunker leaves [process_file]. *)
Lemma process_file_chunks (file_info : FileInfo.t) (owner name branch text : string)
    (w : World) :
  fetched file_info = Some text ->
  too_short (Some text) = false ->
  match chunked text file_info with
  | Ok chunks =>
      exists recs w',
        process_file file_info owner name branch w = (Ok recs, w')
        /\ records_of file_info owner name branch text chunks recs
        /\ log w' = log w ++ [(INFO, processing_message file_info);
                              (INFO, created_message (List.length recs) file_info)]
  | Raise e =>
      exists w', process_file file_info owner name branch w = (Raise e, w')
  end.
Proof.
  intros Htext Hlong. unfold process_file.
  match goal with |- context [bind (fetch_file_content file_info) ?k] =>
    destruct (process_file_prefix file_info k w) as (w2 & entries & Hrun & Hlog & Hnone)
  end.
  rewrite Hrun, Htext, Hlong. clear Hrun.
  rewrite Hnone in Hlog by (rewrite Htext; discriminate).
  unfold records_of.
  destruct (extract_images_and_links text (base_url_of owner name branch))
    as [[imgs atts] exts]. cbn [fst snd].
  unfold chunked, semantic_chunk_content, lift. cbn [fst].
  unfold bind at 1 3.
  destruct (CodeChunker _ text) as [chunks | e].
  - match goal with |- context [bind (chunk_loop ?b ?items []) _ w2] =>
      destruct (chunk_loop_run b items [] w2) as (recs & w3 & Hloop & Hrel & Hlog3)
    end.
    cbn [app] in Hloop.
    exists recs. eexists. erewrite bind_ok by exact Hloop.
    unfold logger_info, bind, logger, ret. cbn.
    split; [reflexivity|]. split; [exact Hrel|].
    rewrite Hlog3, Hlog. now rewrite <- app_assoc.
  - eexists; reflexivity.
Qed.

Lemma process_file_inv (file_info : FileInfo.t) (owner name branch : string)
    (w w' : World) (recs : list Chunk.t) :
  process_file file_info owner name branch w = (Ok recs, w') ->
  (too_short (fetched file_info) = true /\ recs = [])
  \/ (exists text chunks,
        fetched file_info = Some text /\ too_short (Some text) = false
        /\ chunked text file_info = Ok chunks
        /\ records_of file_info owner name branch text chunks recs).
Proof.
  intro Hrun. destruct (too_short (fetched file_info)) eqn:Hshort.
  - left. split; auto.
    destruct (process_file_skips file_info owner name branch w Hshort)
      as (w2 & entries & Hskip & _).
    rewrite Hrun in Hskip. now inversion Hskip.
  - right. destruct (fetched file_info) as [text|] eqn:Htext; [|discriminate].
    pose proof (process_file_chunks file_info owner name branch text w Htext Hshort) as H.
    destruct (chunked text file_info) as [chunks | e] eqn:Hchunk.
    + destruct H as (recs' & w2 & Hrun' & Hrel & _).
      rewrite Hrun in Hrun'. inversion Hrun'; subst recs' w2.
      exists text, chunks. split; [reflexivity|]. split; [exact Hshort|].
      split; [exact Hchunk | exact Hrel].
    + destruct H as (w2 & Hrun'). rewrite Hrun in Hrun'. discriminate.
Qed.

(** *** Positions of the kept chunks *)

Lemma kept_from_spec (s : nat) (chunks : list string) :
  let items := filter (fun item => kept (snd item))
                      (combine (seq s (List.length chunks)) chunks) in
  map snd items = filter kept chunks
  /\ StronglySorted lt (map fst items)
  /\ Forall (fun i => s <= i < s + List.length chunks) (map fst items)
  /\ (forallb kept chunks = true -> map fst items = seq s (List.length chunks)).
Proof.
  cbv zeta. revert s; induction chunks as [|chunk chunks IH]; intro s; simpl.
  - repeat split; constructor.
  - destruct (IH (S s)) as (Hsnd & Hsorted & Hbound & Hall).
    destruct (kept chunk) eqn:Hk; simpl.
    + repeat split.
      * now rewrite Hsnd.
      * constructor; auto. eapply Forall_impl; [|exact Hbound]. simpl; intros; lia.
      * constructor; [lia|]. eapply Forall_impl; [|exact Hbound]. simpl; intros; lia.
      * intro H. now rewrite Hall.
    + repeat split; auto.
      * eapply Forall_impl; [|exact Hbound]. simpl; intros; lia.
      * discriminate.
Qed.

Lemma StronglySorted_lt_NoDup (xs : list nat) : StronglySorted lt xs -> NoDup xs.
Proof.
  induction 1 as [|x xs Hs IH Hall]; constructor; auto.
  intro Hin. rewrite Forall_forall in Hall. specialize (Hall x Hin). lia.
Qed.

Lemma built_from_fields (file_info : FileInfo.t) (owner name branch : string)
    (imgs atts exts : list string) (analysis : Analysis.t)
    (recs : list Chunk.t) (items : list (nat * string)) :
  Forall2 (built_from (chunk_metadata file_info owner name branch imgs atts exts analysis))
          recs items ->
  map (fun r => (Chunk.chunk_index r, Chunk.document r)) recs = items.
Proof.
  induction 1 as [|r [i chunk] recs items (k1 & k2 & Hr) Hrest IH]; simpl; auto.
  rewrite IH, Hr. reflexivity.
Qed.

Lemma kept_chunks_nil : kept_chunks [] = [].
Proof. reflexivity. Qed.

(** *** The records of [process_file] *)

(** C2 (amended).  The [chunk_index] of a record is the position of its
    chunk in the chunker's output: the records of a file are, in order, the
    chunks of at least 30 trimmed characters, each with its position.  So
    the indices increase strictly (none twice), stay below the number of
    chunks, and are exactly 0..k-1 when no chunk of the file is shorter. *)
Theorem chunk_index_is_chunk_position (file_info : FileInfo.t) (owner name branch : string)
    (w w' : World) (recs : list Chunk.t) :
  process_file file_info owner name branch w = (Ok recs, w') ->
  exists chunks,
    (recs <> [] ->
     exists text, fetched file_info = Some text /\ chunked text file_info = Ok chunks)
    /\ map (fun r => (Chunk.chunk_index r, Chunk.document r)) recs = kept_chunks chunks
    /\ StronglySorted lt (map Chunk.chunk_index recs)
    /\ NoDup (map Chunk.chunk_index recs)
    /\ Forall (fun i => i < List.length chunks) (map Chunk.chunk_index recs)
    /\ (forallb kept chunks = true ->
        map Chunk.chunk_index recs = seq 0 (List.length recs)).
Proof.
  intro Hrun.
  assert (Hmain : exists chunks,
             (recs <> [] ->
              exists text, fetched file_info = Some text /\ chunked text file_info = Ok chunks)
             /\ map (fun r => (Chunk.chunk_index r, Chunk.document r)) recs
                = kept_chunks chunks).
  { destruct (process_file_inv _ _ _ _ _ _ _ Hrun)
      as [[_ Hnil] | (text & chunks & Htext & _ & Hchunks & Hrel)].
    - exists []. subst recs. split; [intro H; now elim H | reflexivity].
    - exists chunks. split; [intros _; now exists text|].
      eapply built_from_fields, Hrel. }
  destruct Hmain as (chunks & Hsrc & Hmap). exists chunks.
  assert (Hidx : map Chunk.chunk_index recs = map fst (kept_chunks chunks)).
  { rewrite <- Hmap, map_map. reflexivity. }
  destruct (kept_from_spec 0 chunks) as (_ & Hsorted & Hbound & Hall).
  fold (enumerate chunks) in Hsorted, Hbound, Hall.
  fold (kept_chunks chunks) in Hsorted, Hbound, Hall.
  rewrite Hidx. repeat split; auto.
  - now apply StronglySorted_lt_NoDup.
  - eapply Forall_impl; [|exact Hbound]. simpl; intros; lia.
  - intro H. rewrite (Hall H).
    rewrite <- (length_map Chunk.chunk_index recs), Hidx, (Hall H), length_seq. reflexivity.
Qed.

(** *** [json.dumps] can be read back *)

Lemma escape_char_run (c : ascii) (acc : string) (done : list string) (rest : string) :
  json_run (JString acc) done (json_escape_char c ++ rest)
  = json_run (JString (snoc acc c)) done rest.
Proof. destruct c as [[] [] [] [] [] [] [] []]; reflexivity. Qed.

Lemma string_append_assoc (a b c : string) : ((a ++ b) ++ c = a ++ (b ++ c))%string.
Proof. induction a as [|x a IH]; simpl; [reflexivity | now rewrite IH]. Qed.

Lemma string_append_nil_r (a : string) : (a ++ "" = a)%string.
Proof. induction a as [|x a IH]; simpl; [reflexivity | now rewrite IH]. Qed.

Lemma escape_run (s acc : string) (done : list string) (rest : string) :
  json_run (JString acc) done (json_escape s ++ rest)
  = json_run (JString (acc ++ s)) done rest.
Proof.
  revert acc; induction s as [|c s IH]; intro acc; simpl.
  - now rewrite string_append_nil_r.
  - rewrite string_append_assoc, escape_char_run, IH.
    unfold snoc. now rewrite string_append_assoc.
Qed.

Lemma json_string_run (x : string) (done : list string) (rest : string) :
  json_run (JString "") done (json_escape x ++ String dquote rest)
  = json_run JAfterString (done ++ [x]) rest.
Proof. rewrite escape_run. reflexivity. Qed.

Lemma json_string_append (x rest : string) :
  (json_string x ++ rest = String dquote (json_escape x ++ String dquote rest))%string.
Proof.
  unfold json_string. cbn [String.append]. now rewrite string_append_assoc.
Qed.

Lemma json_concat_tail (x : string) (xs : list string) :
  (String.concat ", " (map json_string (x :: xs)) ++ "]" = json_string x ++ json_tail xs)%string.
Proof.
  revert x; induction xs as [|y ys IH]; intro x.
  - reflexivity.
  - change (String.concat ", " (map json_string (x :: y :: ys)))
      with (json_string x ++ ", " ++ String.concat ", " (map json_string (y :: ys)))%string.
    rewrite !string_append_assoc, IH. reflexivity.
Qed.

Lemma json_tail_run (xs done : list string) :
  json_run JAfterString done (json_tail xs) = Some (done ++ xs).
Proof.
  revert done; induction xs as [|x xs IH]; intro done.
  - simpl. now rewrite app_nil_r.
  - cbn [json_tail]. rewrite json_string_append.
    change (json_run JAfterString done
              (", " ++ String dquote (json_escape x ++ String dquote (json_tail xs))))
      with (json_run (JString "") done (json_escape x ++ String dquote (json_tail xs))).
    rewrite json_string_run, IH, <- app_assoc. reflexivity.
Qed.

(** Reading back what [json.dumps] wrote gives the list that was written. *)
Lemma json_loads_dumps (xs : list string) : json_loads (json_dumps xs) = Some xs.
Proof.
  destruct xs as [|x xs]; [reflexivity|].
  unfold json_loads, json_dumps. rewrite json_concat_tail, json_string_append.
  change (json_run JStart []
            ("[" ++ String dquote (json_escape x ++ String dquote (json_tail xs))))
    with (json_run (JString "") [] (json_escape x ++ String dquote (json_tail xs))).
  rewrite json_string_run, json_tail_run. reflexivity.
Qed.

Lemma too_short_iff (text : string) : too_short (Some text) = true <-> len (strip text) < 50.
Proof.
  unfold too_short. rewrite orb_true_iff, String.eqb_eq, Nat.ltb_lt. split.
  - intros [Hempty | Hlt]; [subst text; simpl; lia | exact Hlt].
  - auto.
Qed.

Lemma kept_iff (chunk : string) : kept chunk = false <-> len (strip chunk) < 30.
Proof.
  unfold kept. rewrite negb_false_iff. apply Nat.ltb_lt.
Qed.

Lemma records_documents (file_info : FileInfo.t) (owner name branch text : string)
    (chunks : list string) (recs : list Chunk.t) :
  records_of file_info owner name branch text chunks recs ->
  map Chunk.document recs = filter kept chunks.
Proof.
  intro Hrel. apply built_from_fields in Hrel.
  destruct (kept_from_spec 0 chunks) as (Hsnd & _).
  fold (enumerate chunks) in Hsnd. fold (kept_chunks chunks) in Hsnd.
  rewrite <- Hsnd, <- Hrel, map_map. reflexivity.
Qed.

(** C3 (amended).  [process_file] skips a file, with a warning and no
    record, exactly when nothing was fetched or the text has fewer than 50
    trimmed characters (so an empty or a 10-character file gives no record,
    and a file of at least 50 trimmed characters passes); of a file that
    passes, a chunk is skipped exactly when it has fewer than 30 trimmed
    characters: the documents of the records are the other chunks, in
    order. *)
Theorem process_file_length_thresholds (file_info : FileInfo.t) (owner name branch : string)
    (w : World) :
  (forall text, too_short (Some text) = true <-> len (strip text) < 50)
  /\ (forall text, len text <= 10 -> too_short (Some text) = true)
  /\ (too_short (fetched file_info) = true ->
      exists w' entries,
        process_file file_info owner name branch w = (Ok [], w')
        /\ log w' = log w ++ (INFO, processing_message file_info) :: entries
                          ++ [(WARNING, skip_message file_info)])
  /\ (forall chunk, kept chunk = false <-> len (strip chunk) < 30)
  /\ (forall text chunks,
        fetched file_info = Some text -> 50 <= len (strip text) ->
        chunked text file_info = Ok chunks ->
        exists recs w',
          process_file file_info owner name branch w = (Ok recs, w')
          /\ map Chunk.document recs = filter kept chunks
          /\ log w' = log w ++ [(INFO, processing_message file_info);
                                (INFO, created_message (List.length recs) file_info)]).
Proof.
  split; [exact too_short_iff|].
  split.
  { intros text Hlen. apply too_short_iff. pose proof (len_strip_le text). lia. }
  split; [apply process_file_skips|].
  split; [exact kept_iff|].
  intros text chunks Htext Hlong Hchunks.
  assert (Hpass : too_short (Some text) = false).
  { destruct (too_short (Some text)) eqn:E; auto. apply too_short_iff in E. lia. }
  pose proof (process_file_chunks file_info owner name branch text w Htext Hpass) as H.
  rewrite Hchunks in H. destruct H as (recs & w' & Hrun & Hrel & Hlog).
  exists recs, w'. repeat split; auto.
  eapply records_documents, Hrel.
Qed.

Lemma built_from_image_fields (file_info : FileInfo.t) (owner name branch : string)
    (imgs atts exts : list string) (analysis : Analysis.t)
    (recs : list Chunk.t) (items : list (nat * string)) :
  Forall2 (built_from (chunk_metadata file_info owner name branch imgs atts exts analysis))
          recs items ->
  Forall (fun r =>
            let scoped := chunk_images imgs (Chunk.document r) in
            Chunk.image_links r = json_dumps scoped
            /\ Chunk.image_count r = List.length scoped
            /\ Chunk.has_images r = (0 <? Chunk.image_count r)
            /\ Chunk.has_links r = (0 <? List.length exts)
            /\ Chunk.external_links r = json_dumps (firstn 10 exts)) recs.
Proof.
  induction 1 as [|r [i chunk] recs items (k1 & k2 & Hr) Hrest IH]; constructor; auto.
  subst r. cbn. repeat split; reflexivity.
Qed.

(** C10.  In every record of a file, [image_links] encodes the images of
    the file that are scoped to the record's chunk, [image_count] is the
    number of entries of that list, [has_images] says that the count is
    positive, and [has_links] says that the file's list of external links
    is not empty, the same for all the records of the file. *)
Theorem image_count_and_link_flags (file_info : FileInfo.t) (owner name branch : string)
    (w w' : World) (recs : list Chunk.t) :
  process_file file_info owner name branch w = (Ok recs, w') ->
  exists image_links external_links,
    (recs <> [] ->
     exists text,
       fetched file_info = Some text
       /\ image_links
          = fst (fst (extract_images_and_links text (base_url_of owner name branch)))
       /\ external_links
          = snd (extract_images_and_links text (base_url_of owner name branch)))
    /\ Forall (fun r =>
                 let scoped := chunk_images image_links (Chunk.document r) in
                 json_loads (Chunk.image_links r) = Some scoped
                 /\ Chunk.image_count r = List.length scoped
                 /\ (Chunk.has_images r = true <-> 0 < Chunk.image_count r)
                 /\ (Chunk.has_links r = true <-> external_links <> [])) recs.
Proof.
  intro Hrun.
  destruct (process_file_inv _ _ _ _ _ _ _ Hrun)
    as [[_ Hnil] | (text & chunks & Htext & _ & _ & Hrel)].
  - exists [], []. subst recs. split; [intro H; now elim H | constructor].
  - unfold records_of in Hrel. cbv zeta in Hrel.
    eexists; eexists. split; [intros _; exists text; repeat split; auto|].
    apply built_from_image_fields in Hrel.
    eapply Forall_impl; [|exact Hrel].
    cbv zeta. intros r (Hlinks & Hcount & Himg & Hext & _).
    rewrite Hlinks, json_loads_dumps, Himg, Hext, !Nat.ltb_lt.
    repeat split; auto.
    + destruct (snd (extract_images_and_links text (base_url_of owner name branch)));
        simpl; [lia | discriminate].
    + destruct (snd (extract_images_and_links text (base_url_of owner name branch)));
        simpl; [intro H; now elim H | lia].
Qed.

(** *** [store_chunks_batch] *)

Lemma In_slice {A : Type} (i j : nat) (xs : list A) (x : A) : In x (slice i j xs) -> In x xs.
Proof.
  unfold slice. intro H. apply In_firstn in H. revert xs H.
  induction i as [|i IH]; intros [|y xs] H; simpl in *; auto.
Qed.

Lemma insert_data_columns (batch_metadata : list Chunk.t) (batch_embeddings : list (list Q))
    (embedding_dim : nat) (name : string) (values : list string) :
  In (name, values) (varchar_columns (insert_data batch_metadata batch_embeddings)) ->
  name <> "id" ->
  within_declared_length embedding_dim name values.
Proof.
  intros Hin Hname. unfold varchar_columns in Hin. cbn [In] in Hin.
  repeat (destruct Hin as [Hin | Hin]);
    try (inversion Hin; subst name values; clear Hin);
    try contradiction; try congruence.
  all: unfold within_declared_length; eexists; split; [reflexivity|].
  all: unfold insert_data; cbn -[slice_to].
  all: apply Forall_forall; intros v Hv; apply in_map_iff in Hv.
  all: destruct Hv as (item & <- & _); apply len_slice_to.
Qed.

Lemma insert_data_id (batch_metadata : list Chunk.t) (batch_embeddings : list (list Q)) :
  Columns.id (insert_data batch_metadata batch_embeddings) = map Chunk.id batch_metadata.
Proof. reflexivity. Qed.

Lemma store_loop_inserts (chunk_metadata_list : list Chunk.t) (embeddings : list (list Q))
    (batch_size : nat) (starts : list nat) (w : World) :
  exists batches,
    inserted (snd (store_loop chunk_metadata_list embeddings batch_size starts w))
    = inserted w ++ batches
    /\ Forall (fun data =>
                 exists batch_metadata batch_embeddings,
                   incl batch_metadata chunk_metadata_list
                   /\ data = insert_data batch_metadata batch_embeddings) batches.
Proof.
  revert w; induction starts as [|i starts IH]; intro w.
  - exists []. simpl. rewrite app_nil_r. split; constructor.
  - cbn [store_loop]. unfold bind at 1. unfold insert at 1.
    set (data := insert_data _ _).
    destruct (collection_insert (inserted w) data) as [e|].
    + exists []. simpl. rewrite app_nil_r. split; constructor.
    + unfold bind at 1. unfold flush at 1. cbn [inserted].
      destruct (collection_flush (inserted w ++ [data])) as [e|].
      * exists [data]. cbn. split; [reflexivity|]. constructor; [|constructor].
        eexists; eexists; split; [|reflexivity]. intros x Hx. eapply In_slice, Hx.
      * unfold logger_info at 1. unfold bind at 1. cbn [logger].
        match goal with |- context [store_loop _ _ _ starts ?w1] =>
          destruct (IH w1) as (batches & Hins & Hall)
        end.
        exists (data :: batches). rewrite Hins. cbn [inserted].
        rewrite <- app_assoc. split; [reflexivity|]. constructor; auto.
        eexists; eexists; split; [|reflexivity]. intros x Hx. eapply In_slice, Hx.
Qed.

(** C4 (amended).  Whatever [store_chunks_batch] inserts, every string
    column of the batch other than [id] holds values no longer than the
    maximum the schema declares for the field: the longer ones were cut.
    The [id] column is the identifiers of the records as they are, so it is
    within its declared 100 characters when the identifiers are. *)
Theorem stored_strings_within_declared_length (chunk_metadata_list : list Chunk.t)
    (embeddings : list (list Q)) (batch_size : Z) (embedding_dim : nat) (w : World) :
  exists batches,
    inserted (snd (store_chunks_batch chunk_metadata_list embeddings batch_size w))
    = inserted w ++ batches
    /\ Forall (fun data =>
         (forall name values,
            In (name, values) (varchar_columns data) -> name <> "id" ->
            within_declared_length embedding_dim name values)
         /\ (exists batch_metadata,
               incl batch_metadata chunk_metadata_list
               /\ Columns.id data = map Chunk.id batch_metadata)
         /\ (Forall (fun item => len (Chunk.id item) <= 100) chunk_metadata_list ->
             within_declared_length embedding_dim "id" (Columns.id data))) batches.
Proof.
  unfold store_chunks_batch. unfold logger_info at 1. unfold bind at 1. cbn [logger].
  match goal with |- context [match range_step ?n ?b with _ => _ end] =>
    destruct (range_step n b) as [starts|]
  end.
  - match goal with |- context [store_loop ?l ?e ?b starts ?w1] =>
      destruct (store_loop_inserts l e b starts w1) as (batches & Hins & Hall)
    end.
    exists batches. split; [exact Hins|].
    eapply Forall_impl; [|exact Hall].
    intros data (bm & be & Hincl & ->). split; [|split].
    + intros name values. apply insert_data_columns.
    + exists bm. split; [exact Hincl | reflexivity].
    + intro Hids. exists 100%N. split; [reflexivity|].
      rewrite insert_data_id. apply Forall_forall. intros v Hv.
      apply in_map_iff in Hv. destruct Hv as (item & <- & Hitem).
      rewrite Forall_forall in Hids. specialize (Hids item (Hincl item Hitem)). lia.
  - exists []. cbn. rewrite app_nil_r. split; constructor.
Qed.

(** *** [fetch_repository_tree] *)

(** The body calls [self] for the branch [master] only. *)
Lemma fetch_body_ext (self1 self2 : string -> string -> string -> M (list FileInfo.t))
    (owner name branch : string) (w : World) :
  (forall w1, self1 owner name "master" w1 = self2 owner name "master" w1) ->
  fetch_repository_tree_body self1 owner name branch w
  = fetch_repository_tree_body self2 owner name branch w.
Proof.
  intro Hself. unfold fetch_repository_tree_body, bind, logger_info, logger, http_get.
  cbn [log requested].
  destruct (requests_get (repo_api_url owner name)) as [response | e]; [|reflexivity].
  destruct (Response.status_code response =? 404)%Z; [|reflexivity].
  destruct (String.eqb branch "main"); [apply Hself | reflexivity].
Qed.

(** For the branch [master] the body does not call [self]. *)
Lemma fetch_body_master (self1 self2 : string -> string -> string -> M (list FileInfo.t))
    (owner name : string) (w : World) :
  fetch_repository_tree_body self1 owner name "master" w
  = fetch_repository_tree_body self2 owner name "master" w.
Proof.
  unfold fetch_repository_tree_body, bind, logger_info, logger, http_get.
  cbn [log requested].
  destruct (requests_get (repo_api_url owner name)) as [response | e]; [|reflexivity].
  destruct (Response.status_code response =? 404)%Z; reflexivity.
Qed.

(** Two nested calls are all the method ever makes. *)
Lemma fetch_rec_depth (depth : nat) (owner name branch : string) (w : World) :
  fetch_repository_tree_rec (S (S depth)) owner name branch w
  = fetch_repository_tree_rec 2 owner name branch w.
Proof.
  cbn [fetch_repository_tree_rec]. apply fetch_body_ext. intro w1.
  apply fetch_body_master.
Qed.

Lemma fetch_repository_tree_depth (owner name branch : string) (w : World) :
  fetch_repository_tree owner name branch w
  = fetch_repository_tree_rec 2 owner name branch w.
Proof.
  unfold fetch_repository_tree.
  change recursion_limit with (S (S 998)). apply fetch_rec_depth.
Qed.

Ltac run_cbn :=
  cbn -[repo_api_url tree_api_url fetching_message fstr str_of_nat file_entry].

(** C1 (the code departs from the claim).  When the repository exists and
    the tree of [main] does not, [fetch_repository_tree] asks for the
    repository and for the tree of [main], and raises the 404 of the tree:
    the tree of [master] is not asked for, whatever it holds. *)
Theorem missing_default_branch_is_not_retried (owner name : string) (w : World)
    (info missing : Response.t) :
  requests_get (repo_api_url owner name) = Ok info ->
  Response.status_code info = 200%Z ->
  Response.json info <> None ->
  requests_get (tree_api_url owner name "main") = Ok missing ->
  Response.status_code missing = 404%Z ->
  exists w',
    fetch_repository_tree owner name "main" w = (Raise (HTTPError 404), w')
    /\ requested w' = requested w ++ [repo_api_url owner name; tree_api_url owner name "main"]
    /\ log w' = log w ++ [(INFO, fetching_message owner name "main")].
Proof.
  intros Hinfo Hstatus Hjson Hmissing Hgone.
  rewrite fetch_repository_tree_depth. cbn [fetch_repository_tree_rec].
  unfold fetch_repository_tree_body, bind, logger_info, logger, http_get, raise_for_status,
    response_json, raise, ret.
  cbn [log requested]. rewrite Hinfo, Hstatus. run_cbn.
  destruct (Response.json info) as [data|]; [|now elim Hjson].
  run_cbn. rewrite Hmissing, Hgone. run_cbn.
  eexists. split; [reflexivity|]. run_cbn. rewrite <- app_assoc. split; reflexivity.
Qed.

(** X2.  When the repository lookup answers 404 and the branch asked for
    is [main], the fallback asks for the repository again, gets the same
    answer, and fails with the [ValueError]: it is tried once, and it
    cannot succeed. *)
Theorem fallback_repeats_the_repository_lookup (owner name : string) (w : World)
    (gone : Response.t) :
  requests_get (repo_api_url owner name) = Ok gone ->
  Response.status_code gone = 404%Z ->
  exists w',
    fetch_repository_tree owner name "main" w
    = (Raise (ValueError (fstr ["Repository "; owner; "/"; name;
                                " not found or not accessible"])), w')
    /\ requested w' = requested w ++ [repo_api_url owner name; repo_api_url owner name]
    /\ log w' = log w ++ [(INFO, fetching_message owner name "main");
                          (INFO, fallback_message);
                          (INFO, fetching_message owner name "master")].
Proof.
  intros Hgone Hstatus.
  rewrite fetch_repository_tree_depth. cbn [fetch_repository_tree_rec].
  unfold fetch_repository_tree_body, bind, logger_info, logger, http_get, raise.
  cbn [log requested]. rewrite Hgone, Hstatus. run_cbn.
  eexists. split; [reflexivity|]. run_cbn. rewrite <- !app_assoc. split; reflexivity.
Qed.


(** *** [ingest_repository] *)

Lemma same_store_logged (lvl : Level) (msg : string) (w : World) :
  same_store w (logged lvl msg w).
Proof. unfold same_store, logged; simpl; auto. Qed.

Lemma same_store_sym (w w' : World) : same_store w w' -> same_store w' w.
Proof. unfold same_store. intros (He & Hi & Hf). repeat split; congruence. Qed.

Lemma same_store_run {A : Type} (m : M A) (w w' : World) (r : Result A) :
  keeps_store m -> m w = (r, w') -> same_store w w'.
Proof. intros Hm Hrun. specialize (Hm w). now rewrite Hrun in Hm. Qed.

Lemma bind_inv {A B : Type} (m : M A) (k : A -> M B) (w w' : World) (b : B) :
  bind m k w = (Ok b, w') ->
  exists a w1, m w = (Ok a, w1) /\ k a w1 = (Ok b, w').
Proof.
  unfold bind. destruct (m w) as [[a | e] w1]; [|discriminate].
  intro H. now exists a, w1.
Qed.

Lemma logger_info_run (msg : string) (w : World) :
  logger_info msg w = (Ok tt, logged INFO msg w).
Proof. reflexivity. Qed.

Lemma logger_warning_run (msg : string) (w : World) :
  logger_warning msg w = (Ok tt, logged WARNING msg w).
Proof. reflexivity. Qed.

Lemma logger_info_inv (msg : string) (w w1 : World) (u : unit) :
  logger_info msg w = (Ok u, w1) -> w1 = logged INFO msg w.
Proof. rewrite logger_info_run. now inversion 1. Qed.

(** [ingest_repository] on a URL it can read: the [try] block, with the
    handler that logs and raises again. *)
Lemma ingest_repository_run (repo_url branch : string) (max_workers : Z) (w : World)
    (owner name : string) :
  parsed_repo repo_url = Some (owner, name) ->
  ingest_repository repo_url branch max_workers w
  = try_except
      (ingest_stages owner name branch max_workers)
      (fun e =>
         logger_error (fstr ["Error during repository ingestion: "; exn_str e]) ;; raise e)
      (logged INFO (starting_message repo_url) w).
Proof.
  unfold parsed_repo, ingest_repository. intro Hparse.
  erewrite bind_ok by apply logger_info_run.
  destruct (Re.match_ Re.no_flags repo_url_pattern (rstrip_char "/" repo_url));
    [|discriminate].
  inversion Hparse; subst. reflexivity.
Qed.

(** The handler raises again, so a result comes from the [try] block. *)
Lemma ingest_handler_inv (m : M Ingestion) (w w' : World) (result : Ingestion) :
  try_except m
    (fun e =>
       logger_error (fstr ["Error during repository ingestion: "; exn_str e]) ;; raise e) w
  = (Ok result, w') ->
  m w = (Ok result, w').
Proof.
  unfold try_except. destruct (m w) as [[a | e] w1]; [auto|].
  unfold logger_error, bind, logger, raise. discriminate.
Qed.

(** C9.  When the processing of the files ends with no record at all,
    [ingest_repository] returns the result with [success] false and the
    message, raises nothing, and calls neither the embedding model nor the
    collection; and when it returns a result with [success] true, the
    processing of the files had ended with at least one record, their
    number being the [chunks_generated] of the result. *)
Theorem no_chunks_is_reported_not_raised (repo_url branch : string) (max_workers : Z)
    (w : World) (owner name : string) :
  parsed_repo repo_url = Some (owner, name) ->
  (forall files w1 w2,
     fetch_repository_tree owner name branch (at_tree_stage repo_url w) = (Ok files, w1) ->
     process_files files owner name branch max_workers (at_processing_stage files w1)
     = (Ok [], w2) ->
     exists w',
       ingest_repository repo_url branch max_workers w
       = (Ok (NoContent no_content_message), w')
       /\ success (NoContent no_content_message) = false
       /\ encoded w' = encoded w /\ inserted w' = inserted w /\ flushes w' = flushes w)
  /\ (forall result w',
        ingest_repository repo_url branch max_workers w = (Ok result, w') ->
        success result = true ->
        exists files w1 all_chunk_metadata w2 images with_images quality,
          fetch_repository_tree owner name branch (at_tree_stage repo_url w) = (Ok files, w1)
          /\ process_files files owner name branch max_workers (at_processing_stage files w1)
             = (Ok all_chunk_metadata, w2)
          /\ 1 <= List.length all_chunk_metadata
          /\ result = Ingested (List.length files) (List.length all_chunk_metadata)
                               images with_images quality).
Proof.
  intro Hparse. split.
  - intros files w1 w2 Hfetch Hprocess.
    rewrite (ingest_repository_run repo_url branch max_workers w owner name Hparse).
    unfold try_except, ingest_stages.
    erewrite bind_ok by apply logger_info_run.
    erewrite bind_ok by exact Hfetch.
    erewrite bind_ok by apply logger_info_run.
    erewrite bind_ok by apply logger_info_run.
    erewrite bind_ok by exact Hprocess.
    erewrite bind_ok by apply logger_info_run.
    erewrite bind_ok by apply logger_warning_run.
    unfold ret.
    eexists. split; [reflexivity|]. split; [reflexivity|].
    assert (Hs1 : same_store (at_tree_stage repo_url w) w1).
    { eapply same_store_run; [|exact Hfetch].
      apply keeps_store_fetch_repository_tree_rec. }
    assert (Hs2 : same_store (at_processing_stage files w1) w2).
    { eapply same_store_run; [|exact Hprocess]. apply keeps_store_process_files. }
    clear Hfetch Hprocess.
    unfold same_store, at_tree_stage, at_processing_stage, logged in Hs1, Hs2 |- *.
    cbn in Hs1, Hs2 |- *.
    destruct Hs1 as (He1 & Hi1 & Hf1), Hs2 as (He2 & Hi2 & Hf2).
    repeat split; congruence.
  - intros result w' Hrun Hsuccess.
    rewrite (ingest_repository_run repo_url branch max_workers w owner name Hparse) in Hrun.
    apply ingest_handler_inv in Hrun. unfold ingest_stages in Hrun.
    apply bind_inv in Hrun. destruct Hrun as (u0 & w0 & Hlog0 & Hrun).
    apply logger_info_inv in Hlog0. subst w0.
    apply bind_inv in Hrun. destruct Hrun as (files & w1 & Hfetch & Hrun).
    apply bind_inv in Hrun. destruct Hrun as (u1 & wa & Hlog1 & Hrun).
    apply logger_info_inv in Hlog1. subst wa.
    apply bind_inv in Hrun. destruct Hrun as (u2 & wb & Hlog2 & Hrun).
    apply logger_info_inv in Hlog2. subst wb.
    apply bind_inv in Hrun. destruct Hrun as (all & w2 & Hprocess & Hrun).
    apply bind_inv in Hrun. destruct Hrun as (u3 & wc & _ & Hrun).
    destruct all as [|first others].
    { apply bind_inv in Hrun. destruct Hrun as (u4 & wd & _ & Hrun).
      inversion Hrun; subst. discriminate. }
    apply bind_inv in Hrun. destruct Hrun as (u4 & wd & _ & Hrun).
    apply bind_inv in Hrun. destruct Hrun as (embeddings & we & _ & Hrun).
    apply bind_inv in Hrun. destruct Hrun as (u5 & wf & _ & Hrun).
    apply bind_inv in Hrun. destruct Hrun as (u6 & wg & _ & Hrun).
    apply bind_inv in Hrun. destruct Hrun as (u7 & wh & _ & Hrun).
    apply bind_inv in Hrun. destruct Hrun as (u8 & wi & _ & Hrun).
    inversion Hrun; subst.
    exists files, w1, (first :: others), w2. do 3 eexists.
    split; [exact Hfetch|]. split; [exact Hprocess|]. split; [simpl; lia | reflexivity].
Qed.

(** *** The filter of the external links *)

(** X4.  What the filter does keep out: every external link starts with
    [http://] or [https://] and holds none of [.png .jpg .jpeg .gif .svg
    .pdf .doc], whatever the case of its letters. *)
Theorem external_links_pass_the_filter (content base_url x : string) :
  In x (snd (extract_images_and_links content base_url)) -> is_external x = true.
Proof using list_set_spec.
  unfold extract_images_and_links. cbn [snd]. rewrite list_set_In.
  unfold found_links. rewrite in_flat_map. intros (pattern & _ & Hin).
  apply filter_In in Hin. exact (proj2 Hin).
Qed.

(** C6 (the code departs from the claim).  The filter of the external
    links names seven extensions only.  A bare URL that ends in [.webp] is
    an image by its extension, and an archive linked with [.zip] is an
    attachment by its extension; each is among the external links too. *)
Theorem image_and_attachment_urls_among_external_links :
  let base_url := "https://github.com/beagle/docs/blob/main/" in
  let readme := extract_images_and_links Sample.readme base_url in
  let download := extract_images_and_links Sample.download base_url in
  (In "https://beagleboard.org/static/logo.webp" (fst (fst readme))
   /\ In "https://beagleboard.org/static/logo.webp" (snd readme))
  /\ (In "https://files.beagle.cc/images/bone-debian.zip" (snd (fst download))
      /\ In "https://files.beagle.cc/images/bone-debian.zip" (snd download)).
Proof using list_set_spec.
  cbv zeta. unfold extract_images_and_links. cbn [fst snd].
  rewrite !list_set_In.
  split; split.
  - vm_compute. auto.
  - vm_compute. auto.
  - vm_compute. auto.
  - vm_compute. auto.
Qed.

(** *** Identifiers *)

Lemma len_append (a b : string) : len (a ++ b) = len a + len b.
Proof. unfold len. induction a as [|c a IH]; simpl; auto. Qed.

Lemma len_take (n : nat) (s : string) : n <= len s -> len (take n s) = n.
Proof.
  unfold len. revert s; induction n as [|n IH]; intros [|c t] H; simpl in *; try lia.
  rewrite IH; lia.
Qed.

Lemma len_drop (n : nat) (s : string) : len (drop n s) = len s - n.
Proof.
  unfold len. revert s; induction n as [|n IH]; intros [|c t]; simpl; auto.
Qed.

Lemma len_hex_digits (k : nat) (n : N) : len (hex_digits k n) = k.
Proof. unfold len. induction k as [|k IH]; simpl; auto. Qed.

(** A UUID is written with 36 characters. *)
Lemma len_uuid_str (n : N) : len (uuid_str n) = 36.
Proof.
  unfold uuid_str, fstr. set (h := hex_digits 32 n).
  assert (Hh : len h = 32) by apply len_hex_digits.
  cbn [String.concat]. rewrite !len_append, !len_take, !len_drop; rewrite ?len_drop, ?Hh;
    simpl; lia.
Qed.

Lemma built_from_ids (file_info : FileInfo.t) (owner name branch : string)
    (imgs atts exts : list string) (analysis : Analysis.t)
    (recs : list Chunk.t) (items : list (nat * string)) :
  Forall2 (built_from (chunk_metadata file_info owner name branch imgs atts exts analysis))
          recs items ->
  Forall (fun r => len (Chunk.id r) = 36) recs.
Proof.
  induction 1 as [|r item recs items (k1 & k2 & Hr) Hrest IH]; constructor; auto.
  subst r. cbn [Chunk.id chunk_metadata]. apply len_uuid_str.
Qed.

(** X3.  The identifiers [process_file] gives its records are UUIDs, of
    36 characters, within the 100 the schema declares for [id]. *)
Theorem process_file_ids (file_info : FileInfo.t) (owner name branch : string)
    (w w' : World) (recs : list Chunk.t) :
  process_file file_info owner name branch w = (Ok recs, w') ->
  Forall (fun r => len (Chunk.id r) = 36) recs.
Proof.
  intro Hrun.
  destruct (process_file_inv _ _ _ _ _ _ _ Hrun)
    as [[_ Hnil] | (text & chunks & _ & _ & _ & Hrel)].
  - subst recs. constructor.
  - unfold records_of in Hrel. cbv zeta in Hrel. eapply built_from_ids, Hrel.
Qed.

(** *** The files of the tree *)





(** *** The language of a file *)

Lemma find_first {A : Type} (f : A -> bool) (l : list A) (x : A) :
  find f l = Some x ->
  exists before after,
    l = before ++ x :: after /\ f x = true /\ Forall (fun y => f y = false) before.
Proof.
  induction l as [|y l IH]; cbn [find]; [discriminate|].
  destruct (f y) eqn:Hy.
  - intro H. injection H as <-. exists [], l. repeat split; [exact Hy | constructor].
  - intro H. destruct (IH H) as (before & after & -> & Hx & Hbefore).
    exists (y :: before), after. repeat split; [exact Hx | constructor; assumption].
Qed.

(** X5.  The extension decides the language when the table of extensions
    has it, whatever the text.  Otherwise the language is the first of the
    table of signatures with at least two of its signatures found in the
    text, every language before it in the table having fewer than two; and
    it is [unknown] when no language has two. *)
Theorem language_by_extension_then_by_signatures (content file_extension : string) :
  match assoc file_extension extension_map with
  | Some language => _detect_language content file_extension = language
  | None =>
      (exists before entry after,
         language_patterns = before ++ entry :: after
         /\ _detect_language content file_extension = fst entry
         /\ 2 <= signature_matches content (snd entry)
         /\ Forall (fun earlier => signature_matches content (snd earlier) < 2) before)
      \/ (_detect_language content file_extension = "unknown"
          /\ Forall (fun entry => signature_matches content (snd entry) < 2)
                    language_patterns)
  end.
Proof.
  unfold _detect_language.
  destruct (assoc file_extension extension_map) as [language|]; [reflexivity|].
  destruct (find (fun entry => 2 <=? signature_matches content (snd entry))
                 language_patterns) as [entry|] eqn:Hfind.
  - left. apply find_first in Hfind.
    destruct Hfind as (before & after & Hsplit & Hvotes & Hbefore).
    exists before, entry, after. split; [exact Hsplit|]. split; [reflexivity|].
    split; [now apply Nat.leb_le|].
    eapply Forall_impl; [|exact Hbefore]. intros earlier Hlow. now apply Nat.leb_gt.
  - right. split; [reflexivity|]. apply Forall_forall. intros entry Hin.
    pose proof (find_none _ _ Hfind entry Hin) as Hvotes. cbn beta in Hvotes.
    now apply Nat.leb_gt.
Qed.

(** *** Keywords *)








(** *** Files that fail *)

Lemma errors_logged (lvl : Level) (msg : string) (w : World) :
  errors (logged lvl msg w) = errors w ++ (if is_error (lvl, msg) then [msg] else []).
Proof.
  unfold errors, logged, logger. cbn [snd log]. rewrite filter_app, map_app.
  cbn [filter]. destruct (is_error (lvl, msg)); reflexivity.
Qed.

Lemma quiet_ret {A : Type} (a : A) : quiet (ret a).
Proof. intro w; reflexivity. Qed.

Lemma quiet_raise {A : Type} (e : exn) : quiet (@raise A e).
Proof. intro w; reflexivity. Qed.

Lemma quiet_lift {A : Type} (r : Result A) : quiet (lift r).
Proof. intro w; reflexivity. Qed.

Lemma quiet_info (msg : string) : quiet (logger_info msg).
Proof.
  intro w. change (snd (logger_info msg w)) with (logged INFO msg w).
  rewrite errors_logged. apply app_nil_r.
Qed.

Lemma quiet_warning (msg : string) : quiet (logger_warning msg).
Proof.
  intro w. change (snd (logger_warning msg w)) with (logged WARNING msg w).
  rewrite errors_logged. apply app_nil_r.
Qed.

Lemma quiet_http_get (url : string) : quiet (http_get url).
Proof. intro w; reflexivity. Qed.

Lemma quiet_draw : quiet draw.
Proof. intro w; reflexivity. Qed.

Lemma quiet_bind {A B : Type} (m : M A) (k : A -> M B) :
  quiet m -> (forall a, quiet (k a)) -> quiet (bind m k).
Proof.
  intros Hm Hk w. unfold bind. specialize (Hm w).
  destruct (m w) as [[a | e] w1]; simpl in *; auto.
  now rewrite Hk.
Qed.

Lemma quiet_try_except {A : Type} (m : M A) (h : exn -> M A) :
  quiet m -> (forall e, quiet (h e)) -> quiet (try_except m h).
Proof.
  intros Hm Hh w. unfold try_except. specialize (Hm w).
  destruct (m w) as [[a | e] w1]; simpl in *; auto.
  now rewrite Hh.
Qed.

Ltac quiet_step :=
  first
    [ apply quiet_bind; [| intro]
    | apply quiet_try_except; [| intro]
    | apply quiet_ret | apply quiet_raise | apply quiet_lift
    | apply quiet_info | apply quiet_warning | apply quiet_http_get | apply quiet_draw
    | match goal with
      | |- quiet (if ?b then _ else _) => destruct b
      | |- quiet (match ?x with _ => _ end) => destruct x
      end ].

Lemma quiet_fetch_file_content (file_info : FileInfo.t) : quiet (fetch_file_content file_info).
Proof. unfold fetch_file_content, raise_for_status. repeat quiet_step. Qed.

Lemma quiet_chunk_loop (build : nat -> string -> string -> string -> Chunk.t)
    (items : list (nat * string)) (acc : list Chunk.t) :
  quiet (chunk_loop build items acc).
Proof.
  revert acc; induction items as [|[i chunk] items IH]; intro acc; simpl.
  - apply quiet_ret.
  - destruct (len (strip chunk) <? 30); [apply IH|].
    unfold uuid4_str, now_isoformat.
    repeat first [ apply IH | quiet_step ].
Qed.

Lemma quiet_process_file (file_info : FileInfo.t) (owner name branch : string) :
  quiet (process_file file_info owner name branch).
Proof.
  unfold process_file, semantic_chunk_content.
  apply quiet_bind; [apply quiet_info | intros _].
  apply quiet_bind; [apply quiet_fetch_file_content | intro fetched_content].
  destruct (too_short fetched_content); [repeat quiet_step|].
  destruct (extract_images_and_links _ _) as [[imgs atts] exts].
  repeat first [ apply quiet_chunk_loop | quiet_step ].
Qed.

Lemma built_from_paths (file_info : FileInfo.t) (owner name branch : string)
    (imgs atts exts : list string) (analysis : Analysis.t)
    (recs : list Chunk.t) (items : list (nat * string)) :
  Forall2 (built_from (chunk_metadata file_info owner name branch imgs atts exts analysis))
          recs items ->
  map (fun r => (Chunk.file_path r, Chunk.chunk_index r, Chunk.document r)) recs
  = map (fun item => (FileInfo.path file_info, fst item, snd item)) items.
Proof.
  induction 1 as [|r [i chunk] recs items (k1 & k2 & Hr) Hrest IH]; simpl; auto.
  rewrite IH, Hr. reflexivity.
Qed.

(** [process_file] ends as [outcome] says, in every world. *)
Lemma process_file_outcome (file_info : FileInfo.t) (owner name branch : string) (w : World) :
  match outcome file_info with
  | Ok items =>
      exists recs w',
        process_file file_info owner name branch w = (Ok recs, w')
        /\ map (fun r => (Chunk.file_path r, Chunk.chunk_index r, Chunk.document r)) recs
           = map (fun item => (FileInfo.path file_info, fst item, snd item)) items
  | Raise e => exists w', process_file file_info owner name branch w = (Raise e, w')
  end.
Proof.
  unfold outcome. destruct (fetched file_info) as [text|] eqn:Htext.
  - destruct (too_short (Some text)) eqn:Hshort.
    + destruct (process_file_skips file_info owner name branch w) as (w' & _ & Hrun & _);
        [now rewrite Htext|].
      now exists [], w'.
    + pose proof (process_file_chunks file_info owner name branch text w Htext Hshort) as H.
      destruct (chunked text file_info) as [chunks | e]; [|exact H].
      destruct H as (recs & w' & Hrun & Hrel & _). exists recs, w'. split; [exact Hrun|].
      unfold records_of in Hrel. cbv zeta in Hrel. eapply built_from_paths, Hrel.
  - destruct (process_file_skips file_info owner name branch w) as (w' & _ & Hrun & _);
      [now rewrite Htext|].
    now exists [], w'.
Qed.

Lemma collect_outcomes (owner name branch : string) (futures : list FileInfo.t)
    (acc : list Chunk.t) (w : World) :
  exists recs w',
    collect (fun file_info => process_file file_info owner name branch) futures acc w
    = (Ok (acc ++ recs), w')
    /\ map (fun r => (Chunk.file_path r, Chunk.chunk_index r, Chunk.document r)) recs
       = flat_map records_expected futures
    /\ errors w' = errors w ++ flat_map error_expected futures.
Proof.
  revert acc w. induction futures as [|file_info futures IH]; intros acc w.
  - exists [], w. cbn. rewrite !app_nil_r. auto.
  - cbn [collect flat_map]. unfold bind at 1, try_except, bind at 1.
    pose proof (process_file_outcome file_info owner name branch w) as Hfile.
    pose proof (quiet_process_file file_info owner name branch w) as Hquiet.
    unfold records_expected at 1, error_expected at 1.
    destruct (outcome file_info) as [items | e].
    + destruct Hfile as (recs1 & w1 & Hrun & Hkeys). rewrite Hrun in Hquiet |- *.
      cbn [snd] in Hquiet. unfold ret at 1.
      destruct (IH (acc ++ recs1) w1) as (recs & w' & Hcollect & Hrecs & Herrors).
      exists (recs1 ++ recs), w'. rewrite Hcollect, app_assoc.
      split; [reflexivity|]. split.
      * now rewrite map_app, Hkeys, Hrecs.
      * now rewrite Herrors, Hquiet.
    + destruct Hfile as (w1 & Hrun). rewrite Hrun in Hquiet |- *.
      cbn [snd] in Hquiet. unfold logger_error, bind, logger, ret.
      match goal with |- context [collect _ futures acc ?w2] =>
        destruct (IH acc w2) as (recs & w' & Hcollect & Hrecs & Herrors);
        assert (Hw2 : errors w2
                      = errors w ++ [fstr ["Error processing "; FileInfo.path file_info; ": ";
                                           exn_str e]])
      end.
      { rewrite <- Hquiet. unfold errors. cbn [log]. rewrite filter_app, map_app.
        reflexivity. }
      exists recs, w'. split; [exact Hcollect|]. split; [exact Hrecs|].
      rewrite Herrors, Hw2, <- app_assoc. reflexivity.
Qed.

(** X7.  With at least one worker, [process_files] raises nothing, whatever
    the files do: the records are those of the files that end well, in the
    order of completion, each file giving one record per chunk that is long
    enough; a file whose processing raises gives no record and one error in
    the log, and the files after it are processed all the same. *)
Theorem file_failures_are_isolated (files : list FileInfo.t) (owner name branch : string)
    (max_workers : Z) (w : World) :
  (0 < max_workers)%Z ->
  exists recs w',
    process_files files owner name branch max_workers w = (Ok recs, w')
    /\ map (fun r => (Chunk.file_path r, Chunk.chunk_index r, Chunk.document r)) recs
       = flat_map records_expected (as_completed files)
    /\ errors w' = errors w ++ flat_map error_expected (as_completed files).
Proof.
  intro Hworkers. unfold process_files.
  destruct (max_workers <=? 0)%Z eqn:Hle; [apply Z.leb_le in Hle; lia|].
  destruct (collect_outcomes owner name branch (as_completed files) [] w)
    as (recs & w' & Hrun & Hrecs & Herrors).
  now exists recs, w'.
Qed.

(** *** Batches *)

Lemma firstn_add {A : Type} (a b : nat) (xs : list A) :
  firstn (a + b) xs = firstn a xs ++ firstn b (skipn a xs).
Proof.
  revert xs; induction a as [|a IH]; intros [|x xs]; simpl; auto.
  - now rewrite firstn_nil.
  - now rewrite IH.
Qed.

Lemma concat_slices {A : Type} (k m : nat) (xs : list A) :
  List.concat (map (fun j => slice (j * k) (j * k + k) xs) (seq 0 m)) = firstn (m * k) xs.
Proof.
  induction m as [|m IH]; [reflexivity|].
  rewrite seq_S, map_app, concat_app, IH. cbn [map List.concat Nat.add]. rewrite app_nil_r.
  unfold slice. replace (m * k + k - m * k) with k by lia.
  replace (S m * k) with (m * k + k) by lia. symmetry. apply firstn_add.
Qed.

Lemma concat_batches_of {A : Type} (k : nat) (xs : list A) :
  0 < k -> List.concat (batches_of k xs) = xs.
Proof.
  intro Hk. unfold batches_of. rewrite concat_slices. apply firstn_all2.
  pose proof (Nat.div_mod_eq (List.length xs + k - 1) k).
  pose proof (Nat.mod_upper_bound (List.length xs + k - 1) k). nia.
Qed.

Lemma batches_of_sizes {A : Type} (k : nat) (xs : list A) :
  0 < k -> Forall (fun batch => 1 <= List.length batch <= k) (batches_of k xs).
Proof.
  intro Hk. unfold batches_of. apply Forall_forall. intros batch Hin.
  apply in_map_iff in Hin. destruct Hin as (j & <- & Hj). apply in_seq in Hj.
  unfold slice. rewrite length_firstn, length_skipn.
  pose proof (Nat.div_mod_eq (List.length xs + k - 1) k).
  pose proof (Nat.mod_upper_bound (List.length xs + k - 1) k). nia.
Qed.

Lemma slice_min {A : Type} (i j : nat) (xs : list A) :
  slice i (Nat.min j (List.length xs)) xs = slice i j xs.
Proof.
  unfold slice. destruct (Nat.le_ge_cases j (List.length xs)) as [Hle | Hge].
  - now rewrite Nat.min_l.
  - rewrite Nat.min_r by exact Hge.
    rewrite !firstn_all2; [reflexivity | |]; rewrite length_skipn; lia.
Qed.

Lemma map_slice {A B : Type} (f : A -> B) (i j : nat) (xs : list A) :
  map f (slice i j xs) = slice i j (map f xs).
Proof. unfold slice. now rewrite skipn_map, firstn_map. Qed.

Lemma prefix_of_refl {A : Type} (xs : list A) : prefix_of xs xs.
Proof. exists []. now rewrite app_nil_r. Qed.

Lemma prefix_of_cons {A : Type} (x : A) (xs ys : list A) :
  prefix_of xs ys -> prefix_of (x :: xs) (x :: ys).
Proof. intros (rest & ->). now exists rest. Qed.

Lemma embed_loop_run (chunks : list string) (k : nat) (starts : list nat)
    (acc : list (list Q)) (w : World) :
  let batches := map (fun i => slice i (i + k) chunks) starts in
  let run := embed_loop chunks k starts acc w in
  exists sent,
    encoded (snd run) = encoded w ++ sent
    /\ prefix_of sent batches
    /\ (forall vectors,
          fst run = Ok vectors ->
          sent = batches
          /\ exists per_batch,
               Forall2 (fun batch vs => encode batch = Ok vs) batches per_batch
               /\ vectors = acc ++ List.concat per_batch).
Proof.
  cbv zeta. revert acc w. induction starts as [|i starts IH]; intros acc w.
  - exists []. cbn. rewrite !app_nil_r. split; [reflexivity|]. split; [apply prefix_of_refl|].
    intros vectors Hok. inversion Hok; subst. split; [reflexivity|].
    exists []. split; [constructor | now rewrite app_nil_r].
  - cbn [embed_loop map]. unfold bind, model_encode.
    set (batch := slice i (i + k) chunks).
    destruct (encode batch) as [embeddings | e] eqn:Hencode.
    + match goal with |- context [(if ?b then logger_info ?msg else ret tt) ?w1] =>
        assert (Hlog : exists w2, (if b then logger_info msg else ret tt) w1 = (Ok tt, w2)
                                  /\ encoded w2 = encoded w ++ [batch])
          by (destruct b; eexists; split; reflexivity);
        destruct Hlog as (w2 & -> & Hw2)
      end.
      destruct (IH (acc ++ embeddings) w2) as (sent & Hsent & Hprefix & Hok).
      exists (batch :: sent). rewrite Hsent, Hw2, <- app_assoc.
      split; [reflexivity|]. split; [now apply prefix_of_cons|].
      intros vectors Hrun. destruct (Hok vectors Hrun) as (-> & per_batch & Hall & ->).
      split; [reflexivity|]. exists (embeddings :: per_batch).
      split; [now constructor|]. cbn [List.concat]. now rewrite app_assoc.
    + exists [batch]. cbn [fst snd encoded]. split; [reflexivity|].
      split; [now exists (map (fun i => slice i (i + k) chunks) starts)|].
      discriminate.
Qed.

Lemma range_step_positive (n : nat) (step : Z) :
  (0 < step)%Z ->
  range_step n step
  = Some (map (fun j => j * Z.to_nat step) (seq 0 ((n + Z.to_nat step - 1) / Z.to_nat step))).
Proof.
  intro Hstep. unfold range_step.
  destruct (step =? 0)%Z eqn:H0; [apply Z.eqb_eq in H0; lia|].
  destruct (step <? 0)%Z eqn:Hneg; [apply Z.ltb_lt in Hneg; lia|].
  reflexivity.
Qed.

(** X9.  [generate_embeddings_batch] cuts the texts into consecutive
    batches of [batch_size] (the last one may be shorter, none is empty)
    and sends them to the model one at a time, in order.  When it returns,
    every batch was sent once and the result is the vectors of the batches,
    in the order of the texts; when the model raises on a batch, the
    batches before it were sent and nothing is returned. *)
Theorem embeddings_are_generated_per_batch (chunks : list string) (batch_size : Z)
    (w : World) :
  (0 < batch_size)%Z ->
  let batches := batches_of (Z.to_nat batch_size) chunks in
  let run := generate_embeddings_batch chunks batch_size w in
  List.concat batches = chunks
  /\ Forall (fun batch => 1 <= List.length batch <= Z.to_nat batch_size) batches
  /\ (exists sent, encoded (snd run) = encoded w ++ sent /\ prefix_of sent batches)
  /\ (forall vectors,
        fst run = Ok vectors ->
        encoded (snd run) = encoded w ++ batches
        /\ exists per_batch,
             Forall2 (fun batch vs => encode batch = Ok vs) batches per_batch
             /\ vectors = List.concat per_batch).
Proof.
  intro Hsize. cbv zeta.
  assert (Hk : 0 < Z.to_nat batch_size) by lia.
  split; [now apply concat_batches_of|]. split; [now apply batches_of_sizes|].
  unfold generate_embeddings_batch, bind, logger_info. cbn [logger]. rewrite (range_step_positive _ _ Hsize).
  match goal with |- context [embed_loop chunks ?k ?starts [] ?w1] =>
    destruct (embed_loop_run chunks k starts [] w1) as (sent & Hsent & Hprefix & Hok)
  end.
  cbv zeta in Hsent, Hprefix, Hok. rewrite map_map in Hprefix, Hok.
  fold (@batches_of string (Z.to_nat batch_size) chunks) in Hprefix, Hok.
  split.
  - exists sent. split; [exact Hsent | exact Hprefix].
  - intros vectors Hrun. destruct (Hok vectors Hrun) as (Heq & per_batch & Hall & Hvec).
    split; [now rewrite Hsent, Heq|]. exists per_batch. split; [exact Hall | exact Hvec].
Qed.

Lemma store_loop_run (chunk_metadata_list : list Chunk.t) (embeddings : list (list Q))
    (k : nat) (starts : list nat) (w : World) :
  let batches :=
    map (fun i =>
           let end_idx := Nat.min (i + k) (List.length chunk_metadata_list) in
           insert_data (slice i end_idx chunk_metadata_list) (slice i end_idx embeddings))
        starts in
  let run := store_loop chunk_metadata_list embeddings k starts w in
  exists written,
    inserted (snd run) = inserted w ++ written
    /\ prefix_of written batches
    /\ flushes (snd run) <= flushes w + List.length written
    /\ flushes w + List.length written <= S (flushes (snd run))
    /\ (fst run = Ok tt ->
        written = batches /\ flushes (snd run) = flushes w + List.length batches).
Proof.
  cbv zeta. revert w. induction starts as [|i starts IH]; intro w.
  - exists []. cbn. rewrite app_nil_r. split; [reflexivity|].
    split; [apply prefix_of_refl|]. repeat split; lia.
  - cbn [store_loop map]. unfold bind, insert.
    set (data := insert_data _ _).
    destruct (collection_insert (inserted w) data) as [e|].
    + exists []. cbn. rewrite app_nil_r. split; [reflexivity|].
      split; [eexists; reflexivity|]. split; [lia|]. split; [lia | discriminate].
    + unfold flush. cbn [inserted].
      destruct (collection_flush (inserted w ++ [data])) as [e|].
      * exists [data]. cbn. split; [reflexivity|].
        split; [eexists; reflexivity|]. split; [lia|]. split; [lia | discriminate].
      * unfold logger_info. cbn [logger log requested drawn encoded inserted flushes].
        match goal with |- context [store_loop _ _ _ starts ?w1] =>
          destruct (IH w1) as (written & Hins & Hprefix & Hlo & Hhi & Hok)
        end.
        cbn [inserted flushes] in Hins, Hlo, Hhi, Hok.
        exists (data :: written). rewrite Hins, <- app_assoc.
        split; [reflexivity|]. split; [now apply prefix_of_cons|].
        cbn [List.length]. split; [lia|]. split; [lia|].
        intro Hrun. destruct (Hok Hrun) as [-> Hflushes].
        split; [reflexivity | lia].
Qed.

(** X8.  [store_chunks_batch] inserts the records in consecutive batches
    of [batch_size], in order, and flushes after each insertion: every
    record is written once when the call returns, and when an insertion or
    a flush raises, the batches before it stay inserted and nothing more is
    written. *)
Theorem every_stored_batch_is_flushed (chunk_metadata_list : list Chunk.t)
    (embeddings : list (list Q)) (batch_size : Z) (w : World) :
  (0 < batch_size)%Z ->
  let batches := batches_to_store (Z.to_nat batch_size) chunk_metadata_list embeddings in
  let run := store_chunks_batch chunk_metadata_list embeddings batch_size w in
  List.concat (map Columns.id batches) = map Chunk.id chunk_metadata_list
  /\ exists written,
       inserted (snd run) = inserted w ++ written
       /\ prefix_of written batches
       /\ flushes (snd run) <= flushes w + List.length written
       /\ flushes w + List.length written <= S (flushes (snd run))
       /\ (fst run = Ok tt ->
           written = batches /\ flushes (snd run) = flushes w + List.length batches).
Proof.
  intro Hsize. cbv zeta.
  assert (Hk : 0 < Z.to_nat batch_size) by lia.
  split.
  - unfold batches_to_store. rewrite map_map. cbv zeta.
    erewrite map_ext.
    2:{ intro j. rewrite insert_data_id, slice_min, map_slice. reflexivity. }
    rewrite <- (length_map Chunk.id chunk_metadata_list).
    apply (concat_batches_of _ (map Chunk.id chunk_metadata_list) Hk).
  - unfold store_chunks_batch, bind, logger_info. cbn [logger]. rewrite (range_step_positive _ _ Hsize).
    match goal with |- context [store_loop ?l ?e ?k ?starts ?w1] =>
      destruct (store_loop_run l e k starts w1) as (written & Hins & Hprefix & Hlo & Hhi & Hok)
    end.
    cbv zeta in Hins, Hprefix, Hlo, Hhi, Hok. rewrite map_map in Hprefix, Hok.
    exists written. split; [exact Hins|]. split; [exact Hprefix|].
    split; [exact Hlo|]. split; [exact Hhi | exact Hok].
Qed.

(** *** A run that succeeds *)

Lemma content_quality_bounds (content : string) (code_elements : CodeElements)
    (has_documentation : bool) :
  let scores := _calculate_quality_scores content code_elements has_documentation in
  (0 <= content_quality_score scores)%Q /\ (content_quality_score scores <= 1)%Q.
Proof.
  cbv zeta. unfold _calculate_quality_scores. cbn [content_quality_score].
  set (indicators := [_; _; _; _; _; _]).
  assert (Hk : count_true indicators <= 6) by apply (count_true_le indicators).
  split; [apply true_div_nonneg | apply true_div_le_1]; simpl; lia.
Qed.

Lemma built_from_quality (file_info : FileInfo.t) (owner name branch text : string)
    (imgs atts exts : list string) (recs : list Chunk.t) (items : list (nat * string)) :
  Forall2 (built_from (chunk_metadata file_info owner name branch imgs atts exts
                                      (analyze_content text file_info)))
          recs items ->
  Forall (fun r => (0 <= Chunk.content_quality_score r)%Q
                   /\ (Chunk.content_quality_score r <= 1)%Q) recs.
Proof.
  induction 1 as [|r item recs items (k1 & k2 & Hr) Hrest IH]; constructor; auto.
  subst r. cbn [Chunk.content_quality_score chunk_metadata analyze_content Analysis.scores].
  apply content_quality_bounds.
Qed.

Lemma process_file_quality (file_info : FileInfo.t) (owner name branch : string)
    (w w' : World) (recs : list Chunk.t) :
  process_file file_info owner name branch w = (Ok recs, w') ->
  Forall (fun r => (0 <= Chunk.content_quality_score r)%Q
                   /\ (Chunk.content_quality_score r <= 1)%Q) recs.
Proof.
  intro Hrun.
  destruct (process_file_inv _ _ _ _ _ _ _ Hrun)
    as [[_ Hnil] | (text & chunks & _ & _ & _ & Hrel)].
  - subst recs. constructor.
  - unfold records_of in Hrel. cbv zeta in Hrel. eapply built_from_quality, Hrel.
Qed.

Lemma collect_Forall (P : Chunk.t -> Prop)
    (process_single_file : FileInfo.t -> M (list Chunk.t)) (futures : list FileInfo.t)
    (acc all : list Chunk.t) (w w' : World) :
  (forall file_info w1 w2 recs,
     process_single_file file_info w1 = (Ok recs, w2) -> Forall P recs) ->
  Forall P acc ->
  collect process_single_file futures acc w = (Ok all, w') ->
  Forall P all.
Proof.
  intro Hfile. revert acc w. induction futures as [|file_info futures IH]; intros acc w Hacc.
  - cbn. intro Hrun. inversion Hrun; subst. exact Hacc.
  - cbn [collect]. unfold bind at 1, try_except, bind at 1.
    destruct (process_single_file file_info w) as [[recs | e] w1] eqn:Hrun1.
    + unfold ret at 1. apply IH. apply Forall_app. split; [exact Hacc|].
      eapply Hfile, Hrun1.
    + unfold logger_error, bind, logger, ret. apply IH. exact Hacc.
Qed.

Lemma sum_bounds (xs : list Q) :
  Forall (fun x => (0 <= x)%Q /\ (x <= 1)%Q) xs ->
  (0 <= fold_right Qplus 0 xs)%Q
  /\ (fold_right Qplus 0 xs <= inject_Z (Z.of_nat (List.length xs)))%Q.
Proof.
  induction 1 as [|x xs [Hlo Hhi] Hall [IHlo IHhi]]; cbn [fold_right List.length].
  - split; apply Qle_refl.
  - split.
    + apply (Qle_trans _ (0 + 0)); [apply Qle_refl | now apply Qplus_le_compat].
    + rewrite Nat2Z.inj_succ. unfold Z.succ. rewrite inject_Z_plus, Qplus_comm.
      now apply Qplus_le_compat.
Qed.

Lemma mean_bounds (xs : list Q) :
  xs <> [] ->
  Forall (fun x => (0 <= x)%Q /\ (x <= 1)%Q) xs ->
  (0 <= mean xs)%Q /\ (mean xs <= 1)%Q.
Proof.
  intros Hne Hall. destruct (sum_bounds xs Hall) as [Hlo Hhi]. unfold mean.
  assert (Hpos : (0 < inject_Z (Z.of_nat (List.length xs)))%Q).
  { destruct xs; [now elim Hne|]. unfold Qlt; simpl; lia. }
  split.
  - apply Qle_shift_div_l; [exact Hpos|]. now rewrite Qmult_0_l.
  - apply Qle_shift_div_r; [exact Hpos|]. now rewrite Qmult_1_l.
Qed.

Lemma embed_loop_store (chunks : list string) (k : nat) (starts : list nat)
    (acc : list (list Q)) (w : World) :
  let w' := snd (embed_loop chunks k starts acc w) in
  inserted w' = inserted w /\ flushes w' = flushes w.
Proof.
  cbv zeta. revert acc w. induction starts as [|i starts IH]; intros acc w; [now split|].
  cbn [embed_loop]. unfold bind, model_encode.
  destruct (encode (slice i (i + k) chunks)) as [embeddings | e]; [|now split].
  match goal with |- context [(if ?b then logger_info ?msg else ret tt) ?w1] =>
    assert (Hlog : exists w2, (if b then logger_info msg else ret tt) w1 = (Ok tt, w2)
                              /\ inserted w2 = inserted w /\ flushes w2 = flushes w)
      by (destruct b; eexists; repeat split);
    destruct Hlog as (w2 & -> & Hi & Hf)
  end.
  destruct (IH (acc ++ embeddings) w2) as [Hi2 Hf2]. split; congruence.
Qed.

Lemma store_loop_encoded (chunk_metadata_list : list Chunk.t) (embeddings : list (list Q))
    (k : nat) (starts : list nat) (w : World) :
  encoded (snd (store_loop chunk_metadata_list embeddings k starts w)) = encoded w.
Proof.
  revert w. induction starts as [|i starts IH]; intro w; [reflexivity|].
  cbn [store_loop]. unfold bind, insert.
  destruct (collection_insert (inserted w) _) as [e|]; [reflexivity|].
  unfold flush. cbn [inserted].
  destruct (collection_flush _) as [e|]; [reflexivity|].
  unfold logger_info. cbn [logger log requested drawn encoded inserted flushes].
  now rewrite IH.
Qed.

Lemma generate_embeddings_batch_ok (chunks : list string) (w w' : World)
    (embeddings : list (list Q)) :
  generate_embeddings_batch chunks 64 w = (Ok embeddings, w') ->
  encoded w' = encoded w ++ batches_of 64 chunks
  /\ inserted w' = inserted w /\ flushes w' = flushes w.
Proof.
  unfold generate_embeddings_batch, bind, logger_info. cbn [logger].
  rewrite (range_step_positive _ 64) by lia. change (Z.to_nat 64) with 64.
  intro Hrun.
  match type of Hrun with embed_loop chunks 64 ?starts [] ?w1 = _ =>
    destruct (embed_loop_run chunks 64 starts [] w1) as (sent & Hsent & _ & Hok);
    destruct (embed_loop_store chunks 64 starts [] w1) as [Hins Hflush]
  end.
  cbv zeta in Hsent, Hok, Hins, Hflush. rewrite Hrun in Hsent, Hok, Hins, Hflush.
  cbn [fst snd] in Hsent, Hok, Hins, Hflush.
  destruct (Hok embeddings eq_refl) as [-> _]. rewrite map_map in Hsent.
  split; [exact Hsent|]. split; [exact Hins | exact Hflush].
Qed.

Lemma store_chunks_batch_ok (chunk_metadata_list : list Chunk.t)
    (embeddings : list (list Q)) (w w' : World) :
  store_chunks_batch chunk_metadata_list embeddings 100 w = (Ok tt, w') ->
  inserted w' = inserted w ++ batches_to_store 100 chunk_metadata_list embeddings
  /\ flushes w'
     = flushes w + List.length (batches_to_store 100 chunk_metadata_list embeddings)
  /\ encoded w' = encoded w.
Proof.
  unfold store_chunks_batch, bind, logger_info. cbn [logger].
  rewrite (range_step_positive _ 100) by lia. change (Z.to_nat 100) with 100.
  intro Hrun.
  match type of Hrun with store_loop ?l ?e 100 ?starts ?w1 = _ =>
    destruct (store_loop_run l e 100 starts w1) as (written & Hins & _ & _ & _ & Hok);
    pose proof (store_loop_encoded l e 100 starts w1) as Henc
  end.
  cbv zeta in Hins, Hok. rewrite Hrun in Hins, Hok, Henc. cbn [fst snd] in Hins, Hok, Henc.
  destruct (Hok eq_refl) as [-> Hflushes]. rewrite map_map in Hins, Hflushes.
  split; [exact Hins|]. split; [exact Hflushes | exact Henc].
Qed.

(** X11.  A run of [ingest_repository] that returns the result with
    [success] true went through the four stages in order: it resolved the
    tree, processed the files into at least one record, sent the texts of
    all the records to the model in batches of 64, and inserted and flushed
    all the records in batches of 100.  The statistics of the result are
    those of the records: their number, the sum of their image counts, the
    number of them with an image (at most their number), and the mean of
    their content quality scores, which lies between 0 and 1. *)
Theorem successful_ingestion_goes_through_every_stage (repo_url branch : string)
    (max_workers : Z) (w w' : World) (result : Ingestion) (owner name : string) :
  parsed_repo repo_url = Some (owner, name) ->
  ingest_repository repo_url branch max_workers w = (Ok result, w') ->
  success result = true ->
  exists files w1 all w2 embeddings,
    fetch_repository_tree owner name branch (at_tree_stage repo_url w) = (Ok files, w1)
    /\ process_files files owner name branch max_workers (at_processing_stage files w1)
       = (Ok all, w2)
    /\ result = Ingested (List.length files) (List.length all)
                         (list_sum (map Chunk.image_count all))
                         (List.length (filter Chunk.has_images all))
                         (mean (map Chunk.content_quality_score all))
    /\ 1 <= List.length all
    /\ List.length (filter Chunk.has_images all) <= List.length all
    /\ ((0 <= mean (map Chunk.content_quality_score all))%Q
        /\ (mean (map Chunk.content_quality_score all) <= 1)%Q)
    /\ encoded w' = encoded w ++ batches_of 64 (map Chunk.document all)
    /\ inserted w' = inserted w ++ batches_to_store 100 all embeddings
    /\ flushes w' = flushes w + List.length (batches_to_store 100 all embeddings).
Proof.
  intros Hparse Hrun Hsuccess.
  rewrite (ingest_repository_run repo_url branch max_workers w owner name Hparse) in Hrun.
  apply ingest_handler_inv in Hrun. unfold ingest_stages in Hrun.
  apply bind_inv in Hrun. destruct Hrun as (u0 & w0 & Hlog0 & Hrun).
  apply logger_info_inv in Hlog0. subst w0.
  apply bind_inv in Hrun. destruct Hrun as (files & w1 & Hfetch & Hrun).
  apply bind_inv in Hrun. destruct Hrun as (u1 & wa & Hlog1 & Hrun).
  apply logger_info_inv in Hlog1. subst wa.
  apply bind_inv in Hrun. destruct Hrun as (u2 & wb & Hlog2 & Hrun).
  apply logger_info_inv in Hlog2. subst wb.
  apply bind_inv in Hrun. destruct Hrun as (all & w2 & Hprocess & Hrun).
  apply bind_inv in Hrun. destruct Hrun as (u3 & wc & Hlog3 & Hrun).
  apply logger_info_inv in Hlog3. subst wc.
  destruct all as [|first others] eqn:Hall.
  { apply bind_inv in Hrun. destruct Hrun as (u4 & wd & _ & Hrun).
    inversion Hrun; subst. discriminate. }
  rewrite <- Hall in Hrun, Hprocess.
  assert (Hne : all <> []) by (rewrite Hall; discriminate).
  clear Hall first others.
  apply bind_inv in Hrun. destruct Hrun as (u4 & wd & Hlog4 & Hrun).
  apply logger_info_inv in Hlog4. subst wd.
  apply bind_inv in Hrun. destruct Hrun as (embeddings & w3 & Hembed & Hrun).
  apply bind_inv in Hrun. destruct Hrun as (u5 & we & Hlog5 & Hrun).
  apply logger_info_inv in Hlog5. subst we.
  apply bind_inv in Hrun. destruct Hrun as (u6 & wf & Hlog6 & Hrun).
  apply logger_info_inv in Hlog6. subst wf.
  apply bind_inv in Hrun. destruct Hrun as ([] & w4 & Hstore & Hrun).
  apply bind_inv in Hrun. destruct Hrun as (u8 & wg & Hlog7 & Hrun).
  apply logger_info_inv in Hlog7. subst wg.
  inversion Hrun as [[Hresult Hw']]. clear Hrun.
  exists files, w1, all, w2, embeddings.
  split; [exact Hfetch|]. split; [exact Hprocess|]. split; [reflexivity|].
  split; [destruct all; [now elim Hne | simpl; lia]|].
  split; [apply filter_length_le|].
  split.
  { apply mean_bounds; [destruct all; [now elim Hne | discriminate]|].
    apply Forall_forall. intros x Hx. apply in_map_iff in Hx.
    destruct Hx as (r & <- & Hr).
    assert (Hquality : Forall (fun r => (0 <= Chunk.content_quality_score r)%Q
                                        /\ (Chunk.content_quality_score r <= 1)%Q) all).
    { unfold process_files in Hprocess.
      destruct (max_workers <=? 0)%Z; [discriminate|].
      eapply collect_Forall; [| constructor | exact Hprocess].
      intros file_info wx wy recs Hfile. eapply process_file_quality, Hfile. }
    rewrite Forall_forall in Hquality. now apply Hquality. }
  assert (Hs1 : same_store (at_tree_stage repo_url w) w1).
  { eapply same_store_run; [|exact Hfetch]. apply keeps_store_fetch_repository_tree_rec. }
  assert (Hs2 : same_store (at_processing_stage files w1) w2).
  { eapply same_store_run; [|exact Hprocess]. apply keeps_store_process_files. }
  destruct (generate_embeddings_batch_ok _ _ _ _ Hembed) as (He3 & Hi3 & Hf3).
  destruct (store_chunks_batch_ok _ _ _ _ Hstore) as (Hi4 & Hf4 & He4).
  clear Hfetch Hprocess Hembed Hstore.
  unfold same_store, at_tree_stage, at_processing_stage, logged in *.
  cbn in Hs1, Hs2, He3, Hi3, Hf3, Hi4, Hf4, He4 |- *.
  destruct Hs1 as (He1 & Hi1 & Hf1), Hs2 as (He2 & Hi2 & Hf2).
  split; [congruence|]. split; congruence.
Qed.

(** *** Two scenarios *)

Lemma list_set_perm (xs : list string) : NoDup xs -> Permutation (list_set xs) xs.
Proof using list_set_spec.
  intro Hnd. apply NoDup_Permutation; [apply list_set_NoDup | exact Hnd|].
  intro x. apply list_set_In.
Qed.

Lemma list_set_singleton (x : string) : list_set [x] = [x].
Proof using list_set_spec.
  apply Permutation_length_1_inv. symmetry. apply list_set_perm.
  constructor; [intros [] | constructor].
Qed.

(** The scenario of the source file with three function definitions
    and no header or comment: the language is Python by the extension, the
    file has code and no documentation, and the function names are the
    three names, each once, in the order the set gives. *)
Theorem three_functions_scenario :
  let analysis := analyze_content Sample.three_functions (Sample.docs_file "src/three.py") in
  Analysis.language analysis = "python"
  /\ Analysis.has_code analysis = true
  /\ Analysis.has_documentation analysis = false
  /\ Permutation (Analysis.function_names analysis) ["setup"; "blink"; "main"]
  /\ List.length (Analysis.function_names analysis) = 3
  /\ Analysis.class_names analysis = [].
Proof using list_set_spec.
  cbv zeta. unfold analyze_content.
  cbn [Analysis.language Analysis.has_code Analysis.has_documentation
       Analysis.function_names Analysis.class_names].
  assert (Hlang : _detect_language Sample.three_functions
                    (FileInfo.extension (Sample.docs_file "src/three.py")) = "python")
    by (vm_compute; reflexivity).
  rewrite Hlang.
  split; [reflexivity|]. split; [vm_compute; reflexivity|]. split; [vm_compute; reflexivity|].
  unfold _extract_code_elements.
  change (String.eqb "python" "python") with true. cbn iota. cbn [functions classes].
  assert (Hfound : Re.findall1 Re.no_flags py_function Sample.three_functions
                   = ["setup"; "blink"; "main"]) by (vm_compute; reflexivity).
  assert (Hclasses : Re.findall1 Re.no_flags any_class Sample.three_functions = [])
    by (vm_compute; reflexivity).
  rewrite Hfound, Hclasses.
  assert (Hperm : Permutation (list_set (list_set ["setup"; "blink"; "main"]))
                              ["setup"; "blink"; "main"]).
  { rewrite list_set_idempotent. apply list_set_perm.
    constructor; [intros [H | [H | []]]; discriminate|].
    constructor; [intros [H | []]; discriminate|].
    constructor; [intros [] | constructor]. }
  assert (Hlen : List.length (list_set (list_set ["setup"; "blink"; "main"])) = 3)
    by (rewrite (Permutation_length Hperm); reflexivity).
  rewrite firstn_all2 by (rewrite Hlen; lia).
  split; [exact Hperm|]. split; [exact Hlen|].
  rewrite list_set_nil, list_set_nil. reflexivity.
Qed.

(** The scenario of the small Markdown file with one header, one
    image and 120 words of prose, when the chunker returns the file as one
    chunk: [process_file] returns one record, with index 0, with
    [has_images] true, [image_count] 1 and the language [markdown]. *)
Theorem markdown_image_scenario (file_info : FileInfo.t) (owner name branch : string)
    (w : World) :
  FileInfo.extension file_info = ".md" ->
  fetched file_info = Some Sample.guide ->
  CodeChunker "markdown" Sample.guide = Ok [Sample.guide] ->
  path_name (urljoin (base_url_of owner name branch) "img.png") = "img.png" ->
  List.length (Re.findall Re.no_flags any_word (String.concat "" (repeat Sample.sentence 10)))
  = 120
  /\ exists r w',
       process_file file_info owner name branch w = (Ok [r], w')
       /\ Chunk.document r = Sample.guide
       /\ Chunk.chunk_index r = 0
       /\ Chunk.has_images r = true
       /\ Chunk.image_count r = 1
       /\ Chunk.language r = "markdown".
Proof using list_set_spec.
  intros Hext Htext Hchunker Hjoin. split; [vm_compute; reflexivity|].
  assert (Hlong : too_short (Some Sample.guide) = false) by (vm_compute; reflexivity).
  pose proof (process_file_chunks file_info owner name branch Sample.guide w Htext Hlong)
    as Hrun.
  assert (Hlang : _detect_language Sample.guide (FileInfo.extension file_info) = "markdown")
    by (rewrite Hext; reflexivity).
  assert (Hchunks : chunked Sample.guide file_info = Ok [Sample.guide]).
  { unfold chunked, semantic_chunk_content, lift. cbn [fst]. rewrite Hlang. exact Hchunker. }
  rewrite Hchunks in Hrun. destruct Hrun as (recs & w' & Hrun & Hrel & _).
  unfold records_of in Hrel. cbv zeta in Hrel.
  assert (Hkept : kept_chunks [Sample.guide] = [(0, Sample.guide)])
    by (vm_compute; reflexivity).
  rewrite Hkept in Hrel.
  inversion Hrel as [|r item recs' items' Hbuilt Hrest]; subst.
  inversion Hrest; subst. destruct Hbuilt as (k1 & k2 & Hr).
  exists r, w'. split; [exact Hrun|].
  clear Hrun Hrel Hrest.
  assert (Hfound : found_images Sample.guide (base_url_of owner name branch)
                   = [urljoin (base_url_of owner name branch) "img.png"])
    by (vm_compute; reflexivity).
  assert (Himages : chunk_images
                      (fst (fst (extract_images_and_links Sample.guide
                                                          (base_url_of owner name branch))))
                      Sample.guide
                    = [urljoin (base_url_of owner name branch) "img.png"]).
  { unfold extract_images_and_links. cbn [fst]. rewrite Hfound, list_set_singleton.
    unfold chunk_images. cbn [filter]. rewrite Hjoin.
    assert (Hin : contains (lower "img.png") (lower Sample.guide) = true)
      by (vm_compute; reflexivity).
    rewrite Hin. reflexivity. }
  rewrite Hr.
  cbn [Chunk.document Chunk.chunk_index Chunk.has_images Chunk.image_count Chunk.language
       chunk_metadata fst snd].
  rewrite Himages. cbn [List.length Nat.ltb Nat.leb].
  repeat split. unfold analyze_content. cbn [Analysis.language]. exact Hlang.
Qed.

(** *** Connecting to Milvus *)

Ltac list_eq := repeat first [rewrite <- app_assoc | progress cbn [app]]; reflexivity.

Ltac calls_among := repeat (apply Forall_cons; [auto 8|]); try apply Forall_nil.

Ltac prun :=
  unfold pbind, ptry, plog, lift_world, logger, call, sleep, print, pret, praise;
  cbn [fst snd world calls slept printed log requested drawn encoded inserted flushes].

Lemma connect_attempt_run (p : Process) :
  let run := connect_attempt p in
  exists tail,
    calls (snd run) = calls p ++ disconnect "default" :: connect connect_kwargs :: tail
    /\ (tail = [] \/ tail = [list_collections])
    /\ only_calls_and_log p (snd run)
    /\ (fst run = Ok tt ->
        log (world (snd run)) = log (world p) ++ [(INFO, connected_message)])
    /\ (forall e, fst run = Raise e -> log (world (snd run)) = log (world p)).
Proof.
  cbv zeta. unfold connect_attempt, only_calls_and_log, same_store. prun.
  destruct (pymilvus (calls p) (disconnect "default")) as [b0 | e0]; prun.
  all: match goal with |- context [pymilvus ?h (connect connect_kwargs)] =>
         destruct (pymilvus h (connect connect_kwargs)) as [b1 | e1]; prun
       end.
  all: try match goal with |- context [pymilvus ?h list_collections] =>
         destruct (pymilvus h list_collections) as [b2 | e2]; prun
       end.
  all: eexists; rewrite <- ?app_assoc; cbn [app];
    (split; [reflexivity|]); (split; [auto|]);
    (split; [repeat split|]); split; try discriminate; try reflexivity.
  all: intros; discriminate.
Qed.

Lemma only_calls_and_log_refl (p : Process) : only_calls_and_log p p.
Proof. unfold only_calls_and_log. do 4 (split; [reflexivity|]). apply same_store_refl. Qed.

Lemma only_calls_and_log_trans (p1 p2 p3 : Process) :
  only_calls_and_log p1 p2 -> only_calls_and_log p2 p3 -> only_calls_and_log p1 p3.
Proof.
  unfold only_calls_and_log.
  intros (Hs & Hp & Hr & Hd & Hst) (Hs' & Hp' & Hr' & Hd' & Hst').
  do 4 (split; [congruence|]). eapply same_store_trans; eassumption.
Qed.

Lemma connect_loop_step (a : nat) (rest : list nat) (delay : Z) (p : Process) :
  connect_loop (a :: rest) delay p
  = match connect_attempt p with
    | (Ok _, p1) => (Ok tt, p1)
    | (Raise e, p1) =>
        let p2 := snd (plog WARNING (connection_failed_message a e) p1) in
        if a <? max_retries - 1 then
          connect_loop rest (delay * 2)
                       (snd (sleep delay (snd (plog INFO (retrying_message delay) p2))))
        else (Raise e, snd (plog ERROR gave_up_message p2))
    end.
Proof.
  cbn [connect_loop]. unfold pbind at 1, ptry at 1, pbind at 1.
  destruct (connect_attempt p) as [[[] | e] p1]; [reflexivity|].
  cbv zeta. destruct (a <? max_retries - 1); reflexivity.
Qed.

Lemma connect_loop_run (n a : nat) (delay : Z) (p : Process) :
  a + n = max_retries ->
  let run := connect_loop (seq a n) delay p in
  exists attempts new_calls entries,
    attempts <= n /\ (0 < n -> 0 < attempts)
    /\ calls (snd run) = calls p ++ new_calls
    /\ List.length (filter is_connect new_calls) = attempts
    /\ Forall (fun c => c = disconnect "default" \/ c = connect connect_kwargs
                        \/ c = list_collections) new_calls
    /\ slept (snd run) = slept p ++ backoff delay (attempts - 1)
    /\ printed (snd run) = printed p
    /\ requested (world (snd run)) = requested (world p)
    /\ same_store (world p) (world (snd run))
    /\ log (world (snd run)) = log (world p) ++ entries
    /\ (0 < n ->
        (fst run = Ok tt /\ last entries (INFO, "") = (INFO, connected_message))
        \/ (exists e, fst run = Raise e /\ attempts = n
                      /\ last entries (INFO, "") = (ERROR, gave_up_message))).
Proof.
  cbv zeta. revert a delay p. induction n as [|n IH]; intros a delay p Hsum.
  - exists 0, [], []. cbn. rewrite !app_nil_r.
    repeat split; auto using same_store_refl; lia.
  - cbn [seq]. rewrite connect_loop_step.
    destruct (connect_attempt_run p) as (tail & Hcalls & Htail & Honly & Hok & Hraise).
    cbv zeta in Hcalls, Honly, Hok, Hraise.
    destruct Honly as (Hslept & Hprinted & Hrequested & _ & Hstore).
    destruct (connect_attempt p) as [[[] | e] p1]; cbn [fst snd] in *.
    + exists 1, (disconnect "default" :: connect connect_kwargs :: tail),
             [(INFO, connected_message)].
      cbn [fst snd]. rewrite Hslept, Hprinted, Hrequested, (Hok eq_refl). cbn [backoff Nat.sub].
      rewrite app_nil_r.
      split; [lia|]. split; [lia|]. split; [exact Hcalls|].
      split; [destruct Htail as [-> | ->]; reflexivity|].
      split; [destruct Htail as [-> | ->]; calls_among|].
      do 3 (split; [reflexivity|]). split; [exact Hstore|]. split; [reflexivity|].
      intros _. left. split; reflexivity.
    + specialize (Hraise e eq_refl).
      cbv zeta. destruct (Nat.ltb_spec a (max_retries - 1)) as [Hmore | Hlast].
      * prun.
        match goal with |- context [connect_loop (seq (S a) n) (delay * 2)%Z ?p2] =>
          destruct (IH (S a) (delay * 2)%Z p2) as
            (attempts & new_calls & entries & Hle & Hpos & Hc & Hcount & Hall & Hs & Hp & Hr
             & Hst & Hlog & Hend); [lia|]
        end.
        cbn [fst snd world calls slept printed log requested drawn encoded inserted flushes]
          in Hc, Hs, Hp, Hr, Hst, Hlog.
        assert (Hn : 0 < n) by (unfold max_retries in *; lia).
        specialize (Hpos Hn). specialize (Hend Hn).
        exists (S attempts), (disconnect "default" :: connect connect_kwargs :: tail ++ new_calls),
               ((WARNING, connection_failed_message a e) :: (INFO, retrying_message delay)
                :: entries).
        split; [lia|]. split; [lia|].
        split; [rewrite Hc, Hcalls, <- app_assoc; reflexivity|].
        split.
        { cbn [filter is_connect List.length]. rewrite filter_app, length_app, Hcount.
          destruct Htail as [-> | ->]; reflexivity. }
        split.
        { constructor; [auto|]. constructor; [auto|]. apply Forall_app. split; [|exact Hall].
          destruct Htail as [-> | ->]; calls_among. }
        split.
        { rewrite Hs, Hslept, <- app_assoc. cbn [app].
          destruct attempts as [|attempts']; [lia|].
          cbn [Nat.sub backoff]. rewrite Nat.sub_0_r. reflexivity. }
        split; [congruence|]. split; [congruence|].
        split.
        { eapply same_store_trans; [exact Hstore|].
          eapply same_store_trans; [|exact Hst].
          unfold same_store; cbn; auto. }
        split; [rewrite Hlog, Hraise, <- !app_assoc; reflexivity|].
        intros _.
        assert (Hentries : entries <> []).
        { intro Hnil. subst entries.
          destruct Hend as [[_ Hl] | (e' & _ & _ & Hl)]; cbn in Hl; discriminate. }
        assert (Hlast : last ((WARNING, connection_failed_message a e)
                              :: (INFO, retrying_message delay) :: entries) (INFO, "")
                        = last entries (INFO, "")).
        { destruct entries as [|entry entries']; [now elim Hentries | reflexivity]. }
        rewrite Hlast.
        destruct Hend as [[Hrun Hl] | (e' & Hrun & Hattempts & Hl)].
        -- left. split; [exact Hrun | exact Hl].
        -- right. exists e'. split; [exact Hrun|]. split; [lia | exact Hl].
      * prun. assert (Hn : n = 0) by (unfold max_retries in *; lia). subst n.
        exists 1, (disconnect "default" :: connect connect_kwargs :: tail),
               [(WARNING, connection_failed_message a e); (ERROR, gave_up_message)].
        cbn [backoff Nat.sub]. rewrite app_nil_r.
        split; [lia|]. split; [lia|]. split; [exact Hcalls|].
        split; [destruct Htail as [-> | ->]; reflexivity|].
        split; [destruct Htail as [-> | ->]; calls_among|].
        split; [exact Hslept|]. split; [exact Hprinted|]. split; [exact Hrequested|].
        split; [eapply same_store_trans; [exact Hstore|]; unfold same_store; cbn; auto|].
        split; [rewrite Hraise, <- !app_assoc; reflexivity|].
        intros _. right. exists e. split; [reflexivity|]. split; reflexivity.
Qed.

(** X12.  [_connect_to_milvus] tries to connect at most three times, each
    time with the same keyword arguments, and sleeps 2 and then 4 seconds
    between the attempts.  It returns as soon as an attempt succeeds; when
    the third attempt fails it logs the failure as an error and raises.  The
    URI is passed when it is set, and the host and the port only when it is
    not; the calls are [disconnect], [connect] and [list_collections]
    only. *)
Theorem connection_is_tried_at_most_three_times (p : Process) :
  let run := _connect_to_milvus p in
  exists attempts new_calls entries,
    (1 <= attempts /\ attempts <= 3)
    /\ calls (snd run) = calls p ++ new_calls
    /\ List.length (filter is_connect new_calls) = attempts
    /\ Forall (fun c => c = disconnect "default" \/ c = connect connect_kwargs
                        \/ c = list_collections) new_calls
    /\ slept (snd run) = slept p ++ firstn (attempts - 1) [2; 4]%Z
    /\ printed (snd run) = printed p
    /\ log (world (snd run)) = log (world p) ++ entries
    /\ ((fst run = Ok tt /\ last entries (INFO, "") = (INFO, connected_message))
        \/ (exists e, fst run = Raise e /\ attempts = 3
                      /\ last entries (INFO, "") = (ERROR, gave_up_message)))
    /\ (In "uri" (keys connect_kwargs) <-> truthy MILVUS_URI = true)
    /\ (In "host" (keys connect_kwargs) <-> truthy MILVUS_URI = false)
    /\ (In "port" (keys connect_kwargs) <-> truthy MILVUS_URI = false).
Proof.
  cbv zeta. unfold _connect_to_milvus.
  destruct (connect_loop_run max_retries 0 2%Z p eq_refl)
    as (attempts & new_calls & entries & Hle & Hpos & Hc & Hcount & Hall & Hs & Hp & _ & _
        & Hlog & Hend).
  cbv zeta in Hc, Hs, Hp, Hlog, Hend. unfold max_retries in Hle, Hpos, Hend.
  exists attempts, new_calls, entries.
  split; [lia|]. split; [exact Hc|]. split; [exact Hcount|]. split; [exact Hall|].
  split.
  { rewrite Hs. f_equal.
    destruct attempts as [|[|[|[|attempts']]]]; try reflexivity; lia. }
  split; [exact Hp|]. split; [exact Hlog|].
  split; [apply Hend; lia|].
  unfold connect_kwargs, keys.
  destruct (truthy MILVUS_URI), (truthy MILVUS_USER), (truthy MILVUS_PASSWORD),
    (truthy MILVUS_TOKEN); cbn.
  all: repeat split; intro H; try discriminate; auto 10.
  all: repeat (destruct H as [H | H]; try discriminate H); try contradiction.
Qed.

(** *** Setting up the collection *)

Lemma clean_up_run (p : Process) :
  exists tail,
    clean_up p
    = (Ok tt,
       {| world := world p; calls := calls p ++ has_collection collection_name :: tail;
          slept := slept p; printed := printed p |})
    /\ (tail = []
        \/ (tail = [drop_collection collection_name]
            /\ pymilvus (calls p) (has_collection collection_name) = Ok true)).
Proof.
  unfold clean_up. prun.
  destruct (pymilvus (calls p) (has_collection collection_name)) as [[|] | e] eqn:Hhas; prun.
  - match goal with |- context [pymilvus ?h (drop_collection collection_name)] =>
      destruct (pymilvus h (drop_collection collection_name)) as [b | e]
    end.
    all: exists [drop_collection collection_name]; rewrite <- app_assoc; cbn [app]; auto.
  - exists []. auto.
  - exists []. auto.
Qed.

Lemma create_loop_step (schema : list FieldSchema * string) (a : nat) (rest : list nat)
    (p : Process) :
  create_loop schema (a :: rest) p
  = let p0 := snd (plog INFO (creating_message a) p) in
    match call (Collection collection_name (Some schema)) p0 with
    | (Ok _, p1) => (Ok tt, p1)
    | (Raise e, p1) =>
        let p2 := snd (plog WARNING (creation_failed_message a e) p1) in
        if a <? max_create_retries - 1 then
          create_loop schema rest (snd (clean_up (snd (sleep 3 p2))))
        else (Raise e, p2)
    end.
Proof.
  cbn [create_loop]. cbv zeta. prun.
  destruct (pymilvus (calls p) (Collection collection_name (Some schema))) as [b | e];
    [reflexivity|].
  destruct (a <? max_create_retries - 1); [|reflexivity]. prun.
  match goal with |- context [clean_up ?p3] =>
    destruct (clean_up_run p3) as (tail & Hclean & _); rewrite Hclean
  end.
  reflexivity.
Qed.

Lemma create_loop_run (schema : list FieldSchema * string) (n a : nat) (p : Process) :
  a + n = max_create_retries ->
  let run := create_loop schema (seq a n) p in
  exists attempts new_calls entries,
    attempts <= n /\ (0 < n -> 0 < attempts)
    /\ calls (snd run) = calls p ++ new_calls
    /\ List.length (filter is_creation new_calls) = attempts
    /\ List.length (filter is_drop new_calls) <= attempts - 1
    /\ Forall (fun c => c = Collection collection_name (Some schema)
                        \/ c = has_collection collection_name
                        \/ c = drop_collection collection_name) new_calls
    /\ slept (snd run) = slept p ++ repeat 3%Z (attempts - 1)
    /\ printed (snd run) = printed p
    /\ requested (world (snd run)) = requested (world p)
    /\ same_store (world p) (world (snd run))
    /\ log (world (snd run)) = log (world p) ++ entries
    /\ Forall (fun entry => is_error entry = false) entries
    /\ (0 < n ->
        fst run = Ok tt \/ (exists e, fst run = Raise e /\ attempts = n))
    /\ (forall b, 0 < n ->
                  pymilvus (calls p) (Collection collection_name (Some schema)) = Ok b ->
                  new_calls = [Collection collection_name (Some schema)]).
Proof.
  cbv zeta. revert a p. induction n as [|n IH]; intros a p Hsum.
  - exists 0, [], []. cbn. rewrite !app_nil_r.
    do 2 (split; [lia|]). split; [reflexivity|]. split; [reflexivity|]. split; [lia|].
    split; [constructor|]. do 3 (split; [reflexivity|]).
    split; [apply same_store_refl|]. split; [reflexivity|]. split; [constructor|].
    split; [lia|]. intros b Hn. lia.
  - cbn [seq]. rewrite create_loop_step. cbv zeta.
    prun.
    destruct (pymilvus (calls p) (Collection collection_name (Some schema))) as [b | e]
      eqn:Hcreate.
    + exists 1, [Collection collection_name (Some schema)], [(INFO, creating_message a)].
      cbn [fst snd filter is_creation is_drop List.length Nat.sub repeat]. rewrite app_nil_r.
      do 2 (split; [lia|]). split; [reflexivity|]. split; [reflexivity|]. split; [lia|].
      split; [calls_among|]. do 3 (split; [reflexivity|]).
      split; [unfold same_store; cbn; auto|]. split; [reflexivity|].
      split; [repeat constructor|]. split; [auto | reflexivity].
    + destruct (Nat.ltb_spec a (max_create_retries - 1)) as [Hmore | Hlast].
      * match goal with |- context [clean_up ?p3] =>
          destruct (clean_up_run p3) as (tail & Hclean & Htail); rewrite Hclean
        end.
        cbn [fst snd world calls slept printed log requested drawn encoded inserted flushes]
          in Htail |- *.
        match goal with |- context [create_loop schema (seq (S a) n) ?p4] =>
          destruct (IH (S a) p4) as
            (attempts & new_calls & entries & Hle & Hpos & Hc & Hcount & Hdrops & Hall & Hs
             & Hp & Hr & Hst & Hlog & Hquiet & Hend & _); [lia|]
        end.
        cbn [fst snd world calls slept printed log requested drawn encoded inserted flushes]
          in Hc, Hs, Hp, Hr, Hst, Hlog.
        assert (Hn : 0 < n) by (unfold max_create_retries in *; lia).
        specialize (Hpos Hn). specialize (Hend Hn).
        exists (S attempts),
               (Collection collection_name (Some schema)
                :: has_collection collection_name :: tail ++ new_calls),
               ((INFO, creating_message a) :: (WARNING, creation_failed_message a e)
                :: entries).
        split; [lia|]. split; [lia|].
        split; [rewrite Hc, <- !app_assoc; reflexivity|].
        split.
        { cbn [filter is_creation List.length]. rewrite filter_app, length_app, Hcount.
          destruct Htail as [-> | [-> _]]; reflexivity. }
        split.
        { cbn [filter is_drop]. rewrite filter_app, length_app.
          destruct Htail as [-> | [-> _]]; cbn; lia. }
        split.
        { constructor; [auto|]. constructor; [auto|]. apply Forall_app. split; [|exact Hall].
          destruct Htail as [-> | [-> _]]; calls_among. }
        split.
        { rewrite Hs, <- app_assoc. cbn [app].
          destruct attempts as [|attempts']; [lia|].
          cbn [Nat.sub repeat]. rewrite Nat.sub_0_r. reflexivity. }
        split; [exact Hp|]. split; [exact Hr|].
        split; [eapply same_store_trans; [|exact Hst]; unfold same_store; cbn; auto|].
        split; [rewrite Hlog, <- !app_assoc; reflexivity|].
        split; [constructor; [reflexivity|]; constructor; [reflexivity | exact Hquiet]|].
        split; [|intros b0 _ Hb0; discriminate].
        intros _. destruct Hend as [Hrun | (e' & Hrun & Hattempts)].
        -- left. exact Hrun.
        -- right. exists e'. split; [exact Hrun | lia].
      * assert (Hn : n = 0) by (unfold max_create_retries in *; lia). subst n.
        exists 1, [Collection collection_name (Some schema)],
               [(INFO, creating_message a); (WARNING, creation_failed_message a e)].
        cbn [fst snd filter is_creation is_drop List.length Nat.sub repeat]. rewrite app_nil_r.
        do 2 (split; [lia|]). split; [reflexivity|]. split; [reflexivity|]. split; [lia|].
        split; [calls_among|]. do 3 (split; [reflexivity|]).
        split; [unfold same_store; cbn; auto|].
        split; [rewrite <- app_assoc; reflexivity|].
        split; [repeat constructor|].
        split; [|intros b0 _ Hb0; discriminate].
        intros _. right. exists e. auto.
Qed.

Lemma extends_refl (p : Process) : extends p p [] [].
Proof.
  unfold extends. rewrite !app_nil_r. do 5 (split; [reflexivity|]). apply same_store_refl.
Qed.

Lemma extends_trans (p1 p2 p3 : Process) (c1 c2 : list Call)
    (e1 e2 : list (Level * string)) :
  extends p1 p2 c1 e1 -> extends p2 p3 c2 e2 -> extends p1 p3 (c1 ++ c2) (e1 ++ e2).
Proof.
  unfold extends. intros (Hc & Hl & Hs & Hp & Hr & Hst) (Hc' & Hl' & Hs' & Hp' & Hr' & Hst').
  split; [rewrite Hc', Hc, app_assoc; reflexivity|].
  split; [rewrite Hl', Hl, app_assoc; reflexivity|].
  do 3 (split; [congruence|]). eapply same_store_trans; eassumption.
Qed.

Lemma extends_call (c : Call) (p : Process) : extends p (snd (call c p)) [c] [].
Proof.
  unfold extends, call. cbn. rewrite app_nil_r.
  do 5 (split; [reflexivity|]). apply same_store_refl.
Qed.

Lemma extends_plog (lvl : Level) (msg : string) (p : Process) :
  extends p (plogged lvl msg p) [] [(lvl, msg)].
Proof.
  unfold extends, plogged, logged, logger. cbn. rewrite app_nil_r.
  do 5 (split; [reflexivity|]). unfold same_store; cbn; auto.
Qed.

Lemma plog_run (lvl : Level) (msg : string) (p : Process) :
  plog lvl msg p = (Ok tt, plogged lvl msg p).
Proof. reflexivity. Qed.

Lemma scalar_index_loop_run (names : list string) (p : Process) :
  exists p' entries,
    scalar_index_loop names p = (Ok tt, p')
    /\ extends p p' (map (fun field_name => create_index field_name None) names) entries
    /\ Forall (fun entry => is_error entry = false) entries.
Proof.
  revert p. induction names as [|field_name names IH]; intro p.
  - exists p, []. split; [reflexivity|]. split; [apply extends_refl | constructor].
  - cbn [scalar_index_loop map]. unfold pbind at 1, ptry at 1, pbind at 1.
    pose proof (extends_call (create_index field_name None) p) as Hcall.
    destruct (call (create_index field_name None) p) as [[b | e] p1]; cbn [snd] in Hcall.
    + unfold pret at 1.
      destruct (IH p1) as (p' & entries & Hrun & Hext & Hquiet).
      exists p', entries. split; [exact Hrun|]. split; [|exact Hquiet].
      apply (extends_trans _ _ _ _ _ _ _ Hcall Hext).
    + rewrite plog_run.
      match goal with |- context [plogged WARNING ?msg p1] =>
        pose proof (extends_plog WARNING msg p1) as Hlog;
        destruct (IH (plogged WARNING msg p1)) as (p' & entries & Hrun & Hext & Hquiet);
        exists p', ((WARNING, msg) :: entries)
      end.
      split; [exact Hrun|]. split; [|constructor; [reflexivity | exact Hquiet]].
      pose proof (extends_trans _ _ _ _ _ _ _ Hcall Hlog) as H1.
      apply (extends_trans _ _ _ _ _ _ _ H1 Hext).
Qed.

Lemma create_indexes_run (p : Process) :
  exists p' index_calls entries,
    create_indexes p = (Ok tt, p')
    /\ extends p p' index_calls entries
    /\ Forall (fun entry => is_error entry = false) entries
    /\ match pymilvus (calls p) embedding_index with
       | Ok _ => index_calls = embedding_index :: scalar_index_calls
       | Raise _ => index_calls = [embedding_index]
       end.
Proof.
  unfold create_indexes. unfold ptry at 1, pbind at 1.
  pose proof (extends_call embedding_index p) as Hcall.
  unfold embedding_index in *. unfold call at 1 in Hcall. unfold call at 1.
  cbn [fst snd] in Hcall |- *.
  destruct (pymilvus (calls p) (create_index "embedding" (Some index_params))) as [b | e].
  - unfold pbind at 1.
    match goal with |- context [scalar_index_loop scalar_indexes ?p1] =>
      destruct (scalar_index_loop_run scalar_indexes p1) as (p2 & entries & Hrun & Hext & Hquiet);
      rewrite Hrun
    end.
    rewrite plog_run.
    pose proof (extends_plog INFO "Created indexes for collection" p2) as Hlog.
    eexists; exists (create_index "embedding" (Some index_params) :: scalar_index_calls),
                    (entries ++ [(INFO, "Created indexes for collection")]).
    split; [reflexivity|]. split; [|split; [|reflexivity]].
    + pose proof (extends_trans _ _ _ _ _ _ _ Hcall Hext) as H1.
      pose proof (extends_trans _ _ _ _ _ _ _ H1 Hlog) as H2.
      cbn [app] in H2. rewrite app_nil_r in H2. exact H2.
    + apply Forall_app. split; [exact Hquiet | repeat constructor].
  - rewrite plog_run.
    match goal with |- context [plogged WARNING ?msg ?p1] =>
      pose proof (extends_plog WARNING msg p1) as Hlog
    end.
    eexists; exists [create_index "embedding" (Some index_params)]; eexists.
    split; [reflexivity|]. split; [|split; [|reflexivity]].
    + apply (extends_trans _ _ _ _ _ _ _ Hcall Hlog).
    + repeat constructor.
Qed.

Lemma setup_handler_run (e : exn) (p : Process) :
  exists p' guidance,
    setup_handler e p = (Raise e, p')
    /\ extends p p' [] ((ERROR, setup_failed_message e) :: guidance).
Proof.
  unfold setup_handler. unfold pbind at 1. rewrite plog_run.
  pose proof (extends_plog ERROR (setup_failed_message e) p) as Hlog.
  set (p1 := plogged ERROR (setup_failed_message e) p) in *.
  unfold pbind at 1.
  destruct (contains "node not match" (exn_str e)
            || contains "InvalidateCollectionMetaCache" (exn_str e)).
  - unfold pbind. rewrite !plog_run. unfold praise.
    set (m1 := "This appears to be a Milvus server state issue. Try:").
    set (m2 := "1. Restart Milvus server: docker restart milvus-standalone").
    set (m3 := "2. Or restart the entire Milvus stack").
    set (m4 := "3. Wait a few minutes and try again").
    set (q1 := plogged ERROR m1 p1).
    set (q2 := plogged ERROR m2 q1).
    set (q3 := plogged ERROR m3 q2).
    exists (plogged ERROR m4 q3), [(ERROR, m1); (ERROR, m2); (ERROR, m3); (ERROR, m4)].
    split; [reflexivity|].
    exact (extends_trans _ _ _ _ _ _ _
             (extends_trans _ _ _ _ _ _ _
                (extends_trans _ _ _ _ _ _ _
                   (extends_trans _ _ _ _ _ _ _ Hlog (extends_plog ERROR m1 p1))
                   (extends_plog ERROR m2 q1))
                (extends_plog ERROR m3 q2))
             (extends_plog ERROR m4 q3)).
  - unfold pret, praise. exists p1, []. split; [reflexivity | exact Hlog].
Qed.

Lemma setup_prelude (p : Process) (first : list Q) (others : list (list Q)) :
  encode_default ["test"] = Ok (first :: others) ->
  _setup_enhanced_collection p
  = setup_collection (fields (List.length first), schema_description)
      (plogged INFO (fstr ["Embedding dimension: "; str_of_nat (List.length first)]) p).
Proof.
  intro Hencode. unfold _setup_enhanced_collection. unfold pbind at 1. rewrite Hencode.
  unfold pbind at 1. cbn [first_length]. unfold pret at 1. unfold pbind at 1.
  rewrite plog_run. reflexivity.
Qed.

(** X13.  When the collection exists, [_setup_enhanced_collection] opens
    it and loads it, and does nothing else to Milvus: it creates nothing,
    drops nothing and builds no index, and it does not sleep.  It returns
    when the collection was opened and loaded, and otherwise logs the
    exception as an error and raises it. *)
Theorem existing_collection_is_reused (p : Process) (first : list Q)
    (others : list (list Q)) :
  encode_default ["test"] = Ok (first :: others) ->
  pymilvus (calls p) (has_collection collection_name) = Ok true ->
  let run := _setup_enhanced_collection p in
  let opened := [has_collection collection_name; Collection collection_name None] in
  exists tail entries,
    calls (snd run) = calls p ++ opened ++ tail
    /\ slept (snd run) = slept p
    /\ printed (snd run) = printed p
    /\ log (world (snd run)) = log (world p) ++ entries
    /\ match pymilvus (calls p ++ [has_collection collection_name])
                      (Collection collection_name None) with
       | Raise e =>
           tail = [] /\ fst run = Raise e /\ In (ERROR, setup_failed_message e) entries
       | Ok _ =>
           tail = [load]
           /\ match pymilvus (calls p ++ opened) load with
              | Ok _ =>
                  fst run = Ok tt
                  /\ last entries (INFO, "") = (INFO, "Using existing collection")
              | Raise e =>
                  fst run = Raise e /\ In (ERROR, setup_failed_message e) entries
              end
       end.
Proof.
  intros Hencode Hhas. cbv zeta. rewrite (setup_prelude p first others Hencode).
  unfold setup_collection.
  unfold ptry, pbind, call, plog, lift_world, pret, plogged, logged, logger.
  cbn [fst snd world calls slept printed log requested drawn encoded inserted flushes].
  rewrite Hhas.
  cbn [fst snd world calls slept printed log requested drawn encoded inserted flushes].
  destruct (pymilvus (calls p ++ [has_collection collection_name])
                     (Collection collection_name None)) as [b | e].
  - cbn [fst snd world calls slept printed log requested drawn encoded inserted flushes].
    rewrite <- ?app_assoc. cbn [app].
    destruct (pymilvus (calls p ++ [has_collection collection_name;
                                    Collection collection_name None]) load) as [b' | e].
    + cbn [fst snd world calls slept printed log requested drawn encoded inserted flushes].
      rewrite <- ?app_assoc. cbn [app]. exists [load]. eexists.
      do 4 (split; [reflexivity|]). split; [reflexivity|]. split; reflexivity.
    + match goal with |- context [setup_handler e ?p3] =>
        destruct (setup_handler_run e p3) as (p' & guidance & Heq & Hext); rewrite Heq
      end.
      destruct Hext as (Hc & Hl & Hs & Hp & _). cbn [fst snd].
      cbn [fst snd world calls slept printed log requested drawn encoded inserted flushes]
        in Hc, Hl, Hs, Hp.
      rewrite Hc, Hl, Hs, Hp, ?app_nil_r, <- ?app_assoc. cbn [app].
      exists [load]. eexists.
      do 4 (split; [reflexivity|]). split; [reflexivity|]. split; [reflexivity|].
      right. right. left. reflexivity.
  - match goal with |- context [setup_handler e ?p3] =>
      destruct (setup_handler_run e p3) as (p' & guidance & Heq & Hext); rewrite Heq
    end.
    destruct Hext as (Hc & Hl & Hs & Hp & _). cbn [fst snd].
    cbn [fst snd world calls slept printed log requested drawn encoded inserted flushes]
      in Hc, Hl, Hs, Hp.
    rewrite Hc, Hl, Hs, Hp, ?app_nil_r, <- ?app_assoc. cbn [app].
    exists []. eexists.
    do 4 (split; [reflexivity|]). split; [reflexivity|]. split; [reflexivity|].
    right. right. left. reflexivity.
Qed.

Lemma new_collection_run (schema : list FieldSchema * string) (p : Process) :
  pymilvus (calls p) (has_collection collection_name) = Ok false ->
  let run := setup_collection schema p in
  exists attempts loop_calls rest entries,
    calls (snd run) = calls p ++ has_collection collection_name :: loop_calls ++ rest
    /\ (1 <= attempts /\ attempts <= 3)
    /\ List.length (filter is_creation loop_calls) = attempts
    /\ List.length (filter is_drop loop_calls) <= attempts - 1
    /\ Forall (fun c => c = Collection collection_name (Some schema)
                        \/ c = has_collection collection_name
                        \/ c = drop_collection collection_name) loop_calls
    /\ slept (snd run) = slept p ++ repeat 3%Z (attempts - 1)
    /\ printed (snd run) = printed p
    /\ log (world (snd run)) = log (world p) ++ entries
    /\ (forall b,
          pymilvus (calls p ++ [has_collection collection_name])
                   (Collection collection_name (Some schema)) = Ok b ->
          loop_calls = [Collection collection_name (Some schema)])
    /\ ((exists e, fst run = Raise e /\ attempts = 3 /\ rest = []
                   /\ In (ERROR, setup_failed_message e) entries)
        \/ (exists index_calls,
              rest = index_calls ++ [load]
              /\ match pymilvus (calls p ++ has_collection collection_name :: loop_calls)
                                embedding_index with
                 | Ok _ => index_calls = embedding_index :: scalar_index_calls
                 | Raise _ => index_calls = [embedding_index]
                 end
              /\ match pymilvus (calls p ++ has_collection collection_name
                                           :: loop_calls ++ index_calls) load with
                 | Ok _ => fst run = Ok tt
                           /\ last entries (INFO, "") = (INFO, ready_message)
                           /\ Forall (fun entry => is_error entry = false) entries
                 | Raise e => fst run = Raise e
                              /\ In (ERROR, setup_failed_message e) entries
                 end)).
Proof.
  intro Hhas. cbv zeta.
  destruct (setup_collection schema p) as [r pf] eqn:Hrun. cbn [fst snd].
  unfold setup_collection in Hrun. unfold ptry at 1, pbind at 1, call at 1 in Hrun.
  rewrite Hhas in Hrun. unfold pbind at 1 in Hrun.
  match type of Hrun with context [create_loop schema _ ?p1] =>
    destruct (create_loop_run schema max_create_retries 0 p1 eq_refl) as
      (attempts & loop_calls & entries & Hle & Hpos & Hc & Hcount & Hdrops & Hall & Hs & Hp
       & _ & _ & Hlog & Hquiet & Hend & Hfirst);
    cbv zeta in Hc, Hs, Hp, Hlog, Hend;
    cbn [calls] in Hfirst;
    destruct (create_loop schema (seq 0 max_create_retries) p1) as [[[] | e] p2]
  end.
  all: cbn [fst snd world calls slept printed log requested drawn encoded inserted flushes]
         in Hc, Hs, Hp, Hlog, Hend.
  all: unfold max_create_retries in Hle, Hpos, Hend.
  all: assert (Hbounds : 1 <= attempts /\ attempts <= 3) by lia.
  all: assert (Hfirst' : forall b,
                 pymilvus (calls p ++ [has_collection collection_name])
                          (Collection collection_name (Some schema)) = Ok b ->
                 loop_calls = [Collection collection_name (Some schema)])
         by (intros b0 Hb0; apply (Hfirst b0); [unfold max_create_retries; lia | exact Hb0]).
  - unfold pbind at 1 in Hrun.
    destruct (create_indexes_run p2) as (p3 & index_calls & entries3 & Hidx & Hext & Hquiet3
                                         & Hwhich).
    rewrite Hidx in Hrun. destruct Hext as (Hc3 & Hl3 & Hs3 & Hp3 & _).
    unfold pbind at 1, call at 1 in Hrun.
    rewrite Hc, <- app_assoc in Hwhich. cbn [app] in Hwhich.
    assert (Hhistory : calls p3 = calls p ++ has_collection collection_name
                                          :: loop_calls ++ index_calls)
      by (rewrite Hc3, Hc, <- !app_assoc; reflexivity).
    rewrite Hhistory in Hrun.
    destruct (pymilvus (calls p ++ has_collection collection_name
                                :: loop_calls ++ index_calls) load) as [b | e] eqn:Hload.
    + rewrite plog_run in Hrun. inversion Hrun; subst r pf. clear Hrun.
      cbn [fst snd world calls slept printed log requested drawn encoded inserted flushes
           plogged logged logger].
      exists attempts, loop_calls, (index_calls ++ [load]),
             (entries ++ entries3 ++ [(INFO, ready_message)]).
      split; [rewrite ?Hhistory; list_eq|].
      split; [exact Hbounds|]. split; [exact Hcount|]. split; [exact Hdrops|].
      split; [exact Hall|]. split; [congruence|]. split; [congruence|].
      split; [rewrite Hl3, Hlog; list_eq|]. split; [exact Hfirst'|].
      right. exists index_calls. split; [reflexivity|]. split; [exact Hwhich|].
      rewrite Hload. split; [reflexivity|].
      split; [rewrite app_assoc; apply last_last|].
      apply Forall_app. split; [exact Hquiet|]. apply Forall_app. split; [exact Hquiet3|].
      repeat constructor.
    + match type of Hrun with setup_handler e ?p4 = _ =>
        destruct (setup_handler_run e p4) as (p' & guidance & Heq & Hext4)
      end.
      rewrite Heq in Hrun. inversion Hrun; subst r pf. clear Hrun Heq.
      destruct Hext4 as (Hc4 & Hl4 & Hs4 & Hp4 & _).
      cbn [fst snd world calls slept printed log requested drawn encoded inserted flushes]
        in Hc4, Hl4, Hs4, Hp4.
      exists attempts, loop_calls, (index_calls ++ [load]),
             (entries ++ entries3 ++ (ERROR, setup_failed_message e) :: guidance).
      split; [rewrite Hc4, app_nil_r; cbn [calls]; rewrite ?Hhistory; list_eq|].
      split; [exact Hbounds|]. split; [exact Hcount|]. split; [exact Hdrops|].
      split; [exact Hall|]. split; [congruence|]. split; [congruence|].
      split; [rewrite Hl4; cbn [world log]; rewrite Hl3, Hlog; list_eq|].
      split; [exact Hfirst'|].
      right. exists index_calls. split; [reflexivity|]. split; [exact Hwhich|].
      rewrite Hload. split; [reflexivity|].
      apply in_or_app. right. apply in_or_app. right. left. reflexivity.
  - destruct (setup_handler_run e p2) as (p' & guidance & Heq & Hext4).
    rewrite Heq in Hrun. inversion Hrun; subst r pf. clear Hrun Heq.
    destruct Hext4 as (Hc4 & Hl4 & Hs4 & Hp4 & _).
    assert (Hthree : attempts = 3).
    { destruct Hend as [Hok | (e' & _ & Hattempts)]; [lia | discriminate | exact Hattempts]. }
    exists attempts, loop_calls, [], (entries ++ (ERROR, setup_failed_message e) :: guidance).
    split; [rewrite Hc4, !app_nil_r, Hc; list_eq|].
    split; [exact Hbounds|]. split; [exact Hcount|]. split; [exact Hdrops|].
    split; [exact Hall|]. split; [congruence|]. split; [congruence|].
    split; [rewrite Hl4, Hlog; list_eq|]. split; [exact Hfirst'|].
    left. exists e. split; [reflexivity|]. split; [exact Hthree|]. split; [reflexivity|].
    apply in_or_app. right. left. reflexivity.
Qed.

(** X14.  When the collection does not exist, [_setup_enhanced_collection]
    tries to create it at most three times, each time with the schema whose
    vector field has the dimension of the sample embedding, and sleeps 3
    seconds after each failed attempt but the last; it drops a collection at
    most once per failed attempt.  When the third attempt fails it logs the
    exception as an error and raises it, and neither builds an index nor
    loads; otherwise the indexes and the load follow the creation. *)
Theorem creation_is_tried_at_most_three_times (p : Process) (first : list Q)
    (others : list (list Q)) :
  encode_default ["test"] = Ok (first :: others) ->
  pymilvus (calls p) (has_collection collection_name) = Ok false ->
  let run := _setup_enhanced_collection p in
  let schema := (fields (List.length first), schema_description) in
  exists attempts loop_calls rest entries,
    calls (snd run) = calls p ++ has_collection collection_name :: loop_calls ++ rest
    /\ (1 <= attempts /\ attempts <= 3)
    /\ List.length (filter is_creation loop_calls) = attempts
    /\ List.length (filter is_drop loop_calls) <= attempts - 1
    /\ Forall (fun c => c = Collection collection_name (Some schema)
                        \/ c = has_collection collection_name
                        \/ c = drop_collection collection_name) loop_calls
    /\ slept (snd run) = slept p ++ repeat 3%Z (attempts - 1)
    /\ log (world (snd run)) = log (world p) ++ entries
    /\ ((exists e, fst run = Raise e /\ attempts = 3 /\ rest = []
                   /\ In (ERROR, setup_failed_message e) entries)
        \/ (exists index_calls,
              rest = index_calls ++ [load]
              /\ Forall (fun c => is_index c = true) index_calls)).
Proof.
  intros Hencode Hhas. cbv zeta. rewrite (setup_prelude p first others Hencode).
  match goal with |- context [setup_collection ?schema ?p0] =>
    destruct (new_collection_run schema p0 Hhas) as
      (attempts & loop_calls & rest & entries & Hc & Hbounds & Hcount & Hdrops & Hall & Hs
       & _ & Hlog & _ & Hend)
  end.
  cbv zeta in Hc, Hs, Hlog, Hend.
  cbn [plogged logged logger world calls slept log snd] in Hc, Hs, Hlog, Hend.
  exists attempts, loop_calls, rest. eexists.
  split; [exact Hc|]. split; [exact Hbounds|]. split; [exact Hcount|].
  split; [exact Hdrops|]. split; [exact Hall|]. split; [exact Hs|].
  split; [rewrite Hlog, <- app_assoc; reflexivity|].
  destruct Hend as [(e & Hrun & Hthree & Hrest & Hin) | (index_calls & Hrest & Hwhich & _)].
  - left. exists e. split; [exact Hrun|]. split; [exact Hthree|]. split; [exact Hrest|].
    right. exact Hin.
  - right. exists index_calls. split; [exact Hrest|].
    destruct (pymilvus _ embedding_index); subst index_calls; repeat constructor.
Qed.

(** X15.  A failure to build an index never fails the setup.  When the
    collection is created at the first attempt, the vector index is asked
    for, then the five scalar indexes, unless the vector index failed, in
    which case none of them is asked for; then the collection is loaded,
    and the setup returns or raises as the load does.  Nothing is slept or
    dropped, and no error is logged when the load succeeds. *)
Theorem index_failures_are_passed_over (p : Process) (first : list Q)
    (others : list (list Q)) (created : bool) :
  let schema := (fields (List.length first), schema_description) in
  let creation := [has_collection collection_name;
                   Collection collection_name (Some schema)] in
  encode_default ["test"] = Ok (first :: others) ->
  pymilvus (calls p) (has_collection collection_name) = Ok false ->
  pymilvus (calls p ++ [has_collection collection_name])
           (Collection collection_name (Some schema)) = Ok created ->
  let run := _setup_enhanced_collection p in
  exists index_calls entries,
    calls (snd run) = calls p ++ creation ++ index_calls ++ [load]
    /\ slept (snd run) = slept p
    /\ log (world (snd run)) = log (world p) ++ entries
    /\ match pymilvus (calls p ++ creation) embedding_index with
       | Ok _ => index_calls = embedding_index :: scalar_index_calls
       | Raise _ => index_calls = [embedding_index]
       end
    /\ match pymilvus (calls p ++ creation ++ index_calls) load with
       | Ok _ => fst run = Ok tt
                 /\ last entries (INFO, "") = (INFO, ready_message)
                 /\ Forall (fun entry => is_error entry = false) entries
       | Raise e => fst run = Raise e /\ In (ERROR, setup_failed_message e) entries
       end.
Proof.
  cbv zeta. intros Hencode Hhas Hcreated. rewrite (setup_prelude p first others Hencode).
  match goal with |- context [setup_collection ?schema ?p0] =>
    destruct (new_collection_run schema p0 Hhas) as
      (attempts & loop_calls & rest & entries & Hc & Hbounds & Hcount & _ & _ & Hs
       & _ & Hlog & Hfirst & Hend)
  end.
  cbv zeta in Hc, Hs, Hlog, Hend, Hfirst.
  cbn [plogged logged logger world calls slept log snd] in Hc, Hs, Hlog, Hend, Hfirst.
  specialize (Hfirst created Hcreated). subst loop_calls.
  cbn [filter is_creation List.length] in Hcount. subst attempts.
  cbn [Nat.sub repeat] in Hs. rewrite app_nil_r in Hs.
  destruct Hend as [(e & _ & Hthree & _) | (index_calls & Hrest & Hwhich & Hload)];
    [discriminate|].
  subst rest. cbn [app] in Hc, Hwhich, Hload.
  exists index_calls. eexists.
  split; [rewrite Hc; reflexivity|]. split; [exact Hs|].
  split; [rewrite Hlog, <- app_assoc; reflexivity|].
  split; [exact Hwhich|].
  cbn [app].
  destruct (pymilvus (calls p ++ has_collection collection_name
                              :: Collection collection_name
                                   (Some (fields (List.length first), schema_description))
                              :: index_calls) load) as [b | e].
  - destruct Hload as (Hrun & Hlast & Hquiet). split; [exact Hrun|]. split.
    + destruct entries as [|entry entries']; [discriminate Hlast|]. exact Hlast.
    + constructor; [reflexivity | exact Hquiet].
  - destruct Hload as (Hrun & Hin). split; [exact Hrun|]. right. exact Hin.
Qed.

(** *** The lists stored as JSON *)

Lemma take_drop (n : nat) (s : string) : (take n s ++ drop n s = s)%string.
Proof.
  revert s; induction n as [|n IH]; intros [|c t]; cbn; try reflexivity.
  now rewrite IH.
Qed.

Lemma take_all (n : nat) (s : string) : len s <= n -> take n s = s.
Proof.
  unfold len. revert s; induction n as [|n IH]; intros [|c t]; cbn; intro Hlen;
    try reflexivity.
  - lia.
  - rewrite IH; [reflexivity | lia].
Qed.

Lemma drop_some (n : nat) (s : string) : n < len s -> drop n s <> "".
Proof.
  intros Hlen Hnil. pose proof (len_drop n s) as Hdrop. rewrite Hnil in Hdrop.
  unfold len in *. cbn [String.length] in Hdrop. lia.
Qed.

(** The reader accepts no text of which it accepts a longer one. *)
Lemma json_run_prefix (s1 s2 : string) (st : json_state) (done r : list string) :
  s2 <> "" ->
  json_run st done (s1 ++ s2) = Some r ->
  json_run st done s1 = None.
Proof.
  intro Hsome. revert st done.
  induction s1 as [|c t IH]; intros st done Hrun.
  - destruct s2 as [|c2 t2]; [now elim Hsome|].
    destruct st; try reflexivity. discriminate Hrun.
  - cbn [String.append] in Hrun. cbn [json_run] in Hrun |- *.
    destruct st.
    all: repeat match type of Hrun with
                | (if ?b then _ else _) = _ => destruct b
                | match ?o with Some _ => _ | None => _ end = _ => destruct o
                | match ?l with [] => _ | _ :: _ => _ end = _ => destruct l
                | match ?n with 0 => _ | S _ => _ end = _ => destruct n
                end.
    all: try discriminate Hrun.
    all: apply IH; exact Hrun.
Qed.

(** X19.  A list written with [json.dumps] and cut to the length of its
    field can be read back exactly when nothing was cut: when the text is
    longer than the field, what is stored is not a JSON text.  So each of
    the seven list columns of a stored record reads back as the whole list
    it was written from, or does not read at all. *)
Theorem cut_lists_cannot_be_read_back (file_info : FileInfo.t)
    (repo_owner repo_name branch : string)
    (image_links attachment_links external_links : list string)
    (content_analysis : Analysis.t) (i : nat) (chunk id created_at : string)
    (batch_embeddings : list (list Q)) :
  let record := chunk_metadata file_info repo_owner repo_name branch image_links
                               attachment_links external_links content_analysis i chunk id
                               created_at in
  let data := insert_data [record] batch_embeddings in
  let stored (L : nat) (xs column : list string) :=
    map json_loads column = [if len (json_dumps xs) <=? L then Some xs else None] in
  stored 5000 (chunk_images image_links chunk) (Columns.image_links data)
  /\ stored 5000 (chunk_attachments attachment_links chunk) (Columns.attachment_links data)
  /\ stored 3000 (firstn 10 external_links) (Columns.external_links data)
  /\ stored 2000 (Analysis.function_names content_analysis) (Columns.function_names data)
  /\ stored 1000 (Analysis.class_names content_analysis) (Columns.class_names data)
  /\ stored 2000 (Analysis.import_statements content_analysis)
            (Columns.import_statements data)
  /\ stored 2000 (Analysis.keywords content_analysis) (Columns.keywords data).
Proof.
  assert (Hcut : forall (L : nat) (xs : list string),
             json_loads (take L (json_dumps xs))
             = if len (json_dumps xs) <=? L then Some xs else None).
  { intros L xs. destruct (Nat.leb_spec (len (json_dumps xs)) L) as [Hfits | Hcut].
    - rewrite take_all by exact Hfits. apply json_loads_dumps.
    - unfold json_loads.
      apply (json_run_prefix _ (drop L (json_dumps xs)) _ _ xs (drop_some _ _ Hcut)).
      rewrite take_drop. apply json_loads_dumps. }
  cbv zeta. cbn [insert_data map chunk_metadata Columns.image_links Columns.attachment_links
                 Columns.external_links Columns.function_names Columns.class_names
                 Columns.import_statements Columns.keywords
                 Chunk.image_links Chunk.attachment_links Chunk.external_links
                 Chunk.function_names Chunk.class_names Chunk.import_statements
                 Chunk.keywords].
  unfold slice_to.
  change (N.to_nat 5000) with 5000. change (N.to_nat 3000) with 3000.
  change (N.to_nat 2000) with 2000. change (N.to_nat 1000) with 1000.
  rewrite !Hcut. repeat split.
Qed.

(** *** The images of a chunk *)

Lemma split_some (sep : ascii) (s : string) : split sep s <> [].
Proof.
  destruct s as [|c t]; cbn [split]; [discriminate|].
  destruct (Ascii.eqb c sep); [discriminate|].
  destruct (split sep t); discriminate.
Qed.

Lemma split_append (sep : ascii) (a b : string) :
  split sep (a ++ String sep b) = split sep a ++ split sep b.
Proof.
  induction a as [|c a IH]; cbn [String.append split].
  - rewrite Ascii.eqb_refl. reflexivity.
  - destruct (Ascii.eqb c sep); [rewrite IH; reflexivity|].
    rewrite IH. pose proof (split_some sep a) as Hsome.
    destruct (split sep a) as [|w ws]; [now elim Hsome | reflexivity].
Qed.

Lemma split_without_separator (sep : ascii) (s : string) :
  contains (String sep "") s = false -> split sep s = [s].
Proof.
  induction s as [|c t IH]; cbn [contains split String.prefix]; [reflexivity|].
  destruct (Ascii.eqb_spec c sep) as [-> | Hother].
  - destruct (ascii_dec sep sep) as [_ | Hneq]; [|now elim Hneq].
    destruct t; discriminate.
  - destruct (ascii_dec sep c) as [Heq | _]; [now elim Hother|].
    cbn [orb]. intro Hrest. rewrite (IH Hrest). reflexivity.
Qed.

(** X21.  An image of the file is attached to every chunk in which the
    extension of its name occurs, without the dot and whatever the case: a
    chunk that holds the letters of the extension anywhere gets the image,
    also when it does not name it. *)
Theorem image_is_attached_where_its_extension_occurs (image_links : list string)
    (chunk img_link stem extension : string) :
  In img_link image_links ->
  lower (path_name img_link) = (stem ++ String "." extension)%string ->
  contains "." extension = false ->
  contains extension (lower chunk) = true ->
  In img_link (chunk_images image_links chunk).
Proof.
  intros Hin Hname Hplain Hoccurs. unfold chunk_images. apply filter_In.
  split; [exact Hin|]. cbv zeta. apply orb_true_iff. right.
  apply existsb_exists. exists extension. split; [|exact Hoccurs].
  rewrite Hname, split_append, (split_without_separator _ _ Hplain).
  apply in_or_app. right. left. reflexivity.
Qed.

(** *** The content of a file *)


(** *** The failures of the ingestion *)

(** X20.  A URL that does not parse is refused at once: [ingest_repository]
    raises [ValueError] with the URL, having requested nothing and logged
    no error.  Past the parsing, whatever [ingest_repository] raises it has
    logged as an error before, as its last entry.  With no worker to run,
    once the tree is resolved, it raises [ValueError] without a request for
    any file, and nothing is embedded or stored. *)
Theorem ingestion_failures (repo_url branch : string) (max_workers : Z) (w : World) :
  let run := ingest_repository repo_url branch max_workers w in
  let refusal := ValueError (fstr ["Invalid GitHub repository URL: "; repo_url]) in
  let no_worker := ValueError "max_workers must be greater than 0" in
  let failure e := (ERROR, fstr ["Error during repository ingestion: "; exn_str e]) in
  match parsed_repo repo_url with
  | None =>
      fst run = Raise refusal
      /\ log (snd run) = log w ++ [(INFO, starting_message repo_url)]
      /\ requested (snd run) = requested w
      /\ same_store w (snd run)
  | Some (repo_owner, repo_name) =>
      (forall e, fst run = Raise e -> last (log (snd run)) (INFO, "") = failure e)
      /\ (forall files w1,
            fetch_repository_tree repo_owner repo_name branch (at_tree_stage repo_url w)
            = (Ok files, w1) ->
            (max_workers <= 0)%Z ->
            fst run = Raise no_worker
            /\ requested (snd run) = requested w1
            /\ same_store w (snd run))
  end.
Proof.
  cbv zeta. destruct (parsed_repo repo_url) as [[repo_owner repo_name]|] eqn:Hparse.
  - rewrite (ingest_repository_run repo_url branch max_workers w _ _ Hparse).
    unfold try_except. split.
    + intros e.
      destruct (ingest_stages _ _ _ _ _) as [[result | e'] w1]; [discriminate|].
      unfold bind, logger_error, logger, raise. cbn [fst snd log].
      intro He. injection He as <-. apply last_last.
    + intros files w1 Htree Hworkers. unfold ingest_stages.
      erewrite bind_ok by apply logger_info_run.
      erewrite bind_ok by exact Htree.
      erewrite bind_ok by apply logger_info_run.
      erewrite bind_ok by apply logger_info_run.
      unfold bind at 1. unfold process_files.
      destruct (Z.leb_spec max_workers 0) as [_ | Hpos]; [|lia].
      unfold raise at 1. unfold bind, logger_error, logged, logger, raise.
      cbn [fst snd log requested encoded inserted flushes].
      split; [reflexivity|]. split; [reflexivity|].
      pose proof (keeps_store_fetch_repository_tree_rec recursion_limit repo_owner repo_name
                    branch (at_tree_stage repo_url w)) as Hkeeps.
      fold fetch_repository_tree in Hkeeps. rewrite Htree in Hkeeps.
      unfold same_store, at_tree_stage, logged, logger in *.
      cbn [fst snd log requested encoded inserted flushes] in *. exact Hkeeps.
  - unfold parsed_repo in Hparse. unfold ingest_repository.
    erewrite bind_ok by apply logger_info_run.
    destruct (Re.match_ Re.no_flags repo_url_pattern (rstrip_char "/" repo_url));
      [discriminate|].
    unfold raise, logged, logger, same_store.
    cbn [fst snd log requested encoded inserted flushes]. repeat split.
Qed.

(** *** The constructor and [main] *)
























End GitHubDirectIngester.

(** ** The properties on the small GitHub *)

Lemma sample_list_set_spec :
  forall xs, NoDup (Sample.list_set xs) /\ same_elements (Sample.list_set xs) xs.
Proof.
  intro xs. unfold Sample.list_set. split.
  - apply NoDup_nodup.
  - intro x. apply nodup_In.
Qed.

Abbreviation sample_process_file :=
  (process_file Sample.list_set Sample.urljoin Sample.requests_get Sample.decode_utf8
                Sample.CodeChunker Sample.os_urandom Sample.datetime_now_isoformat
                Sample.model_name).

Abbreviation sample_process_files :=
  (process_files Sample.list_set Sample.urljoin Sample.requests_get Sample.decode_utf8
                 Sample.CodeChunker Sample.os_urandom Sample.datetime_now_isoformat
                 Sample.as_completed Sample.model_name).

Abbreviation sample_ingest_repository :=
  (ingest_repository Sample.list_set Sample.urljoin Sample.requests_get Sample.decode_utf8
                     Sample.CodeChunker Sample.os_urandom Sample.datetime_now_isoformat
                     Sample.encode Sample.collection_insert Sample.collection_flush
                     Sample.as_completed Sample.model_name).

Abbreviation sample_extract := (extract_images_and_links Sample.list_set Sample.urljoin).

Abbreviation sample_store_chunks_batch :=
  (store_chunks_batch Sample.collection_insert Sample.collection_flush).

Abbreviation docs_base_url := (base_url_of "beagle" "docs" "main").

(** C8 on [blink.py]. *)
Lemma code_elements_of_blink :
  let elements := _extract_code_elements Sample.list_set Sample.blink "python" in
  (NoDup (functions elements) /\ List.length (functions elements) <= 20) /\
  (NoDup (classes elements) /\ List.length (classes elements) <= 20) /\
  (NoDup (imports elements) /\ List.length (imports elements) <= 20) /\
  ("python" <> "python" -> "python" <> "javascript" -> "python" <> "java" ->
   functions elements = [] /\ classes elements = [] /\ imports elements = []).
Proof.
  exact (extract_code_elements_deduplicated_and_capped
           Sample.list_set sample_list_set_spec Sample.blink "python").
Defined.

(** C8 on a language without patterns. *)
Example code_elements_of_rust :
  _extract_code_elements Sample.list_set Sample.blink "rust"
  = {| functions := []; classes := []; imports := [] |}.
Proof. reflexivity. Qed.

(** C7 on two texts with the same links in another order and number. *)
Lemma same_links_in_another_order :
  let result1 := sample_extract Sample.links_once docs_base_url in
  let result2 := sample_extract Sample.links_twice docs_base_url in
  same_elements (fst (fst result1)) (fst (fst result2)) /\
  same_elements (snd (fst result1)) (snd (fst result2)) /\
  same_elements (snd result1) (snd result2).
Proof.
  apply (proj2 (extract_images_and_links_as_sets
                  Sample.list_set Sample.urljoin sample_list_set_spec)
               Sample.links_once Sample.links_twice docs_base_url).
  - intro x. vm_compute. tauto.
  - intro x. vm_compute. tauto.
  - intro x. vm_compute. tauto.
Defined.

(** C2 (amended) on [src/blink.py]: one record, for the chunk at position 1. *)
Lemma chunk_index_of_blink :
  let run := sample_process_file (Sample.docs_file "src/blink.py") "beagle" "docs" "main"
                                 empty_world in
  let recs := returned [] run in
  exists chunks,
    (recs <> [] ->
     exists text,
       fetched Sample.requests_get Sample.decode_utf8 (Sample.docs_file "src/blink.py")
       = Some text
       /\ chunked Sample.CodeChunker text (Sample.docs_file "src/blink.py") = Ok chunks)
    /\ map (fun r => (Chunk.chunk_index r, Chunk.document r)) recs = kept_chunks chunks
    /\ StronglySorted lt (map Chunk.chunk_index recs)
    /\ NoDup (map Chunk.chunk_index recs)
    /\ Forall (fun i => i < List.length chunks) (map Chunk.chunk_index recs)
    /\ (forallb kept chunks = true ->
        map Chunk.chunk_index recs = seq 0 (List.length recs)).
Proof.
  cbv zeta.
  apply (chunk_index_is_chunk_position
           Sample.list_set Sample.urljoin Sample.requests_get Sample.decode_utf8
           Sample.CodeChunker Sample.os_urandom Sample.datetime_now_isoformat
           Sample.model_name (Sample.docs_file "src/blink.py") "beagle" "docs" "main"
           empty_world
           (snd (sample_process_file (Sample.docs_file "src/blink.py") "beagle" "docs" "main"
                                     empty_world))).
  vm_compute. reflexivity.
Defined.

(** C2 as claimed fails on [README.md]: the heading and the blank line are
    chunks 0 and 1, too short for a record, and the one record has index 2,
    not 0. *)
Lemma chunk_index_gap :
  let run := sample_process_file (Sample.docs_file "README.md") "beagle" "docs" "main"
                                 empty_world in
  chunked Sample.CodeChunker Sample.readme (Sample.docs_file "README.md")
  = Ok (Sample.lines Sample.readme)
  /\ List.length (Sample.lines Sample.readme) = 3
  /\ map Chunk.chunk_index (returned [] run) = [2]
  /\ map Chunk.chunk_index (returned [] run) <> seq 0 (List.length (returned [] run)).
Proof.
  cbv zeta. split; [reflexivity|]. split; [reflexivity|].
  assert (H : map Chunk.chunk_index
                  (returned [] (sample_process_file (Sample.docs_file "README.md")
                                                    "beagle" "docs" "main" empty_world))
              = [2]) by (vm_compute; reflexivity).
  split; [exact H|]. rewrite H.
  assert (Hlen : List.length
                   (returned [] (sample_process_file (Sample.docs_file "README.md")
                                                     "beagle" "docs" "main" empty_world))
                 = 1) by (vm_compute; reflexivity).
  rewrite Hlen. discriminate.
Qed.

(** C3 (amended) on [notes.txt] (40 characters) and [src/blink.py]. *)
Lemma thresholds_on_notes_and_blink :
  (exists w' entries,
     sample_process_file (Sample.docs_file "notes.txt") "beagle" "docs" "main" empty_world
     = (Ok [], w')
     /\ log w' = log empty_world
                 ++ (INFO, processing_message (Sample.docs_file "notes.txt")) :: entries
                 ++ [(WARNING, skip_message (Sample.docs_file "notes.txt"))])
  /\ (exists recs w',
        sample_process_file (Sample.docs_file "src/blink.py") "beagle" "docs" "main"
                            empty_world
        = (Ok recs, w')
        /\ map Chunk.document recs = filter kept (Sample.lines Sample.blink)
        /\ log w' = log empty_world
                    ++ [(INFO, processing_message (Sample.docs_file "src/blink.py"));
                        (INFO, created_message (List.length recs)
                                               (Sample.docs_file "src/blink.py"))]).
Proof.
  split.
  - apply (proj1 (proj2 (proj2
             (process_file_length_thresholds
                Sample.list_set Sample.urljoin Sample.requests_get Sample.decode_utf8
                Sample.CodeChunker Sample.os_urandom Sample.datetime_now_isoformat
                Sample.model_name (Sample.docs_file "notes.txt") "beagle" "docs" "main"
                empty_world)))).
    vm_compute. reflexivity.
  - apply (proj2 (proj2 (proj2 (proj2
             (process_file_length_thresholds
                Sample.list_set Sample.urljoin Sample.requests_get Sample.decode_utf8
                Sample.CodeChunker Sample.os_urandom Sample.datetime_now_isoformat
                Sample.model_name (Sample.docs_file "src/blink.py") "beagle" "docs" "main"
                empty_world))))
            Sample.blink (Sample.lines Sample.blink)).
    + vm_compute. reflexivity.
    + vm_compute. lia.
    + reflexivity.
Defined.

(** C3 as claimed fails on [notes.txt]: its 40 trimmed characters are at
    least 30, and its one chunk has 40 as well, yet the file is skipped. *)
Lemma forty_characters_are_skipped :
  let file_info := Sample.docs_file "notes.txt" in
  let run := sample_process_file file_info "beagle" "docs" "main" empty_world in
  fetched Sample.requests_get Sample.decode_utf8 file_info = Some Sample.notes
  /\ len (strip Sample.notes) = 40
  /\ chunked Sample.CodeChunker Sample.notes file_info = Ok [Sample.notes]
  /\ fst run = Ok []
  /\ log (snd run) = [(INFO, processing_message file_info); (WARNING, skip_message file_info)].
Proof. cbv zeta. repeat split; vm_compute; reflexivity. Qed.

(** C10 on [README.md]: two images scoped to the one record. *)
Lemma image_flags_of_readme :
  let file_info := Sample.docs_file "README.md" in
  let run := sample_process_file file_info "beagle" "docs" "main" empty_world in
  let recs := returned [] run in
  exists image_links external_links,
    (recs <> [] ->
     exists text,
       fetched Sample.requests_get Sample.decode_utf8 file_info = Some text
       /\ image_links = fst (fst (sample_extract text docs_base_url))
       /\ external_links = snd (sample_extract text docs_base_url))
    /\ Forall (fun r =>
                 let scoped := chunk_images image_links (Chunk.document r) in
                 json_loads (Chunk.image_links r) = Some scoped
                 /\ Chunk.image_count r = List.length scoped
                 /\ (Chunk.has_images r = true <-> 0 < Chunk.image_count r)
                 /\ (Chunk.has_links r = true <-> external_links <> [])) recs.
Proof.
  cbv zeta.
  apply (image_count_and_link_flags
           Sample.list_set Sample.urljoin Sample.requests_get Sample.decode_utf8
           Sample.CodeChunker Sample.os_urandom Sample.datetime_now_isoformat
           Sample.model_name (Sample.docs_file "README.md") "beagle" "docs" "main"
           empty_world
           (snd (sample_process_file (Sample.docs_file "README.md") "beagle" "docs" "main"
                                     empty_world))).
  vm_compute. reflexivity.
Defined.

(** The record of [README.md]: two images, and links. *)
Example readme_record_counts :
  map (fun r => (Chunk.image_count r, Chunk.has_images r, Chunk.has_links r))
      (returned [] (sample_process_file (Sample.docs_file "README.md") "beagle" "docs" "main"
                                        empty_world))
  = [(2, true, true)].
Proof. vm_compute. reflexivity. Qed.

(** C4 (amended) on the two records of [beagle/docs]. *)
Lemma stored_columns_of_docs :
  let recs :=
    returned [] (sample_process_files
                   (returned [] (fetch_repository_tree Sample.requests_get "beagle" "docs"
                                                       "main" empty_world))
                   "beagle" "docs" "main" 8 empty_world) in
  exists batches,
    inserted (snd (sample_store_chunks_batch recs [[1%Q]; [1%Q]] 100 empty_world))
    = inserted empty_world ++ batches
    /\ Forall (fun data =>
         (forall name values,
            In (name, values) (varchar_columns data) -> name <> "id" ->
            within_declared_length 768 name values)
         /\ (exists batch_metadata,
               incl batch_metadata recs /\ Columns.id data = map Chunk.id batch_metadata)
         /\ (Forall (fun item => len (Chunk.id item) <= 100) recs ->
             within_declared_length 768 "id" (Columns.id data))) batches.
Proof.
  exact (stored_strings_within_declared_length
           Sample.collection_insert Sample.collection_flush _ [[1%Q]; [1%Q]] 100 768
           empty_world).
Defined.

(** C4 as claimed fails on a record whose identifier has 101 characters:
    the [id] column holds it uncut, above the 100 the schema declares. *)
Lemma long_identifier_is_stored_uncut :
  let w' := snd (sample_store_chunks_batch [Sample.odd_record] [[1%Q]] 100 empty_world) in
  declared_max_length 768 "id" = Some 100%N
  /\ map Columns.id (inserted w') = [[Sample.long_id]]
  /\ len Sample.long_id = 101
  /\ ~ within_declared_length 768 "id" [Sample.long_id].
Proof.
  cbv zeta. split; [reflexivity|]. split; [vm_compute; reflexivity|].
  split; [reflexivity|].
  intros (L & HL & Hall). inversion HL; subst L.
  inversion Hall as [|v vs Hlen _]; subst. vm_compute in Hlen. now apply Hlen.
Qed.

(** C9 on [beagle/stub], whose files are too short, and on [beagle/docs]. *)
Lemma stub_repository_reports_no_content :
  (exists w',
     sample_ingest_repository "https://github.com/beagle/stub" "main" 8 empty_world
     = (Ok (NoContent no_content_message), w')
     /\ success (NoContent no_content_message) = false
     /\ encoded w' = encoded empty_world /\ inserted w' = inserted empty_world
     /\ flushes w' = flushes empty_world)
  /\ (exists chunks_generated,
        1 <= chunks_generated
        /\ exists files_processed images with_images quality,
             fst (sample_ingest_repository "https://github.com/beagle/docs/" "main" 8
                                           empty_world)
             = Ok (Ingested files_processed chunks_generated images with_images quality)).
Proof.
  split.
  - destruct (no_chunks_is_reported_not_raised
                Sample.list_set Sample.urljoin Sample.requests_get Sample.decode_utf8
                Sample.CodeChunker Sample.os_urandom Sample.datetime_now_isoformat
                Sample.encode Sample.collection_insert Sample.collection_flush
                Sample.as_completed Sample.model_name
                "https://github.com/beagle/stub" "main" 8 empty_world "beagle" "stub"
                eq_refl) as [Hnone _].
    eapply Hnone.
    + vm_compute. reflexivity.
    + vm_compute. reflexivity.
  - destruct (no_chunks_is_reported_not_raised
                Sample.list_set Sample.urljoin Sample.requests_get Sample.decode_utf8
                Sample.CodeChunker Sample.os_urandom Sample.datetime_now_isoformat
                Sample.encode Sample.collection_insert Sample.collection_flush
                Sample.as_completed Sample.model_name
                "https://github.com/beagle/docs/" "main" 8 empty_world "beagle" "docs"
                eq_refl) as [_ Hsome].
    destruct (Hsome (returned (NoContent "")
                       (sample_ingest_repository "https://github.com/beagle/docs/" "main" 8
                                                 empty_world))
                    (snd (sample_ingest_repository "https://github.com/beagle/docs/" "main" 8
                                                   empty_world)))
      as (files & w1 & all & w2 & images & with_images & quality & _ & _ & Hlen & Hres).
    + vm_compute. reflexivity.
    + vm_compute. reflexivity.
    + exists (List.length all). split; [exact Hlen|].
      exists (List.length files), images, with_images, quality.
      rewrite <- Hres. vm_compute. reflexivity.
Defined.

(** C1 on [beagle/legacy], which has a [master] branch and no [main]. *)
Lemma legacy_repository_is_not_retried :
  exists w',
    fetch_repository_tree Sample.requests_get "beagle" "legacy" "main" empty_world
    = (Raise (HTTPError 404), w')
    /\ requested w' = requested empty_world
                      ++ [repo_api_url "beagle" "legacy"; tree_api_url "beagle" "legacy" "main"]
    /\ log w' = log empty_world ++ [(INFO, fetching_message "beagle" "legacy" "main")].
Proof.
  apply (missing_default_branch_is_not_retried
           Sample.requests_get "beagle" "legacy" empty_world Sample.repo_info Sample.not_found).
  - vm_compute. reflexivity.
  - reflexivity.
  - discriminate.
  - vm_compute. reflexivity.
  - reflexivity.
Defined.

(** The same repository, asked for [master]: its one file. *)
Example legacy_repository_on_master :
  map FileInfo.path
      (returned [] (fetch_repository_tree Sample.requests_get "beagle" "legacy" "master"
                                          empty_world))
  = ["README.md"].
Proof. vm_compute. reflexivity. Qed.

(** C6 with the set order and the [urljoin] of the small GitHub. *)
Lemma webp_and_zip_among_external_links :
  let readme := sample_extract Sample.readme "https://github.com/beagle/docs/blob/main/" in
  let download := sample_extract Sample.download "https://github.com/beagle/docs/blob/main/" in
  (In "https://beagleboard.org/static/logo.webp" (fst (fst readme))
   /\ In "https://beagleboard.org/static/logo.webp" (snd readme))
  /\ (In "https://files.beagle.cc/images/bone-debian.zip" (snd (fst download))
      /\ In "https://files.beagle.cc/images/bone-debian.zip" (snd download)).
Proof.
  exact (image_and_attachment_urls_among_external_links
           Sample.list_set Sample.urljoin sample_list_set_spec).
Defined.

(** X2 on a repository that does not exist. *)
Lemma missing_repository_is_looked_up_twice :
  exists w',
    fetch_repository_tree Sample.requests_get "beagle" "missing" "main" empty_world
    = (Raise (ValueError (fstr ["Repository "; "beagle"; "/"; "missing";
                                " not found or not accessible"])), w')
    /\ requested w' = requested empty_world
                      ++ [repo_api_url "beagle" "missing"; repo_api_url "beagle" "missing"]
    /\ log w' = log empty_world
                ++ [(INFO, fetching_message "beagle" "missing" "main");
                    (INFO, fallback_message);
                    (INFO, fetching_message "beagle" "missing" "master")].
Proof.
  apply (fallback_repeats_the_repository_lookup
           Sample.requests_get "beagle" "missing" empty_world Sample.not_found).
  - vm_compute. reflexivity.
  - reflexivity.
Defined.

(** X3 on [src/blink.py]. *)
Lemma identifiers_of_blink :
  Forall (fun r => len (Chunk.id r) = 36)
         (returned [] (sample_process_file (Sample.docs_file "src/blink.py") "beagle" "docs"
                                           "main" empty_world)).
Proof.
  apply (process_file_ids
           Sample.list_set Sample.urljoin Sample.requests_get Sample.decode_utf8
           Sample.CodeChunker Sample.os_urandom Sample.datetime_now_isoformat
           Sample.model_name (Sample.docs_file "src/blink.py") "beagle" "docs" "main"
           empty_world
           (snd (sample_process_file (Sample.docs_file "src/blink.py") "beagle" "docs" "main"
                                     empty_world))).
  vm_compute. reflexivity.
Defined.

(** X4 on a link of [README.md]. *)
Lemma boards_link_passes_the_filter :
  is_external "https://www.beagleboard.org/boards" = true.
Proof.
  apply (external_links_pass_the_filter
           Sample.list_set Sample.urljoin sample_list_set_spec Sample.readme docs_base_url).
  vm_compute. repeat first [left; reflexivity | right].
Defined.

(** X5 on [blink.py], with its extension and without. *)
Lemma language_of_blink :
  _detect_language Sample.blink ".py" = "python"
  /\ ((exists before entry after,
         language_patterns = before ++ entry :: after
         /\ _detect_language Sample.blink "" = fst entry
         /\ 2 <= signature_matches Sample.blink (snd entry)
         /\ Forall (fun earlier => signature_matches Sample.blink (snd earlier) < 2) before)
      \/ (_detect_language Sample.blink "" = "unknown"
          /\ Forall (fun entry => signature_matches Sample.blink (snd entry) < 2)
                    language_patterns)).
Proof.
  split.
  - exact (language_by_extension_then_by_signatures Sample.blink ".py").
  - exact (language_by_extension_then_by_signatures Sample.blink "").
Defined.

(** The language of [blink.py] by its signatures alone. *)
Example language_of_blink_by_signatures : _detect_language Sample.blink "" = "python".
Proof. vm_compute. reflexivity. Qed.

(** X7 on [beagle/docs], with a chunker that raises on Python. *)
Lemma blink_fails_and_the_others_go_on :
  let files := returned [] (fetch_repository_tree Sample.requests_get "beagle" "docs" "main"
                                                  empty_world) in
  exists recs w',
    process_files Sample.list_set Sample.urljoin Sample.requests_get Sample.decode_utf8
                  Sample.strict_chunker Sample.os_urandom Sample.datetime_now_isoformat
                  Sample.as_completed Sample.model_name files "beagle" "docs" "main" 8
                  empty_world
    = (Ok recs, w')
    /\ map (fun r => (Chunk.file_path r, Chunk.chunk_index r, Chunk.document r)) recs
       = flat_map (records_expected Sample.requests_get Sample.decode_utf8
                                    Sample.strict_chunker)
                  (Sample.as_completed files)
    /\ errors w'
       = errors empty_world
         ++ flat_map (error_expected Sample.requests_get Sample.decode_utf8
                                     Sample.strict_chunker)
                     (Sample.as_completed files).
Proof.
  cbv zeta.
  apply (file_failures_are_isolated
           Sample.list_set Sample.urljoin Sample.requests_get Sample.decode_utf8
           Sample.strict_chunker Sample.os_urandom Sample.datetime_now_isoformat
           Sample.as_completed Sample.model_name).
  lia.
Defined.

(** The same run: the record of [README.md], and the error of [blink.py]. *)
Example blink_error_and_readme_record :
  let files := returned [] (fetch_repository_tree Sample.requests_get "beagle" "docs" "main"
                                                  empty_world) in
  let run :=
    process_files Sample.list_set Sample.urljoin Sample.requests_get Sample.decode_utf8
                  Sample.strict_chunker Sample.os_urandom Sample.datetime_now_isoformat
                  Sample.as_completed Sample.model_name files "beagle" "docs" "main" 8
                  empty_world in
  map FileInfo.path files = ["README.md"; "notes.txt"; "src/blink.py"; "tiny.txt"]
  /\ map (fun r => (Chunk.file_path r, Chunk.chunk_index r)) (returned [] run)
     = [("README.md", 2)]
  /\ errors (snd run) = ["Error processing src/blink.py: no grammar for python"].
Proof. cbv zeta. repeat split; vm_compute; reflexivity. Qed.

(** X8 on the two records of [beagle/docs], one to a batch. *)
Lemma docs_records_are_stored_and_flushed :
  let recs :=
    returned [] (sample_process_files
                   (returned [] (fetch_repository_tree Sample.requests_get "beagle" "docs"
                                                       "main" empty_world))
                   "beagle" "docs" "main" 8 empty_world) in
  let batches := batches_to_store (Z.to_nat 1) recs [[1%Q]; [1%Q]] in
  let run := sample_store_chunks_batch recs [[1%Q]; [1%Q]] 1 empty_world in
  List.concat (map Columns.id batches) = map Chunk.id recs
  /\ exists written,
       inserted (snd run) = inserted empty_world ++ written
       /\ prefix_of written batches
       /\ flushes (snd run) <= flushes empty_world + List.length written
       /\ flushes empty_world + List.length written <= S (flushes (snd run))
       /\ (fst run = Ok tt ->
           written = batches
           /\ flushes (snd run) = flushes empty_world + List.length batches).
Proof.
  apply (every_stored_batch_is_flushed Sample.collection_insert Sample.collection_flush).
  lia.
Defined.

(** The same run: two insertions, two flushes. *)
Example docs_records_in_two_batches :
  let recs :=
    returned [] (sample_process_files
                   (returned [] (fetch_repository_tree Sample.requests_get "beagle" "docs"
                                                       "main" empty_world))
                   "beagle" "docs" "main" 8 empty_world) in
  let run := sample_store_chunks_batch recs [[1%Q]; [1%Q]] 1 empty_world in
  fst run = Ok tt
  /\ map (fun data => List.length (Columns.id data)) (inserted (snd run)) = [1; 1]
  /\ flushes (snd run) = 2.
Proof. cbv zeta. repeat split; vm_compute; reflexivity. Qed.

(** X9 on five texts in batches of two. *)
Lemma five_texts_in_batches_of_two :
  let chunks := ["one"; "two"; "three"; "four"; "five"] in
  let batches := batches_of (Z.to_nat 2) chunks in
  let run := generate_embeddings_batch Sample.encode chunks 2 empty_world in
  List.concat batches = chunks
  /\ Forall (fun batch => 1 <= List.length batch <= Z.to_nat 2) batches
  /\ (exists sent, encoded (snd run) = encoded empty_world ++ sent /\ prefix_of sent batches)
  /\ (forall vectors,
        fst run = Ok vectors ->
        encoded (snd run) = encoded empty_world ++ batches
        /\ exists per_batch,
             Forall2 (fun batch vs => Sample.encode batch = Ok vs) batches per_batch
             /\ vectors = List.concat per_batch).
Proof.
  apply (embeddings_are_generated_per_batch Sample.encode). lia.
Defined.

(** The same run: three calls of the model. *)
Example five_texts_are_sent_in_three_batches :
  encoded (snd (generate_embeddings_batch
                  Sample.encode ["one"; "two"; "three"; "four"; "five"] 2 empty_world))
  = [["one"; "two"]; ["three"; "four"]; ["five"]].
Proof. vm_compute. reflexivity. Qed.


(** X11 on [beagle/docs]. *)
Lemma docs_repository_goes_through_every_stage :
  let run := sample_ingest_repository "https://github.com/beagle/docs/" "main" 8 empty_world in
  let result := returned (NoContent "") run in
  exists files w1 all w2 embeddings,
    fetch_repository_tree Sample.requests_get "beagle" "docs" "main"
                          (at_tree_stage "https://github.com/beagle/docs/" empty_world)
    = (Ok files, w1)
    /\ sample_process_files files "beagle" "docs" "main" 8 (at_processing_stage files w1)
       = (Ok all, w2)
    /\ result = Ingested (List.length files) (List.length all)
                         (list_sum (map Chunk.image_count all))
                         (List.length (filter Chunk.has_images all))
                         (mean (map Chunk.content_quality_score all))
    /\ 1 <= List.length all
    /\ List.length (filter Chunk.has_images all) <= List.length all
    /\ ((0 <= mean (map Chunk.content_quality_score all))%Q
        /\ (mean (map Chunk.content_quality_score all) <= 1)%Q)
    /\ encoded (snd run) = encoded empty_world ++ batches_of 64 (map Chunk.document all)
    /\ inserted (snd run) = inserted empty_world ++ batches_to_store 100 all embeddings
    /\ flushes (snd run)
       = flushes empty_world + List.length (batches_to_store 100 all embeddings).
Proof.
  cbv zeta.
  apply (successful_ingestion_goes_through_every_stage
           Sample.list_set Sample.urljoin Sample.requests_get Sample.decode_utf8
           Sample.CodeChunker Sample.os_urandom Sample.datetime_now_isoformat
           Sample.encode Sample.collection_insert Sample.collection_flush
           Sample.as_completed Sample.model_name
           "https://github.com/beagle/docs/" "main" 8 empty_world
           (snd (sample_ingest_repository "https://github.com/beagle/docs/" "main" 8
                                          empty_world))
           (returned (NoContent "")
                     (sample_ingest_repository "https://github.com/beagle/docs/" "main" 8
                                               empty_world))
           "beagle" "docs").
  - reflexivity.
  - vm_compute. reflexivity.
  - vm_compute. reflexivity.
Defined.

(** The same run: four files, two records, one batch to the model and one
    to the collection. *)
Example docs_repository_statistics :
  let run := sample_ingest_repository "https://github.com/beagle/docs/" "main" 8 empty_world in
  (exists quality, fst run = Ok (Ingested 4 2 2 1 quality))
  /\ map (fun batch => List.length batch) (encoded (snd run)) = [2]
  /\ map (fun data => List.length (Columns.id data)) (inserted (snd run)) = [2]
  /\ flushes (snd run) = 1.
Proof.
  cbv zeta. split; [eexists; vm_compute; reflexivity|]. repeat split; vm_compute; reflexivity.
Qed.

(** The first scenario, with the set order of the small GitHub. *)
Lemma three_functions_of_the_sample :
  let analysis := analyze_content Sample.list_set Sample.three_functions
                                  (Sample.docs_file "src/three.py") in
  Analysis.language analysis = "python"
  /\ Analysis.has_code analysis = true
  /\ Analysis.has_documentation analysis = false
  /\ Permutation (Analysis.function_names analysis) ["setup"; "blink"; "main"]
  /\ List.length (Analysis.function_names analysis) = 3
  /\ Analysis.class_names analysis = [].
Proof.
  exact (three_functions_scenario Sample.list_set sample_list_set_spec).
Defined.

(** The second scenario, on a GitHub that serves the guide, with a chunker that returns a
    small file whole. *)
Lemma guide_gives_one_record_with_its_image :
  List.length (Re.findall Re.no_flags any_word (String.concat "" (repeat Sample.sentence 10)))
  = 120
  /\ exists r w',
       process_file Sample.list_set Sample.urljoin (fun _ => Ok (Sample.raw Sample.guide))
                    Sample.decode_utf8 Sample.whole_chunker Sample.os_urandom
                    Sample.datetime_now_isoformat Sample.model_name
                    (Sample.docs_file "guide.md") "beagle" "docs" "main" empty_world
       = (Ok [r], w')
       /\ Chunk.document r = Sample.guide
       /\ Chunk.chunk_index r = 0
       /\ Chunk.has_images r = true
       /\ Chunk.image_count r = 1
       /\ Chunk.language r = "markdown".
Proof.
  apply (markdown_image_scenario
           Sample.list_set Sample.urljoin (fun _ => Ok (Sample.raw Sample.guide))
           Sample.decode_utf8 Sample.whole_chunker Sample.os_urandom
           Sample.datetime_now_isoformat Sample.model_name sample_list_set_spec
           (Sample.docs_file "guide.md") "beagle" "docs" "main" empty_world).
  - reflexivity.
  - vm_compute. reflexivity.
  - reflexivity.
  - vm_compute. reflexivity.
Defined.

(** X13 on the server that holds the collection. *)
Lemma collection_of_the_sample_server_is_reused :
  let run := _setup_enhanced_collection Sample.collection_name Sample.encode
                                        Sample.milvus_with_collection new_process in
  exists tail entries,
    calls (snd run)
    = calls new_process
      ++ [has_collection Sample.collection_name; Collection Sample.collection_name None]
      ++ tail
    /\ slept (snd run) = slept new_process
    /\ printed (snd run) = printed new_process
    /\ log (world (snd run)) = log (world new_process) ++ entries
    /\ tail = [load]
    /\ fst run = Ok tt
    /\ last entries (INFO, "") = (INFO, "Using existing collection").
Proof.
  cbv zeta.
  destruct (existing_collection_is_reused
              Sample.collection_name Sample.encode Sample.milvus_with_collection
              new_process [4%Q; 1%Q] [] eq_refl eq_refl)
    as (tail & entries & Hcalls & Hslept & Hprinted & Hlog & Htail & Hrun & Hlast).
  exists tail, entries. repeat split; assumption.
Defined.

(** X14 on the server that refuses the first creation. *)
Lemma refused_creation_is_tried_again :
  let run := _setup_enhanced_collection Sample.collection_name Sample.encode
                                        Sample.milvus_without_collection new_process in
  let schema := (fields 2, schema_description) in
  exists attempts loop_calls rest entries,
    calls (snd run)
    = calls new_process ++ has_collection Sample.collection_name :: loop_calls ++ rest
    /\ (1 <= attempts /\ attempts <= 3)
    /\ List.length (filter is_creation loop_calls) = attempts
    /\ List.length (filter is_drop loop_calls) <= attempts - 1
    /\ Forall (fun c => c = Collection Sample.collection_name (Some schema)
                        \/ c = has_collection Sample.collection_name
                        \/ c = drop_collection Sample.collection_name) loop_calls
    /\ slept (snd run) = slept new_process ++ repeat 3%Z (attempts - 1)
    /\ log (world (snd run)) = log (world new_process) ++ entries
    /\ ((exists e, fst run = Raise e /\ attempts = 3 /\ rest = []
                   /\ In (ERROR, setup_failed_message e) entries)
        \/ (exists index_calls,
              rest = index_calls ++ [load]
              /\ Forall (fun c => is_index c = true) index_calls)).
Proof.
  exact (creation_is_tried_at_most_three_times
           Sample.collection_name Sample.encode Sample.milvus_without_collection
           new_process [4%Q; 1%Q] [] eq_refl eq_refl).
Defined.

(** The same run: the collection is created at the second attempt, after
    3 seconds, and the index on [language] is the only one missing. *)
Example second_creation_and_the_indexes :
  let run := _setup_enhanced_collection Sample.collection_name Sample.encode
                                        Sample.milvus_without_collection new_process in
  let creation := Collection Sample.collection_name (Some (fields 2, schema_description)) in
  fst run = Ok tt
  /\ calls (snd run)
     = [has_collection Sample.collection_name; creation;
        has_collection Sample.collection_name; creation;
        embedding_index;
        create_index "file_type" None; create_index "language" None;
        create_index "repo_name" None; create_index "has_images" None;
        create_index "has_code" None;
        load]
  /\ slept (snd run) = [3%Z]
  /\ filter (fun entry => match fst entry with INFO => false | _ => true end)
            (log (world (snd run)))
     = [(WARNING, "Collection creation attempt 1 failed: node not match");
        (WARNING, "Could not create index for language: index not supported")].
Proof. vm_compute. repeat split. Qed.

(** X15 on the server that cannot build the vector index. *)
Lemma failed_vector_index_is_passed_over :
  let run := _setup_enhanced_collection Sample.collection_name Sample.encode
                                        Sample.milvus_at_once new_process in
  let creation := [has_collection Sample.collection_name;
                   Collection Sample.collection_name
                              (Some (fields 2, schema_description))] in
  exists index_calls entries,
    calls (snd run) = calls new_process ++ creation ++ index_calls ++ [load]
    /\ slept (snd run) = slept new_process
    /\ log (world (snd run)) = log (world new_process) ++ entries
    /\ match Sample.milvus_at_once (calls new_process ++ creation) embedding_index with
       | Ok _ => index_calls = embedding_index :: scalar_index_calls
       | Raise _ => index_calls = [embedding_index]
       end
    /\ match Sample.milvus_at_once (calls new_process ++ creation ++ index_calls) load with
       | Ok _ => fst run = Ok tt
                 /\ last entries (INFO, "") = (INFO, ready_message Sample.collection_name)
                 /\ Forall (fun entry => is_error entry = false) entries
       | Raise e => fst run = Raise e /\ In (ERROR, setup_failed_message e) entries
       end.
Proof.
  exact (index_failures_are_passed_over
           Sample.collection_name Sample.encode Sample.milvus_at_once
           new_process [4%Q; 1%Q] [] true eq_refl eq_refl eq_refl).
Defined.


(** The calls of that constructor. *)
Example calls_of_the_sample_constructor :
  calls (snd (__init__ Sample.model_name Sample.collection_name Sample.MILVUS_HOST
                       Sample.MILVUS_PORT VNone VNone VNone VNone false Sample.loaded
                       Sample.loaded Sample.encode Sample.milvus_with_collection
                       new_process))
  = [disconnect "default";
     connect [("alias", VStr "default"); ("timeout", VInt 30);
              ("host", VStr "localhost"); ("port", VInt 19530)];
     list_collections;
     has_collection "beaglemind_col"; Collection "beaglemind_col" None; load].
Proof. vm_compute. reflexivity. Qed.

(** [main] on the samples, with the server that holds the collection. *)
Definition sample_main (repo_url : string) (max_workers : Z) : P unit :=
  main Sample.list_set Sample.urljoin Sample.requests_get Sample.decode_utf8
       Sample.CodeChunker Sample.os_urandom Sample.datetime_now_isoformat Sample.encode
       Sample.collection_insert Sample.collection_flush Sample.as_completed
       Sample.model_name Sample.collection_name Sample.MILVUS_HOST Sample.MILVUS_PORT
       VNone VNone VNone VNone false Sample.loaded Sample.loaded Sample.encode
       Sample.milvus_with_collection repo_url "main" max_workers.

(** What [main] prints for [beagle/docs], for the repository with nothing
    to process, without a worker, and for a URL that is not of GitHub over
    HTTPS; for the last one nothing is requested. *)
Example main_on_the_samples :
  let after repo_url max_workers := snd (sample_main repo_url max_workers new_process) in
  printed (after "https://github.com/beagle/docs/" 8%Z)
  = [Summary "beagle" "docs" "main" "beaglemind_col" 4 2 2 1 (48 # 72);
     Completed; SearchHint "beaglemind_col"]
  /\ printed (after "https://github.com/beagle/stub" 8%Z)
     = [Failed "No processable content found"]
  /\ printed (after "https://github.com/beagle/docs/" 0%Z)
     = [Traceback (ValueError "max_workers must be greater than 0")]
  /\ requested (world (after "https://github.com/beagle/docs/" 0%Z))
     = ["https://api.github.com/repos/beagle/docs";
        "https://api.github.com/repos/beagle/docs/git/trees/main?recursive=1"]
  /\ printed (after "http://github.com/beagle/docs" 8%Z)
     = [Traceback (ValueError "Invalid GitHub repository URL: http://github.com/beagle/docs")]
  /\ requested (world (after "http://github.com/beagle/docs" 8%Z)) = [].
Proof. vm_compute. repeat split. Qed.

(** A list of two names, written in 18 characters: whole, and cut after
    ten characters. *)
Example cut_names_cannot_be_read_back :
  len (json_dumps ["setup"; "blink"]) = 18
  /\ json_loads (slice_to 2000 (json_dumps ["setup"; "blink"])) = Some ["setup"; "blink"]
  /\ json_loads (slice_to 10 (json_dumps ["setup"; "blink"])) = None.
Proof. vm_compute. repeat split. Qed.

(** X21 on an image of the board and a chunk about file formats. *)
Lemma board_image_is_attached_to_a_chunk_about_formats :
  In "https://github.com/beagle/docs/blob/main/images/Board.PNG"
     (chunk_images ["https://github.com/beagle/docs/blob/main/images/Board.PNG"]
                   "Convert the photographs to png before the upload.").
Proof.
  apply (image_is_attached_where_its_extension_occurs
           ["https://github.com/beagle/docs/blob/main/images/Board.PNG"]
           "Convert the photographs to png before the upload."
           "https://github.com/beagle/docs/blob/main/images/Board.PNG" "board" "png").
  - left. reflexivity.
  - reflexivity.
  - reflexivity.
  - reflexivity.
Defined.
